(** * GitLab orchestration pipeline of the Claude action: a shallow embedding

    The development follows two entry points of the repository:

    - [src/entrypoints/update-comment-gitlab.ts], the tracking comment
      updater ([getExecutionDetails], [formatGitLabCommentBody]);
    - the unified GitLab entry point that follows it in the same source file
      ([runPreparePhase], [runExecutePhase], [checkGitStatus],
      [createMergeRequest], [postClaudeResponse], [runUpdatePhase], [main]).

    JavaScript strings are modelled by their bytes in UTF-8, numbers as IEEE-754
    doubles given by their exact dyadic value, JSON values as an inductive
    type with a parser, and everything the program asks of its host (shell
    commands, the file system, the environment, the clock) as the fields of
    a [Runtime] over an abstract world.  [console.log] and friends have no
    effect on control flow and are left out. *)

From Stdlib Require Import String Ascii ZArith List Lia Bool DecimalString DecimalN.
Import ListNotations.
Set Warnings "-register-all".
Local Open Scope string_scope.
Local Open Scope Z_scope.

(** ** JavaScript string primitives *)

Module JsString.

Definition code (c : ascii) : N := N_of_ascii c.

(** [String.prototype.trim] removes the characters of the ECMAScript
    [WhiteSpace] and [LineTerminator] sets.  Six of them are one byte in
    UTF-8: TAB, LF, VT, FF, CR and SPACE. *)
Definition is_ws (c : ascii) : bool :=
  let n := code c in
  ((9 <=? n) && (n <=? 13))%N || (n =? 32)%N.

(** U+00A0, the no-break space: [C2 A0]. *)
Definition is_ws2 (a b : ascii) : bool :=
  ((code a =? 194) && (code b =? 160))%N.

(** The white space of three bytes: U+1680 [E1 9A 80]; U+2000 to U+200A,
    U+2028, U+2029 and U+202F [E2 80 80..8A, A8, A9, AF]; U+205F
    [E2 81 9F]; U+3000 [E3 80 80]; U+FEFF, the byte order mark,
    [EF BB BF]. *)
Definition is_ws3 (a b c : ascii) : bool :=
  let x := code a in
  let y := code b in
  let z := code c in
  (((x =? 225) && ((y =? 154) && (z =? 128)))
   || ((x =? 226) && ((y =? 128)
                      && (((128 <=? z) && (z <=? 138))
                          || (z =? 168) || (z =? 169) || (z =? 175))))
   || ((x =? 226) && ((y =? 129) && (z =? 159)))
   || ((x =? 227) && ((y =? 128) && (z =? 128)))
   || ((x =? 239) && ((y =? 187) && (z =? 191))))%N.

Definition lf : ascii := ascii_of_N 10.
Definition dquote : ascii := ascii_of_N 34.

Definition is_empty (s : string) : bool :=
  match s with EmptyString => true | String _ _ => false end.

(** JavaScript truthiness of a string. *)
Definition truthy (s : string) : bool := negb (is_empty s).

(** The bytes a white-space character begins with. *)
Definition ws_first (c : ascii) : bool :=
  let n := code c in
  (is_ws c || (n =? 194) || (n =? 225) || (n =? 226) || (n =? 227)
   || (n =? 239))%N.

(** What follows the white-space character at the head of the text, if
    there is one. *)
Definition ws_head (s : string) : option string :=
  match s with
  | EmptyString => None
  | String a r =>
      if is_ws a then Some r
      else match r with
           | EmptyString => None
           | String b r2 =>
               if is_ws2 a b then Some r2
               else match r2 with
                    | EmptyString => None
                    | String c r3 => if is_ws3 a b c then Some r3 else None
                    end
           end
  end.

(** [s.trimStart()] *)
Fixpoint trim_start (s : string) : string :=
  match s with
  | EmptyString => EmptyString
  | String a r =>
      if is_ws a then trim_start r
      else match r with
           | EmptyString => s
           | String b r2 =>
               if is_ws2 a b then trim_start r2
               else match r2 with
                    | EmptyString => s
                    | String c r3 => if is_ws3 a b c then trim_start r3 else s
                    end
           end
  end.

(** The text is white space from end to end. *)
Fixpoint all_ws (s : string) : bool :=
  match s with
  | EmptyString => true
  | String a r =>
      if is_ws a then all_ws r
      else match r with
           | EmptyString => false
           | String b r2 =>
               if is_ws2 a b then all_ws r2
               else match r2 with
                    | EmptyString => false
                    | String c r3 => if is_ws3 a b c then all_ws r3 else false
                    end
           end
  end.

(** [s.trimEnd()]: the text up to the first place from which on there is
    white space only. *)
Fixpoint trim_end (s : string) : string :=
  match s with
  | EmptyString => EmptyString
  | String c r => if all_ws s then EmptyString else String c (trim_end r)
  end.

(** [s.trim()] *)
Definition trim (s : string) : string := trim_end (trim_start s).

(** [s.length], the number of UTF-16 code units of the text: one for
    each character of one, two or three bytes, two for a character of
    four bytes, which is a surrogate pair. *)
Fixpoint units (s : string) : nat :=
  match s with
  | EmptyString => O
  | String c r =>
      let n := code c in
      if ((128 <=? n) && (n <? 192))%N then units r
      else if (240 <=? n)%N then S (S (units r))
      else S (units r)
  end.

(** [s.includes(sub)] *)
Fixpoint includes (s sub : string) : bool :=
  prefix sub s ||
  match s with
  | EmptyString => false
  | String _ r => includes r sub
  end.

(** [s.endsWith(suf)] *)
Fixpoint endsWith (s suf : string) : bool :=
  (s =? suf)%string ||
  match s with
  | EmptyString => false
  | String _ r => endsWith r suf
  end.

(** [s.substring(n)] *)
Fixpoint substring_from (n : nat) (s : string) : string :=
  match n, s with
  | O, _ => s
  | S _, EmptyString => EmptyString
  | S k, String _ r => substring_from k r
  end.

(** [s.split("\n")]: never empty, one empty line for the empty string. *)
Fixpoint split_lines (s : string) : list string :=
  match s with
  | EmptyString => [EmptyString]
  | String c r =>
      if Ascii.eqb c lf then EmptyString :: split_lines r
      else match split_lines r with
           | h :: t => String c h :: t
           | [] => [String c EmptyString]
           end
  end.

(** [lines.join("\n")], the inverse of [split_lines]. *)
Fixpoint join_lines (ls : list string) : string :=
  match ls with
  | [] => EmptyString
  | [l] => l
  | l :: rest => l ++ String lf (join_lines rest)
  end.

(** No line feed inside: the text is a single line. *)
Fixpoint no_lf (s : string) : bool :=
  match s with
  | EmptyString => true
  | String c r => negb (Ascii.eqb c lf) && no_lf r
  end.

(** Writes a literal with apostrophes where the text has double quotes. *)
Fixpoint q (s : string) : string :=
  match s with
  | EmptyString => EmptyString
  | String c r => String (if Ascii.eqb c "'"%char then dquote else c) (q r)
  end.

Definition of_N (n : N) : string := NilZero.string_of_uint (N.to_uint n).

(** [s.replace(pat, by)] with a string pattern: the first occurrence. *)
Fixpoint replace_first (pat by_ s : string) : string :=
  if prefix pat s then by_ ++ substring_from (String.length pat) s
  else match s with
       | EmptyString => EmptyString
       | String c r => String c (replace_first pat by_ r)
       end.

(** [s.replace(/pat/g, by)] for a literal, non-empty pattern: every
    occurrence, left to right, without overlap. *)
Fixpoint replace_all_fuel (fuel : nat) (pat by_ s : string) : string :=
  match fuel with
  | O => s
  | S f =>
      if prefix pat s
      then by_ ++ replace_all_fuel f pat by_ (substring_from (String.length pat) s)
      else match s with
           | EmptyString => EmptyString
           | String c r => String c (replace_all_fuel f pat by_ r)
           end
  end.

Definition replace_all (pat by_ s : string) : string :=
  if is_empty pat then s else replace_all_fuel (S (String.length s)) pat by_ s.

End JsString.

(** ** JavaScript numbers *)

Module JsNumber.

(** A double is its exact value [m * 2^e], an infinity, or NaN.  The sign
    of zero is not kept. *)
Inductive jsnum : Type :=
| Fin (m e : Z)
| Inf (negative : bool)
| NaN.

Definition round_half_even (num den : Z) : Z :=
  let fl := num / den in
  let r2 := 2 * (num mod den) in
  if r2 <? den then fl
  else if den <? r2 then fl + 1
  else if Z.even fl then fl else fl + 1.

(** Scales [p/q] by [2^-e] and returns it as a fraction. *)
Definition scaled (p q e : Z) : Z * Z :=
  if 0 <=? e then (p, q * 2 ^ e) else (p * 2 ^ (- e), q).

(** The double nearest to the positive rational [p/q] (ties to even):
    binary64 has 53 significant bits, least exponent -1074 and overflows
    to infinity from [2^1024]. *)
Definition nearest (negative : bool) (p q : Z) : jsnum :=
  if (p <=? 0) || (q <=? 0) then Fin 0 0
  else
    let e1 := Z.log2 p - Z.log2 q - 52 in
    let '(n1, d1) := scaled p q e1 in
    let e2 := if n1 / d1 <? 2 ^ 52 then e1 - 1 else e1 in
    let e := Z.max e2 (-1074) in
    let '(n, d) := scaled p q e in
    let m := round_half_even n d in
    if 1024 <=? Z.log2 m + e then Inf negative
    else Fin (if negative then - m else m) e.

Definition of_Z (z : Z) : jsnum := nearest (z <? 0) (Z.abs z) 1.

(** The value of a decimal literal [mant * 10^exp10]. *)
Definition of_decimal (negative : bool) (mant exp10 : Z) : jsnum :=
  if 0 <=? exp10 then nearest negative (mant * 10 ^ exp10) 1
  else nearest negative mant (10 ^ (- exp10)).

(** [x / k] for a positive integer constant [k]. *)
Definition div_const (x : jsnum) (k : Z) : jsnum :=
  match x with
  | Fin m e =>
      if 0 <=? e then nearest (m <? 0) (Z.abs m * 2 ^ e) k
      else nearest (m <? 0) (Z.abs m) (k * 2 ^ (- e))
  | Inf s => Inf s
  | NaN => NaN
  end.

(** JavaScript truthiness: false for zero and NaN. *)
Definition truthy (x : jsnum) : bool :=
  match x with
  | Fin m _ => negb (m =? 0)
  | Inf _ => true
  | NaN => false
  end.

Fixpoint zeros (n : nat) : string :=
  match n with O => EmptyString | S k => String "0" (zeros k) end.

(** Digits of [n] with a point before the last [d] of them, padded with
    zeros on the left to at least [d + 1] digits. *)
Definition place_point (d : nat) (n : Z) : string :=
  let ds := JsString.of_N (Z.to_N n) in
  let padded := zeros (S d - String.length ds) ++ ds in
  let k := (String.length padded - d)%nat in
  if Nat.eqb d 0 then padded
  else String.substring 0 k padded ++ "." ++ JsString.substring_from k padded.

(** The double nearest to the integer [a >= 0], as an integer; [None]
    when that is an infinity.  Every integer below [2^53] is a double. *)
Definition round_integer (a : Z) : option Z :=
  match nearest false a 1 with
  | Fin m e => Some (if 0 <=? e then m * 2 ^ e else m / 2 ^ (- e))
  | _ => None
  end.

(** The decimal [v] is read as the double [a]. *)
Definition reads_as (a v : Z) : bool :=
  match round_integer v with
  | Some r => r =? a
  | None => false
  end.

(** Of the two multiples of [unit] around [a], the one that is read as
    [a]; of two that are, the nearer one, the even one when they are as
    near. *)
Definition pick_digits (a unit : Z) : option Z :=
  let lo := a / unit in
  let fits s := (0 <? s) && reads_as a (s * unit) in
  match fits lo, fits (lo + 1) with
  | true, true =>
      let below := a - lo * unit in
      let above := (lo + 1) * unit - a in
      if below <? above then Some lo
      else if above <? below then Some (lo + 1)
      else if Z.even lo then Some lo else Some (lo + 1)
  | true, false => Some lo
  | false, true => Some (lo + 1)
  | false, false => None
  end.

(** [Number::toString], the choice of the digits: [s] and [p] with
    [s * 10^p] read as the double [a] and [s] of as few digits as
    possible.  The search goes from the largest [p] down. *)
Fixpoint shortest_from (p : nat) (a : Z) : Z * nat :=
  match pick_digits a (10 ^ Z.of_nat p) with
  | Some s => (s, p)
  | None =>
      match p with
      | O => (a, O)
      | S p' => shortest_from p' a
      end
  end.

(** [Number::toString] of a double that is the integer [a >= 0]: the
    digits [s] followed by [p] zeros while the text has at most 21
    digits, and the exponent notation [d.ddde+n] from [10^21] on. *)
Definition integer_text (a : Z) : string :=
  let '(s, p) :=
    shortest_from (String.length (JsString.of_N (Z.to_N a))) a in
  let v := s * 10 ^ Z.of_nat p in
  if v <? 10 ^ 21 then JsString.of_N (Z.to_N v)
  else
    let ds := JsString.of_N (Z.to_N s) in
    let e := JsString.of_N (N.of_nat (String.length ds + p - 1)) in
    match ds with
    | EmptyString => EmptyString
    | String d EmptyString => String d ("e+" ++ e)
    | String d more => String d ("." ++ more ++ "e+" ++ e)
    end.

(** [String(x)] for the double [x] nearest to the integer [z]. *)
Definition print_integer (z : Z) : string :=
  match round_integer (Z.abs z) with
  | Some a => (if z <? 0 then "-" else EmptyString) ++ integer_text a
  | None => if z <? 0 then "-Infinity" else "Infinity"
  end.

(** [x.toFixed(d)] (ECMAScript, Number.prototype.toFixed): the integer [n]
    with [n / 10^d - x] closest to zero, the larger one on a tie.  A
    finite value of magnitude [10^21] or more, which is an integer, is
    printed as [ToString] prints it.  The result is never [None]. *)
Definition toFixed (d : nat) (x : jsnum) : option string :=
  match x with
  | NaN => Some "NaN"
  | Inf false => Some "Infinity"
  | Inf true => Some "-Infinity"
  | Fin m e =>
      let a := Z.abs m in
      let sign := if m <? 0 then "-" else EmptyString in
      let big := if 0 <=? e then 10 ^ 21 <=? a * 2 ^ e
                 else 10 ^ 21 * 2 ^ (- e) <=? a in
      if big then
        match (if 0 <=? e then nearest false (a * 2 ^ e) 1
               else nearest false a (2 ^ (- e))) with
        | Fin m' e' =>
            Some (sign ++ integer_text
                            (if 0 <=? e' then m' * 2 ^ e' else m' / 2 ^ (- e')))
        | Inf _ => Some (sign ++ "Infinity")
        | NaN => Some "NaN"
        end
      else
        let p := 10 ^ Z.of_nat d in
        let n := if 0 <=? e then a * 2 ^ e * p
                 else (2 * a * p + 2 ^ (- e)) / (2 * 2 ^ (- e)) in
        Some (sign ++ place_point d n)
  end.

End JsNumber.

(** ** JSON values and [JSON.parse] *)

Module Json.

Import JsString.

Inductive json : Type :=
| JNull
| JBool (b : bool)
| JNum (n : JsNumber.jsnum)
| JStr (s : string)
| JArr (items : list json)
| JObj (fields : list (string * json)).

(** The four white-space characters of the JSON grammar. *)
Definition is_json_ws (c : ascii) : bool :=
  let n := code c in
  ((n =? 32) || (n =? 9) || (n =? 10) || (n =? 13))%N.

Fixpoint skip_ws (s : string) : string :=
  match s with
  | EmptyString => EmptyString
  | String c r => if is_json_ws c then skip_ws r else s
  end.

Definition digit_val (c : ascii) : option Z :=
  let n := code c in
  if ((48 <=? n) && (n <=? 57))%N then Some (Z.of_N n - 48) else None.

Definition hex_val (c : ascii) : option Z :=
  let n := code c in
  if ((48 <=? n) && (n <=? 57))%N then Some (Z.of_N n - 48)
  else if ((65 <=? n) && (n <=? 70))%N then Some (Z.of_N n - 55)
  else if ((97 <=? n) && (n <=? 102))%N then Some (Z.of_N n - 87)
  else None.

Definition byte (z : Z) : ascii := ascii_of_N (Z.to_N z).

(** UTF-8 bytes of one UTF-16 code unit; the two halves of a surrogate
    pair are encoded one by one. *)
Definition utf8 (u : Z) : string :=
  if u <? 128 then String (byte u) EmptyString
  else if u <? 2048 then
    String (byte (192 + u / 64)) (String (byte (128 + u mod 64)) EmptyString)
  else
    String (byte (224 + u / 4096))
      (String (byte (128 + (u / 64) mod 64))
         (String (byte (128 + u mod 64)) EmptyString)).

Definition simple_escape (c : ascii) : option ascii :=
  match code c with
  | 34%N => Some dquote
  | 92%N => Some (ascii_of_N 92)
  | 47%N => Some (ascii_of_N 47)
  | 98%N => Some (ascii_of_N 8)
  | 102%N => Some (ascii_of_N 12)
  | 110%N => Some lf
  | 114%N => Some (ascii_of_N 13)
  | 116%N => Some (ascii_of_N 9)
  | _ => None
  end.

Definition cons_str (pre : string) (r : option (string * string))
  : option (string * string) :=
  match r with
  | Some (body, rest) => Some (pre ++ body, rest)
  | None => None
  end.

(** The characters of a string literal after its opening quote, up to and
    including the closing quote. *)
Fixpoint parse_chars (s : string) : option (string * string) :=
  match s with
  | EmptyString => None
  | String c r =>
      if Ascii.eqb c dquote then Some (EmptyString, r)
      else if (code c =? 92)%N then
        match r with
        | EmptyString => None
        | String e r1 =>
            match simple_escape e with
            | Some ch => cons_str (String ch EmptyString) (parse_chars r1)
            | None =>
                if (code e =? 117)%N then
                  match r1 with
                  | String h1 (String h2 (String h3 (String h4 r2))) =>
                      match hex_val h1, hex_val h2, hex_val h3, hex_val h4 with
                      | Some a, Some b, Some c', Some d =>
                          cons_str (utf8 (((a * 16 + b) * 16 + c') * 16 + d))
                                   (parse_chars r2)
                      | _, _, _, _ => None
                      end
                  | _ => None
                  end
                else None
            end
        end
      else if (code c <? 32)%N then None
      else cons_str (String c EmptyString) (parse_chars r)
  end.

(** A maximal run of decimal digits: its value, its length, the rest. *)
Fixpoint take_digits (acc : Z) (n : Z) (s : string) : Z * Z * string :=
  match s with
  | EmptyString => (acc, n, s)
  | String c r =>
      match digit_val c with
      | Some d => take_digits (acc * 10 + d) (n + 1) r
      | None => (acc, n, s)
      end
  end.

Definition parse_exponent (s : string) : option (Z * string) :=
  match s with
  | String c r =>
      if ((code c =? 101) || (code c =? 69))%N then
        let '(neg, r1) :=
          match r with
          | String sg r' =>
              if (code sg =? 45)%N then (true, r')
              else if (code sg =? 43)%N then (false, r')
              else (false, r)
          | EmptyString => (false, r)
          end in
        let '(v, n, rest) := take_digits 0 0 r1 in
        if n =? 0 then None else Some (if neg then - v else v, rest)
      else Some (0, s)
  | EmptyString => Some (0, s)
  end.

(** A JSON number: an optional minus sign, an integer part without
    leading zeros, an optional fraction, an optional exponent. *)
Definition parse_number (s : string) : option (JsNumber.jsnum * string) :=
  let '(neg, s1) :=
    match s with
    | String c r => if (code c =? 45)%N then (true, r) else (false, s)
    | EmptyString => (false, s)
    end in
  let '(ip, ilen, s2) := take_digits 0 0 s1 in
  let leading_zero :=
    match s1 with
    | String c _ => (code c =? 48)%N
    | EmptyString => false
    end in
  if (ilen =? 0) || (leading_zero && (1 <? ilen)) then None
  else
    let frac :=
      match s2 with
      | String c r =>
          if (code c =? 46)%N then
            let '(m, flen, s3) := take_digits ip 0 r in
            if flen =? 0 then None else Some (m, flen, s3)
          else Some (ip, 0, s2)
      | EmptyString => Some (ip, 0, s2)
      end in
    match frac with
    | None => None
    | Some (mant, flen, s3) =>
        match parse_exponent s3 with
        | None => None
        | Some (ex, rest) =>
            Some (JsNumber.of_decimal neg mant (ex - flen), rest)
        end
    end.

Definition expect (lit : string) (v : json) (s : string)
  : option (json * string) :=
  if prefix lit s then Some (v, substring_from (String.length lit) s)
  else None.

(** Recursive descent; [fuel] bounds the nesting of the calls, two for
    each character are enough. *)
Fixpoint parse_value (fuel : nat) (s : string) {struct fuel}
  : option (json * string) :=
  match fuel with
  | O => None
  | S f =>
      match skip_ws s with
      | EmptyString => None
      | String c r =>
          match code c with
          | 123%N => (* an object *)
              match skip_ws r with
              | String c1 r1 =>
                  if (code c1 =? 125)%N then Some (JObj [], r1)
                  else match parse_members f (skip_ws r) with
                       | Some (fs, rest) => Some (JObj fs, rest)
                       | None => None
                       end
              | EmptyString => None
              end
          | 91%N => (* an array *)
              match skip_ws r with
              | String c1 r1 =>
                  if (code c1 =? 93)%N then Some (JArr [], r1)
                  else match parse_elements f r with
                       | Some (vs, rest) => Some (JArr vs, rest)
                       | None => None
                       end
              | EmptyString => None
              end
          | 34%N =>
              match parse_chars r with
              | Some (str, rest) => Some (JStr str, rest)
              | None => None
              end
          | 116%N => expect "true" (JBool true) (String c r)
          | 102%N => expect "false" (JBool false) (String c r)
          | 110%N => expect "null" JNull (String c r)
          | _ =>
              match parse_number (String c r) with
              | Some (n, rest) => Some (JNum n, rest)
              | None => None
              end
          end
      end
  end

with parse_elements (fuel : nat) (s : string) {struct fuel}
  : option (list json * string) :=
  match fuel with
  | O => None
  | S f =>
      match parse_value f s with
      | None => None
      | Some (v, rest) =>
          match skip_ws rest with
          | String c r =>
              if (code c =? 44)%N then
                match parse_elements f r with
                | Some (vs, rest') => Some (v :: vs, rest')
                | None => None
                end
              else if (code c =? 93)%N then Some ([v], r)
              else None
          | EmptyString => None
          end
      end
  end

with parse_members (fuel : nat) (s : string) {struct fuel}
  : option (list (string * json) * string) :=
  match fuel with
  | O => None
  | S f =>
      match skip_ws s with
      | String c r =>
          if Ascii.eqb c dquote then
            match parse_chars r with
            | None => None
            | Some (key, rest) =>
                match skip_ws rest with
                | String c1 r1 =>
                    if (code c1 =? 58)%N then
                      match parse_value f r1 with
                      | None => None
                      | Some (v, rest1) =>
                          match skip_ws rest1 with
                          | String c2 r2 =>
                              if (code c2 =? 44)%N then
                                match parse_members f r2 with
                                | Some (fs, rest2) =>
                                    Some ((key, v) :: fs, rest2)
                                | None => None
                                end
                              else if (code c2 =? 125)%N
                              then Some ([(key, v)], r2)
                              else None
                          | EmptyString => None
                          end
                      end
                    else None
                | EmptyString => None
                end
            end
          else None
      | EmptyString => None
      end
  end.

(** [JSON.parse(s)]; [None] stands for the [SyntaxError] it throws. *)
Definition parse (s : string) : option json :=
  match parse_value (2 * String.length s + 2) s with
  | Some (v, rest) => if is_empty (skip_ws rest) then Some v else None
  | None => None
  end.

(** *** Property access and truthiness on parsed values *)

(** Own property of an object; of two equal keys the later one wins. *)
Fixpoint lookup (key : string) (fs : list (string * json)) : option json :=
  match fs with
  | [] => None
  | (k, v) :: rest =>
      match lookup key rest with
      | Some v' => Some v'
      | None => if (k =? key)%string then Some v else None
      end
  end.

(** The result of [v.key] for the keys the program reads ([type],
    [result], [message], [content], [text], [cost_usd], [duration_ms]),
    none of which a primitive, an array or [Object.prototype] has. *)
Inductive prop : Type :=
| PThrow               (* TypeError: v is null *)
| PUndefined
| PValue (v : json).

Definition get (v : json) (key : string) : prop :=
  match v with
  | JNull => PThrow
  | JObj fs =>
      match lookup key fs with
      | Some x => PValue x
      | None => PUndefined
      end
  | _ => PUndefined
  end.

(** [key in v] for an object [v]. *)
Definition has (v : json) (key : string) : bool :=
  match v with
  | JObj fs => match lookup key fs with Some _ => true | None => false end
  | _ => false
  end.

Definition truthy (v : json) : bool :=
  match v with
  | JNull => false
  | JBool b => b
  | JNum n => JsNumber.truthy n
  | JStr s => JsString.truthy s
  | JArr _ => true
  | JObj _ => true
  end.

(** The value read, with [null] standing for [undefined] where the two
    behave alike (truthiness, [??], [?.]). *)
Definition prop_value (p : prop) : json :=
  match p with PValue v => v | _ => JNull end.

(** [p === "lit"] *)
Definition is_string (p : prop) (lit : string) : bool :=
  match p with
  | PValue (JStr s) => (s =? lit)%string
  | _ => false
  end.

End Json.

(** ** The host: shell, file system, environment *)

Module Host.

Import JsString.

(** What a Bun shell call [await $`...`] gives back: the finished command
    with its exit code and output, or a rejected promise.  Bun rejects on
    a non-zero exit code unless told not to; the program also tests
    [exitCode] itself, so both behaviours are kept and the choice is the
    runtime's. *)
Inductive cmd_result : Type :=
| Completed (exitCode : Z) (stdout stderr : string)
| Rejected (message : string).

Record shell_output : Type := ShellOutput {
  exitCode : Z;
  stdout : string;
  stderr : string
}.

(** Every call the program makes that acts on the world outside it. *)
Inductive Cmd : Type :=
| Chdir (dir : string)                        (* process.chdir(dir) *)
| BunRunPrepare                               (* bun run prepare.ts *)
| GitFetch (branch : string)                  (* git fetch origin b:b *)
| GitCheckout (branch : string)               (* git checkout b *)
| GitCheckoutNew (branch : string)            (* git checkout -b b *)
| GitRevParseHead                             (* git rev-parse --abbrev-ref HEAD *)
| BunInstallClaude                            (* bun install -g @anthropic-ai/claude-code@2.1.15 *)
| BunInstallDeps                              (* cd base-action && bun install *)
| BunRunBaseAction (env : list (string * string))
| GitRemoteGetUrl                             (* git remote get-url origin *)
| FindDelete (pattern : string) (skipNodeModules : bool)
| RmRf (dir : string)                         (* rm -rf dir *)
| GitStatusPorcelain                          (* git status --porcelain *)
| GitConfig (key value : string)              (* git config key value *)
| GitAddAll                                   (* git add -A *)
| GitResetHead (paths : list string)          (* git reset HEAD -- paths *)
| GitCheckoutPaths (paths : list string)      (* git checkout -- paths *)
| GitStatusShort                              (* git status --short *)
| GitCommit (message : string)                (* git commit -m message *)
| GitRemoteSetUrl (url : string)              (* git remote set-url origin url *)
| GitPush (target title description branch : string)
| CreateComment (body : string)               (* provider.createComment(body) *)
| BunRunUpdate (env : list (string * string)) (* bun run update-comment-gitlab.ts *).

(** The services of the host.  [sh] runs a command in a world and gives
    its result and the world after it; the others read the world.
    [readFile] is [None] when reading throws.  [numberToString] is
    [Number.prototype.toString], which this model leaves to the runtime. *)
Class Runtime (World : Type) : Type := {
  sh : Cmd -> World -> cmd_result * World;
  getenv : World -> string -> option string;
  existsSync : World -> string -> bool;
  readFile : World -> string -> option string;
  now : World -> Z;
  numberToString : JsNumber.jsnum -> string
}.

(** *** Computations: state, a log of the commands issued, exceptions *)

Inductive outcome (A : Type) : Type :=
| Ok (a : A)
| Throw (message : string).
Arguments Ok {A} a.
Arguments Throw {A} message.

Section Monad.
Context {World : Type} {RT : Runtime World}.

(** The world and the commands issued so far, oldest first. *)
Definition St : Type := World * list Cmd.

Definition M (A : Type) : Type := St -> outcome A * St.

(** A computation that cannot throw: a function whose body is one
    [try ... catch] that returns in both branches. *)
Definition T (A : Type) : Type := St -> A * St.

Definition ret {A} (a : A) : M A := fun st => (Ok a, st).

Definition bind {A B} (m : M A) (k : A -> M B) : M B :=
  fun st =>
    match m st with
    | (Ok a, st') => k a st'
    | (Throw e, st') => (Throw e, st')
    end.

Definition throw {A} (message : string) : M A :=
  fun st => (Throw message, st).

(** [try { m } catch (e) { h e }] *)
Definition try_catch {A} (m : M A) (h : string -> M A) : M A :=
  fun st =>
    match m st with
    | (Ok a, st') => (Ok a, st')
    | (Throw e, st') => h e st'
    end.

(** A function body [try { m } catch (e) { return h e }]. *)
Definition total {A} (m : M A) (h : string -> A) : T A :=
  fun st =>
    match m st with
    | (Ok a, st') => (a, st')
    | (Throw e, st') => (h e, st')
    end.

Definition lift {A} (t : T A) : M A :=
  fun st => let '(a, st') := t st in (Ok a, st').

Definition world : M World := fun st => (Ok (fst st), st).

(** [await $`c`]: the command is logged, then run. *)
Definition run (c : Cmd) : M shell_output :=
  fun st =>
    let '(w, log) := st in
    match sh c w with
    | (Completed code out err, w') => (Ok (ShellOutput code out err), (w', (log ++ [c])%list))
    | (Rejected e, w') => (Throw e, (w', (log ++ [c])%list))
    end.

(** [try { await $`c` } catch { }] *)
Definition run_ignoring (c : Cmd) : M unit :=
  try_catch (bind (run c) (fun _ => ret tt)) (fun _ => ret tt).

Fixpoint for_each {A} (f : A -> M unit) (l : list A) : M unit :=
  match l with
  | [] => ret tt
  | a :: rest => bind (f a) (fun _ => for_each f rest)
  end.

End Monad.

Declare Scope js_scope.
Delimit Scope js_scope with js.
Notation "x <- m ;; k" := (bind m (fun x => k))
  (at level 61, m at next level, right associativity) : js_scope.
Notation "m ;; k" := (bind m (fun _ => k))
  (at level 61, right associativity) : js_scope.

(** *** Reading the environment *)

Section Env.
Context {World : Type} {RT : Runtime World}.

(** [process.env.NAME || ...]: an unset and an empty variable are both
    falsy. *)
Definition env_truthy (w : World) (name : string) : option string :=
  match getenv w name with
  | Some v => if truthy v then Some v else None
  | None => None
  end.

(** [a || b] on optional strings. *)
Definition or_else (a : option string) (b : string) : string :=
  match a with Some v => v | None => b end.

(** [`${process.env.NAME}`] *)
Definition env_text (w : World) (name : string) : string :=
  match getenv w name with Some v => v | None => "undefined" end.

(** [process.env.NAME === lit] *)
Definition env_is (w : World) (name lit : string) : bool :=
  match getenv w name with
  | Some v => (v =? lit)%string
  | None => false
  end.

(** [process.env.CI_BUILDS_DIR || process.env.RUNNER_TEMP || "/tmp"] *)
Definition tempDir (w : World) : string :=
  match env_truthy w "CI_BUILDS_DIR" with
  | Some d => d
  | None => or_else (env_truthy w "RUNNER_TEMP") "/tmp"
  end.

(** [path.join(dir, name)] for a directory and a plain file name;
    the normalisation [path.join] also does is not modelled. *)
Definition path_join (dir name : string) : string := dir ++ "/" ++ name.

Definition jsonOutputPath (w : World) : string :=
  path_join (tempDir w) "claude-execution-output.json".

Definition txtOutputPath (w : World) : string :=
  path_join (tempDir w) "output.txt".

(** The loop both readers run over their candidate files:
    [[
      for (const filePath of possibleFiles) {
        try {
          if (fs.existsSync(filePath)) {
            fileContent = await fs.promises.readFile(filePath, "utf8");
            foundFile = filePath;
            break;
          }
        } catch (error) { continue; }
      }
    ]]
    The result is [(fileContent, foundFile)], both empty at the start. *)
Fixpoint readFirstExisting (w : World) (files : list string)
  : string * string :=
  match files with
  | [] => (EmptyString, EmptyString)
  | p :: rest =>
      if existsSync w p then
        match readFile w p with
        | Some content => (content, p)
        | None => readFirstExisting w rest
        end
      else readFirstExisting w rest
  end.

End Env.

(** [a || b] where a missing or empty string is falsy. *)
Definition opt_truthy (a : option string) : option string :=
  match a with
  | Some v => if truthy v then Some v else None
  | None => None
  end.

(** [files.filter(Boolean)] *)
Fixpoint filter_truthy (l : list (option string)) : list string :=
  match l with
  | [] => []
  | a :: rest =>
      match opt_truthy a with
      | Some v => v :: filter_truthy rest
      | None => filter_truthy rest
      end
  end.

(** [String(error)] for an [Error] with the given message. *)
Definition error_string (message : string) : string := "Error: " ++ message.

End Host.

(** ** The tracking comment updater

    [getExecutionDetails] and [formatGitLabCommentBody] of
    [src/entrypoints/update-comment-gitlab.ts]. *)

Module UpdateComment.

Import JsString Json Host.

(** [{ cost_usd, duration_ms }] as read from the result record: the two
    property values as they are, the cast [as number] checks nothing. *)
Record ExecutionDetails : Type := Details {
  cost_usd : json;
  duration_ms : json
}.

(** The JSONL branch: one record for each non-blank line that parses, in
    order; a line that does not parse is skipped.
    [[
      for (const line of lines) {
        if (!line.trim()) continue;
        try { outputData.push(JSON.parse(line)); } catch { }
      }
    ]] *)
Fixpoint parseLines (lines : list string) : list json :=
  match lines with
  | [] => []
  | line :: rest =>
      if is_empty (trim line) then parseLines rest
      else match parse line with
           | Some obj => obj :: parseLines rest
           | None => parseLines rest
           end
  end.

Definition parseJsonl (fileContent : string) : list json :=
  parseLines (split_lines (trim fileContent)).

(** [outputData.find(msg => msg.type === "result")]; reading [type] of a
    [null] record throws. *)
Inductive found : Type :=
| Found (msg : json)
| NotFound
| FindThrows.

Fixpoint findResult (outputData : list json) : found :=
  match outputData with
  | [] => NotFound
  | msg :: rest =>
      match get msg "type" with
      | PThrow => FindThrows
      | p => if is_string p "result" then Found msg else findResult rest
      end
  end.

(** What follows the search for the file: parse, find the result record,
    read the two fields.  A whole-file parse that gives anything but an
    array has no [find] method, and the [TypeError] ends in the outer
    [catch]. *)
Definition detailsOfContent (fileContent : string) : option ExecutionDetails :=
  let outputData :=
    match parse fileContent with
    | Some (JArr items) => Some items
    | Some _ => None
    | None => Some (parseJsonl fileContent)
    end in
  match outputData with
  | None => None
  | Some records =>
      match findResult records with
      | Found result =>
          if has result "cost_usd" && has result "duration_ms"
          then Some (Details (prop_value (get result "cost_usd"))
                             (prop_value (get result "duration_ms")))
          else None
      | NotFound => None
      | FindThrows => None
      end
  end.

Section Reader.
Context {World : Type} {RT : Runtime World}.

(** [possibleFiles] of [getExecutionDetails]. *)
Definition possibleFiles (w : World) (outputFile : string) : list string :=
  [outputFile; jsonOutputPath w; txtOutputPath w].

(** [getExecutionDetails(outputFile)]; [None] is the [null] it
    resolves to.  It never rejects. *)
Definition getExecutionDetails (w : World) (outputFile : option string)
  : option ExecutionDetails :=
  match opt_truthy outputFile with
  | None => None
  | Some file =>
      let '(fileContent, _) := readFirstExisting w (possibleFiles w file) in
      if is_empty fileContent then None
      else detailsOfContent fileContent
  end.

End Reader.

(** The declared type of the details,
    [{ cost_usd?: number; duration_ms?: number }]. *)
Record NumDetails : Type := NumDetailsOf {
  cost : option JsNumber.jsnum;
  duration : option JsNumber.jsnum
}.

(** Details whose fields have the declared type; [null] counts as absent
    under [??] and [?.]. *)
Definition as_number (v : json) : option (option JsNumber.jsnum) :=
  match v with
  | JNum n => Some (Some n)
  | JNull => Some None
  | _ => None
  end.

Definition typed (d : ExecutionDetails) : option NumDetails :=
  match as_number (cost_usd d), as_number (duration_ms d) with
  | Some c, Some t => Some (NumDetailsOf c t)
  | _, _ => None
  end.

Definition successMessage : string := "âœ… Claude's work is complete".
Definition failureMessage : string := "âŒ Claude's work failed".
Definition workingMarker : string := "ðŸ¤– Claude is working on this...".

(** The footer appended when details are present:
    [[
      const durationSec = (executionDetails.duration_ms ?? 0) / 1000;
      const cost = executionDetails.cost_usd?.toFixed(4) ?? "0.0000";
      finalBody += `\n\n---\n*Execution time: ${durationSec.toFixed(2)}s | Estimated cost: $${cost}*`;
    ]] *)
Definition footer (d : NumDetails) : option string :=
  let durationSec :=
    JsNumber.div_const
      (match duration d with Some n => n | None => JsNumber.of_Z 0 end) 1000 in
  let cost :=
    match cost d with
    | Some c => JsNumber.toFixed 4 c
    | None => Some "0.0000"
    end in
  match JsNumber.toFixed 2 durationSec, cost with
  | Some t, Some c =>
      Some (String lf (String lf ("---" ++ String lf
             ("*Execution time: " ++ t ++ "s | Estimated cost: $" ++ c ++ "*"))))
  | _, _ => None
  end.

(** [formatGitLabCommentBody]; the result is never [None]. *)
Definition formatGitLabCommentBody
    (initialBody : string) (success : bool) (jobUrl : string)
    (errorDetails : option string) (executionDetails : option NumDetails)
  : option string :=
  let statusMessage := if success then successMessage else failureMessage in
  let body1 := replace_first workingMarker statusMessage initialBody in
  let body2 := replace_all "- [ ] " "- [x] " body1 in
  let body3 :=
    if includes body2 jobUrl then body2
    else body2 ++ String lf (String lf ("[View job details](" ++ jobUrl ++ ")")) in
  let body4 :=
    match opt_truthy errorDetails with
    | Some e => body3 ++ String lf (String lf ("**Error:** `" ++ e ++ "`"))
    | None => body3
    end in
  match executionDetails with
  | None => Some body4
  | Some d =>
      match footer d with
      | Some f => Some (body4 ++ f)
      | None => None
      end
  end.

End UpdateComment.

(** ** The unified GitLab entry point: data *)

Module Phase.

Import JsString Json Host.

(** A comment id as [parseInt] gives it: [NaN] or a double that is an
    integer.  [IntOf z] stands for the double nearest to [z], which is
    [z] itself for the values [parseInt] returns, and an infinity for a
    [z] beyond the doubles, near [1.8e308]. *)
Inductive jsint : Type :=
| IntNaN
| IntOf (z : Z).

Fixpoint take_radix (digit : ascii -> option Z) (radix acc n : Z) (s : string)
  : Z * Z :=
  match s with
  | EmptyString => (acc, n)
  | String c r =>
      match digit c with
      | Some d => take_radix digit radix (acc * radix + d) (n + 1) r
      | None => (acc, n)
      end
  end.

(** [parseInt(s)] without a radix: leading white space, a sign, a [0x]
    prefix for base sixteen, then the longest run of digits, whose value
    is rounded to a double. *)
Definition parseInt (s : string) : jsint :=
  let s1 := trim_start s in
  let '(neg, s2) :=
    match s1 with
    | String c r =>
        if (code c =? 45)%N then (true, r)
        else if (code c =? 43)%N then (false, r)
        else (false, s1)
    | EmptyString => (false, s1)
    end in
  let '(v, n) :=
    if prefix "0x" s2 || prefix "0X" s2
    then take_radix hex_val 16 0 0 (substring_from 2 s2)
    else take_radix digit_val 10 0 0 s2 in
  if n =? 0 then IntNaN
  else
    let r := match JsNumber.round_integer v with Some r => r | None => v end in
    IntOf (if neg then - r else r).

(** [i.toString()] *)
Definition int_to_string (i : jsint) : string :=
  match i with
  | IntNaN => "NaN"
  | IntOf z => JsNumber.print_integer z
  end.

(** [interface PhaseResult] *)
Record PhaseResult : Type := PhaseResultOf {
  success : bool;
  error : option string;
  commentId : option jsint;
  outputFile : option string
}.

(** [{ success: false }], the initial value of both results in [main]. *)
Definition initialResult : PhaseResult := PhaseResultOf false None None None.

(** Truthiness of [prepareResult.commentId]: [undefined], [0] and [NaN]
    are falsy. *)
Definition hasCommentId (r : PhaseResult) : bool :=
  match commentId r with
  | Some (IntOf z) => negb (z =? 0)
  | Some IntNaN => false
  | None => false
  end.

(** The filter both [checkGitStatus] and [createMergeRequest] apply to a
    line of [git status]:
    [[
      const file = line.substring(3).trim();
      return !file.includes("/tmp/") && !file.includes(".claude") &&
             !file.endsWith(".log") && !file.endsWith(".tmp") && ...
    ]]
    [withCache] adds the test on [node_modules/.cache] that only
    [checkGitStatus] has. *)
Definition statusFile (line : string) : string := trim (substring_from 3 line).

Definition isProjectFile (withCache : bool) (line : string) : bool :=
  let file := statusFile line in
  negb (includes file "/tmp/") &&
  negb (includes file ".claude") &&
  negb (endsWith file ".log") &&
  negb (endsWith file ".tmp") &&
  negb (withCache && includes file "node_modules/.cache").

(** [changes.split("\n").filter(...)] *)
Definition projectLines (withCache : bool) (status : string) : list string :=
  filter (isProjectFile withCache) (split_lines status).

(** What [checkGitStatus] answers for the trimmed output of
    [git status --porcelain]. *)
Definition classifyStatus (changes : string) : bool :=
  if JsString.truthy changes
  then negb (Nat.eqb (List.length (projectLines true changes)) 0)
  else false.

(** *** The merge-request link in the output of [git push] *)

Definition is_digit (c : ascii) : bool :=
  match digit_val c with Some _ => true | None => false end.

Fixpoint take_while (p : ascii -> bool) (s : string) : string :=
  match s with
  | EmptyString => EmptyString
  | String c r => if p c then String c (take_while p r) else EmptyString
  end.

Definition mrSuffix : string := "/merge_requests/".

(** [\/merge_requests\/\d+] at the head of [s]. *)
Definition suffix_here (s : string) : option string :=
  if prefix mrSuffix s then
    let ds := take_while is_digit (substring_from (String.length mrSuffix) s) in
    if is_empty ds then None else Some (mrSuffix ++ ds)
  else None.

(** [[^\s]+\/merge_requests\/\d+] at the head of [s]: the greedy run of
    non-blank characters gives way from the right, so the last place
    where the suffix fits is taken.  [first] is true before the run has
    its one compulsory character. *)
Fixpoint run_then_suffix (first : bool) (s : string) : option string :=
  match s with
  | EmptyString => None
  | String c r =>
      if is_ws c then None
      else match run_then_suffix false r with
           | Some m => Some (String c m)
           | None => if first then None else suffix_here s
           end
  end.

(** [output.match(/https:\/\/[^\s]+\/merge_requests\/\d+/)]: the
    leftmost match. *)
Fixpoint matchMrUrl (output : string) : option string :=
  let here :=
    if prefix "https://" output
    then match run_then_suffix true (substring_from 8 output) with
         | Some m => Some ("https://" ++ m)
         | None => None
         end
    else None in
  match here with
  | Some m => Some m
  | None =>
      match output with
      | EmptyString => None
      | String _ r => matchMrUrl r
      end
  end.

(** *** The message in the transcript *)

(** [String(p)] for a property value; a number is printed by the
    runtime. *)
Section Text.
Variable numberToString : JsNumber.jsnum -> string.

Fixpoint join_commas (parts : list string) : string :=
  match parts with
  | [] => EmptyString
  | [p] => p
  | p :: rest => p ++ "," ++ join_commas rest
  end.

Fixpoint to_text (v : json) : string :=
  match v with
  | JNull => "null"
  | JBool true => "true"
  | JBool false => "false"
  | JNum n => numberToString n
  | JStr s => s
  | JArr items =>
      join_commas
        (map (fun x => match x with JNull => EmptyString | _ => to_text x end)
             items)
  | JObj _ => "[object Object]"
  end.

Definition prop_text (p : prop) : string :=
  match p with
  | PValue v => to_text v
  | _ => "undefined"
  end.

(** The loop over [output.message.content]:
    [[
      for (const content of output.message.content) {
        if (content.type === "text") tempMessage += content.text + "\n";
      }
    ]]
    [None] when an item is [null], whose [type] cannot be read. *)
Fixpoint collectText (items : list json) (tempMessage : string)
  : option string :=
  match items with
  | [] => Some tempMessage
  | content :: rest =>
      match get content "type" with
      | PThrow => None
      | p =>
          if is_string p "text"
          then collectText rest
                 (tempMessage ++ prop_text (get content "text") ++ String lf EmptyString)
          else collectText rest tempMessage
      end
  end.

(** One step of the loop over the lines of the transcript. *)
Inductive step : Type :=
| Break (claudeMessage : json)      (* [break] with the message set *)
| Next (claudeMessage : json)       (* go on with the next line *)
| Caught.                           (* the [catch] branch is taken *)

(** The body of the [try] for a line that parsed. *)
Definition tryRecord (output : json) (claudeMessage : json) : step :=
  match get output "type" with
  | PThrow => Caught
  | ty =>
      if is_string ty "result" && Json.truthy (prop_value (get output "result"))
      then Break (prop_value (get output "result"))
      else if is_string ty "assistant" then
        let content :=
          match get output "message" with
          | PValue JNull => JNull        (* [?.] on null *)
          | PValue m => prop_value (get m "content")
          | _ => JNull
          end in
        if Json.truthy content then
          match content with
          | JArr items =>
              match collectText items EmptyString with
              | None => Caught
              | Some tempMessage =>
                  if JsString.truthy tempMessage
                  then Next (JStr (trim tempMessage))
                  else Next claudeMessage
              end
          | JStr _ => Next claudeMessage (* its characters have no [type] *)
          | _ => Caught                  (* not iterable *)
          end
        else Next claudeMessage
      else Next claudeMessage
  end.

(** [[
      for (const line of lines) {
        if (!line.trim()) continue;
        try { ... } catch (parseError) {
          if (!claudeMessage && line.trim().length > 50)
            claudeMessage = line.trim();
          continue;
        }
      }
    ]] *)
Fixpoint scanLines (lines : list string) (claudeMessage : json) : json :=
  match lines with
  | [] => claudeMessage
  | line :: rest =>
      if is_empty (trim line) then scanLines rest claudeMessage
      else
        let caught :=
          if negb (Json.truthy claudeMessage)
             && Nat.ltb 50 (units (trim line))
          then JStr (trim line) else claudeMessage in
        match parse line with
        | None => scanLines rest caught
        | Some output =>
            match tryRecord output claudeMessage with
            | Break m => m
            | Next m => scanLines rest m
            | Caught => scanLines rest caught
            end
        end
  end.

(** The value of [claudeMessage] after the loop, the empty string at its
    start. *)
Definition extractMessage (outputContent : string) : json :=
  scanLines (split_lines (trim outputContent)) (JStr EmptyString).

End Text.

End Phase.

(** ** The unified GitLab entry point: the phases *)

Module Entry.

Import JsString Json Host Phase.
Local Open Scope js_scope.

Section Phases.
Context {World : Type} {RT : Runtime World}.

(** [getClaudePromptsDirectory] and [getClaudeExecutionOutputPath] come
    from [../utils/temp-directory], which is not part of the sources at
    hand; they are taken as given. *)
Variable getClaudePromptsDirectory : World -> string.
Variable getClaudeExecutionOutputPath : World -> string.

Definition commentIdFile : string := "/tmp/claude-comment-id.txt".

(** The comment id written by [prepare.ts]; a read that throws is
    caught and leaves the id undefined. *)
Definition readCommentId (w : World) : option jsint :=
  if existsSync w commentIdFile then
    match readFile w commentIdFile with
    | Some text =>
        let commentIdStr := trim text in
        if JsString.truthy commentIdStr then Some (parseInt commentIdStr)
        else None
    | None => None
    end
  else None.

(** [runPreparePhase] *)
Definition runPreparePhase : T PhaseResult :=
  total
    (prepareResult <- run BunRunPrepare ;;
     if negb (exitCode prepareResult =? 0) then
       ret (PhaseResultOf false
              (Some (or_else (opt_truthy (Some (stderr prepareResult)))
                             "Prepare step failed"))
              None None)
     else if includes (stdout prepareResult) "No trigger found" then
       ret (PhaseResultOf false (Some "No trigger found") None None)
     else
       w <- world ;;
       ret (PhaseResultOf true None (readCommentId w) None))
    (fun e => PhaseResultOf false (Some e) None None).

(** The first block of [runExecutePhase], "Phase 2: Setting up working
    branch": fetch and check out the branch, create it when that fails,
    then compare the branch git reports with the one asked for. *)
Definition setupWorkingBranch (claudeBranch projectDir : string) : M unit :=
  run (Chdir projectDir) ;;
  try_catch
    (run (GitFetch claudeBranch) ;;
     run (GitCheckout claudeBranch) ;;
     ret tt)
    (fun _ =>
       try_catch
         (run (GitCheckoutNew claudeBranch) ;; ret tt)
         (fun createError =>
            throw ("Failed to setup working branch: "
                     ++ error_string createError))) ;;
  currentBranchResult <- run GitRevParseHead ;;
  let currentBranch := trim (stdout currentBranchResult) in
  if negb (currentBranch =? claudeBranch)%string then
    throw ("Branch checkout failed: expected " ++ claudeBranch
             ++ ", got " ++ currentBranch)
  else ret tt.

Definition baseActionEnv (w : World) (promptPath : string)
  : list (string * string) :=
  let or_empty name := or_else (env_truthy w name) EmptyString in
  [ ("CLAUDE_CODE_ACTION", "1");
    ("INPUT_PROMPT_FILE", promptPath);
    ("INPUT_TIMEOUT_MINUTES", "30");
    ("INPUT_MCP_CONFIG", EmptyString);
    ("INPUT_SETTINGS", EmptyString);
    ("INPUT_SYSTEM_PROMPT", EmptyString);
    ("INPUT_APPEND_SYSTEM_PROMPT", EmptyString);
    ("INPUT_ALLOWED_TOOLS", or_empty "ALLOWED_TOOLS");
    ("INPUT_DISALLOWED_TOOLS", or_empty "DISALLOWED_TOOLS");
    ("INPUT_MAX_TURNS", or_empty "MAX_TURNS");
    ("INPUT_CLAUDE_ENV", or_empty "CLAUDE_ENV");
    ("INPUT_FALLBACK_MODEL", or_empty "FALLBACK_MODEL");
    ("ANTHROPIC_MODEL", or_else (env_truthy w "CLAUDE_MODEL") "sonnet");
    ("DETAILED_PERMISSION_MESSAGES", "1") ].

(** [[
      const actualOutputFile =
        jsonExists ? outputFile : (txtExists ? outputTxtFile : outputFile);
    ]] *)
Definition actualOutputFile (w : World) : string :=
  let jsonExists := existsSync w (jsonOutputPath w) in
  let txtExists := existsSync w (txtOutputPath w) in
  if jsonExists then jsonOutputPath w
  else if txtExists then txtOutputPath w
  else jsonOutputPath w.

(** [runExecutePhase]; the prompt file is read for the log only. *)
Definition runExecutePhase (prepareResult : PhaseResult) : T PhaseResult :=
  total
    (w0 <- world ;;
     match env_truthy w0 "CLAUDE_BRANCH", env_truthy w0 "CI_PROJECT_DIR" with
     | Some claudeBranch, Some projectDir =>
         setupWorkingBranch claudeBranch projectDir
     | _, _ => ret tt
     end ;;
     installResult <- run BunInstallClaude ;;
     (if negb (exitCode installResult =? 0)
      then throw ("Failed to install Claude Code: " ++ stderr installResult)
      else ret tt) ;;
     depsResult <- run BunInstallDeps ;;
     (if negb (exitCode depsResult =? 0)
      then throw ("Failed to install base-action dependencies: "
                    ++ stderr depsResult)
      else ret tt) ;;
     w1 <- world ;;
     let promptPath := getClaudePromptsDirectory w1 ++ "/claude-prompt.txt" in
     executeResult <- run (BunRunBaseAction (baseActionEnv w1 promptPath)) ;;
     w2 <- world ;;
     ret (PhaseResultOf
            (exitCode executeResult =? 0)
            (if negb (exitCode executeResult =? 0)
             then Some "Claude execution failed" else None)
            (commentId prepareResult)
            (Some (actualOutputFile w2))))
    (fun e => PhaseResultOf false (Some e) (commentId prepareResult) None).

Definition statusTempPatterns : list string :=
  ["*.log"; "*.tmp"; "output.txt"; ".claude-*"; "/tmp/claude-*";
   "node_modules/.cache"; ".DS_Store"].

Definition statusTempDirs : list string :=
  ["/tmp/claude-prompts"; "/tmp/claude-output"; ".claude"].

(** [expectedProject && !remoteUrl.includes(expectedProject)] *)
Definition wrongRepository (w : World) (remoteUrl : string) : bool :=
  match env_truthy w "CI_PROJECT_PATH" with
  | Some expectedProject => negb (includes remoteUrl expectedProject)
  | None => false
  end.

(** [checkGitStatus] *)
Definition checkGitStatus : T bool :=
  total
    (w0 <- world ;;
     match env_truthy w0 "CI_PROJECT_DIR" with
     | None => ret false
     | Some projectDir =>
         run (Chdir projectDir) ;;
         remoteResult <- run GitRemoteGetUrl ;;
         w1 <- world ;;
         if wrongRepository w1 (trim (stdout remoteResult)) then ret false
         else
           for_each (fun pattern => run_ignoring (FindDelete pattern false))
                    statusTempPatterns ;;
           for_each (fun dir => run_ignoring (RmRf dir)) statusTempDirs ;;
           result <- run GitStatusPorcelain ;;
           ret (classifyStatus (trim (stdout result)))
     end)
    (fun _ => false).

Definition submitTempPatterns : list string :=
  ["*.log"; "*.tmp"; "output.txt"; ".claude-*"; ".DS_Store"].

Definition noisePaths : list string :=
  ["*.log"; "*.tmp"; "output.txt"; ".claude-*"; "/tmp/*"].

Definition branchName (w : World) : string :=
  or_else (env_truthy w "CI_MERGE_REQUEST_SOURCE_BRANCH_NAME")
    ("claude-" ++ env_text w "CLAUDE_RESOURCE_TYPE" ++ "-"
       ++ env_text w "CLAUDE_RESOURCE_ID" ++ "-"
       ++ JsNumber.print_integer (now w)).

Definition commitMessage (w : World) : string :=
  "fix: Apply Claude's suggestions for " ++ env_text w "CLAUDE_RESOURCE_TYPE"
    ++ " #" ++ env_text w "CLAUDE_RESOURCE_ID"
    ++ String lf (String lf
         ("This commit was automatically generated by Claude AI in response to a request."
            ++ String lf
            ("See the original " ++ env_text w "CLAUDE_RESOURCE_TYPE"
               ++ " for context."))).

Definition targetBranch (w : World) : string :=
  match env_truthy w "CLAUDE_BASE_BRANCH" with
  | Some b => b
  | None => or_else (env_truthy w "CI_DEFAULT_BRANCH") "main"
  end.

Definition mrTitle (w : World) : string :=
  "Apply Claude's suggestions for " ++ env_text w "CLAUDE_RESOURCE_TYPE"
    ++ " #" ++ env_text w "CLAUDE_RESOURCE_ID".

Definition mrDescription (w : World) : string :=
  let resourceUrl :=
    env_text w "CI_SERVER_URL" ++ "/" ++ env_text w "CI_PROJECT_PATH" ++ "/-/"
      ++ (if env_is w "CLAUDE_RESOURCE_TYPE" "issue"
          then "issues" else "merge_requests")
      ++ "/" ++ env_text w "CLAUDE_RESOURCE_ID" in
  "Automated MR by Claude AI. See " ++ resourceUrl ++ " for context. /cc @"
    ++ or_else (env_truthy w "GITLAB_USER_LOGIN") "claude".

Definition gitRemoteUrl (w : World) : string :=
  let gitToken :=
    match env_truthy w "CLAUDE_CODE_GL_ACCESS_TOKEN" with
    | Some t => t
    | None => env_text w "CI_JOB_TOKEN"
    end in
  let tokenType :=
    match env_truthy w "CLAUDE_CODE_GL_ACCESS_TOKEN" with
    | Some _ => "oauth2"
    | None => "gitlab-ci-token"
    end in
  "https://" ++ tokenType ++ ":" ++ gitToken ++ "@"
    ++ env_text w "CI_SERVER_HOST" ++ "/" ++ env_text w "CI_PROJECT_PATH"
    ++ ".git".

Definition mrComment (url : string) : string :=
  "🎯 I've created a merge request with the changes: " ++ url
    ++ String lf (String lf
         "Please review and merge if the changes look good.").

(** [git add -A], then the temp files taken out of the index again:
    [[
      await $`git add -A`.quiet();
      try {
        await $`git reset HEAD -- "*.log" "*.tmp" "output.txt" ".claude-*" "/tmp/*"`.quiet();
        await $`git checkout -- "*.log" "*.tmp" "output.txt" ".claude-*" "/tmp/*"`.quiet();
      } catch { }
    ]] *)
Definition stageAndUnstage : M unit :=
  run GitAddAll ;;
  try_catch
    (run (GitResetHead noisePaths) ;;
     run (GitCheckoutPaths noisePaths) ;;
     ret tt)
    (fun _ => ret tt).

(** The last part of [createMergeRequest], from [git add -A] on. *)
Definition stageCommitPush (prepareResult : PhaseResult) (branch : string)
  : M unit :=
  stageAndUnstage ;;
  statusResult <- run GitStatusShort ;;
  let statusOutput := trim (stdout statusResult) in
  if negb (JsString.truthy statusOutput) then ret tt
  else if Nat.eqb (List.length (projectLines false statusOutput)) 0 then ret tt
  else
    w <- world ;;
    run (GitCommit (commitMessage w)) ;;
    w1 <- world ;;
    run (GitRemoteSetUrl (gitRemoteUrl w1)) ;;
    pushResult <-
      run (GitPush (targetBranch w1) (mrTitle w1) (mrDescription w1) branch) ;;
    match matchMrUrl (stdout pushResult) with
    | Some url =>
        if hasCommentId prepareResult
        then run (CreateComment (mrComment url)) ;; ret tt
        else ret tt
    | None => ret tt
    end.

(** [createMergeRequest]; its [catch] logs and throws the error again. *)
Definition createMergeRequest (prepareResult _executeResult : PhaseResult)
  : M unit :=
  w0 <- world ;;
  match env_truthy w0 "CI_PROJECT_DIR" with
  | None => throw "CI_PROJECT_DIR is not set!"
  | Some projectDir =>
      run (Chdir projectDir) ;;
      remoteResult <- run GitRemoteGetUrl ;;
      let remoteUrl := trim (stdout remoteResult) in
      w1 <- world ;;
      if wrongRepository w1 remoteUrl then
        throw ("Wrong repository! Expected " ++ env_text w1 "CI_PROJECT_PATH"
                 ++ ", but working in " ++ remoteUrl)
      else
        for_each (fun pattern => run_ignoring (FindDelete pattern true))
                 submitTempPatterns ;;
        currentBranchResult <- run GitRevParseHead ;;
        let currentBranch := trim (stdout currentBranchResult) in
        w2 <- world ;;
        let branch := branchName w2 in
        run (GitConfig "user.name" "Claude[bot]") ;;
        run (GitConfig "user.email" "claude-bot@noreply.gitlab.com") ;;
        (if negb (currentBranch =? branch)%string
         then run (GitCheckoutNew branch) ;; ret tt
         else ret tt) ;;
        statusBeforeResult <- run GitStatusPorcelain ;;
        if negb (JsString.truthy (trim (stdout statusBeforeResult))) then ret tt
        else stageCommitPush prepareResult branch
  end.

(** [possibleOutputFiles] of [postClaudeResponse]. *)
Definition possibleOutputFiles (w : World) (executeResult : PhaseResult)
  : list string :=
  filter_truthy
    [ outputFile executeResult;
      Some (jsonOutputPath w);
      Some (txtOutputPath w);
      Some (getClaudeExecutionOutputPath w) ].

Definition responseBody (claudeMessage : string) : string :=
  "## 🤖 Claude's Response" ++ String lf (String lf
    (claudeMessage ++ String lf (String lf ("---" ++ String lf
       "*This response was generated by Claude AI. No code changes were made.*")))).

(** [postClaudeResponse]; it never throws. *)
Definition postClaudeResponse (_prepareResult executeResult : PhaseResult)
  : T unit :=
  total
    (w <- world ;;
     let '(outputContent, _) :=
       readFirstExisting w (possibleOutputFiles w executeResult) in
     if negb (JsString.truthy outputContent) then ret tt
     else
       let claudeMessage := extractMessage numberToString outputContent in
       if negb (Json.truthy claudeMessage) then ret tt
       else
         run (CreateComment (responseBody (to_text numberToString claudeMessage))) ;;
         ret tt)
    (fun _ => tt).

(** The file handed to the update script:
    [[
      let outputFile = executeResult.outputFile;
      if (!outputFile) {
        if (fs.existsSync(baseActionOutputFile)) outputFile = baseActionOutputFile;
        else if (fs.existsSync(baseActionOutputTxt)) outputFile = baseActionOutputTxt;
        else outputFile = baseActionOutputFile;
      }
    ]] *)
Definition updateOutputFile (w : World) (executeResult : PhaseResult) : string :=
  match opt_truthy (outputFile executeResult) with
  | Some f => f
  | None =>
      if existsSync w (jsonOutputPath w) then jsonOutputPath w
      else if existsSync w (txtOutputPath w) then txtOutputPath w
      else jsonOutputPath w
  end.

Definition updateEnv (w : World) (prepareResult executeResult : PhaseResult)
  : list (string * string) :=
  let resourceId := env_truthy w "CLAUDE_RESOURCE_ID" in
  [ ("CLAUDE_COMMENT_ID",
     match commentId prepareResult with
     | Some i => int_to_string i
     | None => EmptyString
     end);
    ("CLAUDE_SUCCESS", if success executeResult then "true" else "false");
    ("PREPARE_SUCCESS", if success prepareResult then "true" else "false");
    ("OUTPUT_FILE", updateOutputFile w executeResult) ]
  ++ match resourceId with
     | Some id =>
         if env_is w "CLAUDE_RESOURCE_TYPE" "issue" then [("CI_ISSUE_IID", id)]
         else if env_is w "CLAUDE_RESOURCE_TYPE" "merge_request"
              then [("CI_MERGE_REQUEST_IID", id)]
              else []
     | None => []
     end.

(** The second half of [runUpdatePhase], "Phase 6: Updating tracking
    comment", after the merge request or the response:
    [[
      if (!prepareResult.commentId) { return { success: true }; }
      ...
      const updateResult = await $`bun run ${updateScript}`.env(env).quiet();
    ]] *)
Definition updateTrackingComment (prepareResult executeResult : PhaseResult)
  : M PhaseResult :=
  if negb (hasCommentId prepareResult) then
    ret (PhaseResultOf true None None None)
  else
    w <- world ;;
    updateResult <-
      run (BunRunUpdate (updateEnv w prepareResult executeResult)) ;;
    if negb (exitCode updateResult =? 0) then
      ret (PhaseResultOf false
             (Some "Failed to update comment (non-critical)") None None)
    else ret (PhaseResultOf true None None None).

(** The result of [runUpdatePhase] when something in it throws. *)
Definition updateFailed (e : string) : PhaseResult :=
  PhaseResultOf false (Some e) None None.

(** [runUpdatePhase] *)
Definition runUpdatePhase (prepareResult executeResult : PhaseResult)
  : T PhaseResult :=
  total
    (hasChanges <- lift checkGitStatus ;;
     (if hasChanges : bool
      then createMergeRequest prepareResult executeResult
      else lift (postClaudeResponse prepareResult executeResult)) ;;
     updateTrackingComment prepareResult executeResult)
    updateFailed.

(** The [catch] block of [main]: the exit code becomes 1, and with a
    comment id at hand the update phase is tried once more. *)
Definition fatalError (prepareResult executeResult : PhaseResult)
  : St -> Z * St :=
  fun st =>
    if hasCommentId prepareResult
    then let '(_, st') := runUpdatePhase prepareResult executeResult st in
         (1, st')
    else (1, st).

(** [main]: the exit code given to [process.exit] and the state at that
    moment.  The phases return their failures; the one [throw] inside
    the [try] is the one after a failed prepare phase, when
    [executeResult] still has its initial value. *)
Definition main : St -> Z * St :=
  fun st =>
    let '(prepareResult, st1) := runPreparePhase st in
    if negb (success prepareResult) then
      if match error prepareResult with
         | Some e => (e =? "No trigger found")%string
         | None => false
         end
      then (0, st1)
      else fatalError prepareResult initialResult st1
    else
      let '(executeResult, st2) := runExecutePhase prepareResult st1 in
      let exitCode := if negb (success executeResult) then 1 else 0 in
      let '(_, st3) := runUpdatePhase prepareResult executeResult st2 in
      (exitCode, st3).

End Phases.

End Entry.

(** ** A small host to run the program on

    A world with an environment, a few files, the branches of a git
    repository and fixed answers for the commands whose working is outside
    the program.  Of git it knows what the branch set-up relies on:

    - [git fetch origin b:b] fails when the remote has no branch [b], and
      refuses to update [b] while [b] is checked out;
    - [git checkout b] needs a local branch [b];
    - [git checkout -b b] fails when a local branch [b] exists already.

    The text of [git status] is fixed: staging is not simulated. *)

Module Sim.

Import JsString Host.

Record World : Type := WorldOf {
  env : list (string * string);
  files : list (string * option string);  (* [None]: exists, cannot be read *)
  head : string;
  locals : list string;
  remotes : list string;
  origin : string;
  status : string;
  prepare : cmd_result;
  baseAction : cmd_result;
  push : cmd_result;
  update : cmd_result
}.

Fixpoint assoc {A} (key : string) (l : list (string * A)) : option A :=
  match l with
  | [] => None
  | (k, v) :: rest => if (k =? key)%string then Some v else assoc key rest
  end.

Definition mem (b : string) (l : list string) : bool :=
  existsb (fun x => (x =? b)%string) l.

Definition checkedOut (w : World) (b : string) (bs : list string) : World :=
  WorldOf (env w) (files w) b bs (remotes w) (origin w) (status w)
          (prepare w) (baseAction w) (push w) (update w).

Definition done : cmd_result := Completed 0 EmptyString EmptyString.

Definition says (out : string) : cmd_result :=
  Completed 0 (out ++ String lf EmptyString) EmptyString.

Definition sim_sh (c : Cmd) (w : World) : cmd_result * World :=
  match c with
  | BunRunPrepare => (prepare w, w)
  | BunRunBaseAction _ => (baseAction w, w)
  | BunRunUpdate _ => (update w, w)
  | GitPush _ _ _ _ => (push w, w)
  | GitFetch b =>
      if negb (mem b (remotes w)) then
        (Rejected ("fatal: couldn't find remote ref " ++ b), w)
      else if (head w =? b)%string then
        (Rejected ("fatal: refusing to fetch into branch 'refs/heads/" ++ b
                     ++ "' checked out"), w)
      else (done, checkedOut w (head w)
                    (if mem b (locals w) then locals w else b :: locals w))
  | GitCheckout b =>
      if mem b (locals w) then (done, checkedOut w b (locals w))
      else (Rejected ("error: pathspec '" ++ b
                        ++ "' did not match any file(s) known to git"), w)
  | GitCheckoutNew b =>
      if mem b (locals w) then
        (Rejected ("fatal: a branch named '" ++ b ++ "' already exists"), w)
      else (done, checkedOut w b (b :: locals w))
  | GitRevParseHead => (says (head w), w)
  | GitRemoteGetUrl => (says (origin w), w)
  | GitStatusPorcelain => (says (status w), w)
  | GitStatusShort => (says (status w), w)
  | _ => (done, w)
  end.

(** Printing of a number: exact for the integers below [10^21]. *)
Definition printNumber (n : JsNumber.jsnum) : string :=
  match JsNumber.toFixed 0 n with Some s => s | None => EmptyString end.

#[global] Instance runtime : Runtime World := {
  sh := sim_sh;
  getenv w name := assoc name (env w);
  existsSync w path :=
    match assoc path (files w) with Some _ => true | None => false end;
  readFile w path :=
    match assoc path (files w) with Some (Some text) => Some text | _ => None end;
  now _ := 1700000000000;
  numberToString := printNumber
}.

Definition promptsDirectory (_ : World) : string := "/tmp/claude-prompts".
Definition executionOutputPath (_ : World) : string :=
  "/tmp/claude-execution-output.json".

(** The two lines of the transcript of the scenarios. *)
Definition resultLine : string :=
  q "{'type':'result','result':'Done.','cost_usd':0.02,'duration_ms':1500}".

Definition assistantLine : string :=
  q "{'type':'assistant','message':{'content':[{'type':'text','text':'ignored'}]}}".

Definition transcript : string := resultLine ++ String lf assistantLine.

Definition projectEnv : list (string * string) :=
  [ ("CI_PROJECT_DIR", "/builds/group/project");
    ("CI_PROJECT_PATH", "group/project");
    ("CI_BUILDS_DIR", "/builds");
    ("CLAUDE_BRANCH", "claude/issue-7");
    ("CLAUDE_RESOURCE_TYPE", "issue");
    ("CLAUDE_RESOURCE_ID", "7") ].

Definition bothOutputs : list (string * option string) :=
  [ ("/builds/output.txt", Some transcript);
    ("/builds/claude-execution-output.json", Some ("[" ++ resultLine ++ "]")) ].

(** A job that finds its trigger, on a fresh checkout of [main], with
    the tracking comment 4711. *)
Definition job : World := {|
  env := projectEnv;
  files := ("/tmp/claude-comment-id.txt", Some "4711") :: bothOutputs;
  head := "main";
  locals := ["main"];
  remotes := ["main"];
  origin := "https://gitlab.com/group/project.git";
  status := EmptyString;
  prepare := says "Prepared";
  baseAction := done;
  push := done;
  update := done
|}.

Definition withStatus (text : string) (w : World) : World :=
  WorldOf (env w) (files w) (head w) (locals w) (remotes w) (origin w) text
          (prepare w) (baseAction w) (push w) (update w).

Definition withFiles (fs : list (string * option string)) (w : World) : World :=
  WorldOf (env w) fs (head w) (locals w) (remotes w) (origin w) (status w)
          (prepare w) (baseAction w) (push w) (update w).

Definition withOrigin (url : string) (w : World) : World :=
  WorldOf (env w) (files w) (head w) (locals w) (remotes w) url (status w)
          (prepare w) (baseAction w) (push w) (update w).

Definition withAnswers (p b u ps : cmd_result) (w : World) : World :=
  WorldOf (env w) (files w) (head w) (locals w) (remotes w) (origin w)
          (status w) p b ps u.

Definition withRemotes (bs : list string) (w : World) : World :=
  WorldOf (env w) (files w) (head w) (locals w) bs (origin w) (status w)
          (prepare w) (baseAction w) (push w) (update w).

Definition start (w : World) : @St World := (w, []).

(** *** The scenarios *)

Definition jsonPath : string := "/builds/claude-execution-output.json".
Definition txtPath : string := "/builds/output.txt".
Definition workBranch : string := "claude/issue-7".
Definition projectDir : string := "/builds/group/project".

(** Results of earlier phases as the later ones receive them. *)
Definition prepared : Phase.PhaseResult :=
  Phase.PhaseResultOf true None (Some (Phase.IntOf 4711)) None.

Definition preparedWithoutId : Phase.PhaseResult :=
  Phase.PhaseResultOf true None None None.

Definition executed : Phase.PhaseResult :=
  Phase.PhaseResultOf true None (Some (Phase.IntOf 4711)) (Some jsonPath).

(** The status text of the scenario with two untracked temp files. *)
Definition twoTempFiles : string :=
  "?? output.txt" ++ String lf "?? /tmp/claude-output/x.json".

(** The working tree belongs to another project. *)
Definition wrongRepo : World :=
  withOrigin "https://gitlab.com/other/repo.git" job.

(** The assistant run exits with code 1. *)
Definition executeFails : World :=
  withAnswers (says "Prepared") (Completed 1 EmptyString "boom") done done job.

(** The update script exits with code 1. *)
Definition updateFails : World :=
  withAnswers (says "Prepared") done (Completed 1 EmptyString "no note") done job.

Definition noTrigger : World :=
  withAnswers (says "No trigger found") done done done job.

(** A source file changed, no tracking comment, and the push refused. *)
Definition pushDenied : World :=
  withAnswers (says "Prepared") done done
    (Rejected "remote: You are not allowed to push code to this project.")
    (withStatus "?? src/app.ts" (withFiles bothOutputs job)).

Definition onlyLogFile : World := withStatus "?? debug.log" job.

(** The working branch exists on the remote. *)
Definition branchOnRemote : World := withRemotes ["main"; workBranch] job.

(** Only the JSONL transcript was written. *)
Definition onlyTranscript : World := withFiles [(txtPath, Some transcript)] job.

(** The footer of the tracking comment for the transcript. *)
Definition transcriptFooter : string :=
  String lf (String lf ("---" ++ String lf
    "*Execution time: 1.50s | Estimated cost: $0.0200*")).

End Sim.

(** ** Vocabulary of the statements *)

Module Spec.

Import JsString Json Host Phase.

(** The records of a list of lines: the parse of every line that has
    one, in the order of the lines. *)
Definition records (lines : list string) : list json :=
  flat_map (fun l => match parse l with Some v => [v] | None => [] end) lines.

(** Commands that write history or publish it. *)
Definition commits (c : Cmd) : bool :=
  match c with
  | GitCommit _ => true
  | GitPush _ _ _ _ => true
  | GitRemoteSetUrl _ => true
  | _ => false
  end.

Definition isUpdateScript (c : Cmd) : bool :=
  match c with
  | BunRunUpdate _ => true
  | _ => false
  end.

Definition isCreateComment (c : Cmd) : bool :=
  match c with
  | CreateComment _ => true
  | _ => false
  end.

(** What is left of the status text after the temp files are filtered
    out of it, as [createMergeRequest] tests it before committing:
    nothing, when the text is empty or none of its lines names a project
    file. *)
Definition nothingRemains (statusOutput : string) : Prop :=
  statusOutput = EmptyString \/ projectLines false statusOutput = [].

(** An entry of [git status --short] with a change in the index: the
    first of its two status letters is neither a blank nor one of [?] and
    [!], which mark the untracked and the ignored files. *)
Definition staged (line : string) : bool :=
  match line with
  | String c _ =>
      negb (Ascii.eqb c " "%char || Ascii.eqb c "?"%char || Ascii.eqb c "!"%char)
  | EmptyString => false
  end.

(** No entry of the status text has a change in the index. *)
Definition nothingStaged (statusText : string) : bool :=
  forallb (fun line => negb (staged line)) (split_lines statusText).

Section Logs.
Context {World : Type} {RT : Runtime World}.

(** A candidate file the reader passes over. *)
Definition unreadable (w : World) (path : string) : Prop :=
  existsSync w path = false \/ readFile w path = None.

(** [(content, found)] is the first readable file of [files] with its
    content, or the pair of empty strings when there is none. *)
Definition firstReadable (w : World) (files : list string)
    (content found : string) : Prop :=
  (exists before after,
      files = (before ++ found :: after)%list /\
      Forall (unreadable w) before /\
      existsSync w found = true /\
      readFile w found = Some content)
  \/ (Forall (unreadable w) files /\
      content = EmptyString /\ found = EmptyString).

(** Every command a computation issues satisfies [P]: whatever the
    state it starts in, its log is the old one followed by commands
    that satisfy [P]. *)
Definition emits {A} (P : Cmd -> Prop) (m : @M World A) : Prop :=
  forall st : @St World, exists added,
    snd (snd (m st)) = (snd st ++ added)%list /\ Forall P added.

Definition emitsT {A} (P : Cmd -> Prop) (t : @T World A) : Prop :=
  forall st : @St World, exists added,
    snd (snd (t st)) = (snd st ++ added)%list /\ Forall P added.

End Logs.

End Spec.

(** ** The update script: [run] of [update-comment-gitlab.ts] *)

Module UpdateScript.

Import JsString Json Host UpdateComment Phase.

Inductive Resource : Type :=
| MergeRequest
| Issue.

(** [GitLabNote], the two fields the script reads. *)
Record GitLabNote : Type := NoteOf {
  note_id : Z;
  note_body : string
}.

(** The calls to the GitLab API ([api.MergeRequestNotes] and
    [api.IssueNotes]), with their arguments. *)
Inductive ApiCall : Type :=
| NotesAll (resource : Resource) (projectId : string) (iid : jsint)
| NotesEdit (resource : Resource) (projectId : string) (iid : jsint)
            (noteId : Z) (body : string).

(** The API as the script uses it: [notesAll] gives the notes or the
    message of the error it rejects with, [notesEdit] the message of its
    error, if any. *)
Class GitlabApi (World : Type) : Type := {
  notesAll : Resource -> string -> jsint -> World
             -> (string + list GitLabNote) * World;
  notesEdit : Resource -> string -> jsint -> Z -> string -> World
              -> option string * World
}.

(** How the script ends: it returns from [run], or it calls
    [process.exit(code)] after [core.warning(message)]. *)
Inductive ending : Type :=
| Returned
| Exited (code : Z) (warning : string).

(** [notes.find((note) => note.id === commentId)] *)
Fixpoint findNote (commentId : Z) (notes : list GitLabNote) : option GitLabNote :=
  match notes with
  | [] => None
  | note :: rest =>
      if note_id note =? commentId then Some note else findNote commentId rest
  end.

(** [notes.map(n => n.id).slice(0, 10).join(", ")] *)
Fixpoint join_ids (ids : list Z) : string :=
  match ids with
  | [] => EmptyString
  | [i] => JsNumber.print_integer i
  | i :: rest => JsNumber.print_integer i ++ ", " ++ join_ids rest
  end.

Definition availableIds (notes : list GitLabNote) : string :=
  join_ids (firstn 10 (map note_id notes)).

Definition resourceType (r : Resource) : string :=
  match r with
  | MergeRequest => "merge request"
  | Issue => "issue"
  end.

(** What [formatGitLabCommentBody] meets in the details it is given: the
    declared numbers; a [cost_usd] that is no number, on which [toFixed]
    is no function and the call throws; or a [duration_ms] that is no
    number, whose conversion by [/] is not modelled. *)
Inductive rendering : Type :=
| Numbers (d : NumDetails)
| ThrowsTypeError
| NotModelled.

Definition renderingOf (d : ExecutionDetails) : rendering :=
  match as_number (cost_usd d), as_number (duration_ms d) with
  | None, _ => ThrowsTypeError
  | Some c, Some t => Numbers (NumDetailsOf c t)
  | Some _, None => NotModelled
  end.

Definition notANumber : string :=
  "CLAUDE_COMMENT_ID env var is not a valid number.".

Definition noProject : string := "CI_PROJECT_ID is required but not set".

Definition noToken : string :=
  "GitLab token is required but not set (check CLAUDE_CODE_GL_ACCESS_TOKEN, CLAUDE_CODE_OAUTH_TOKEN, or GITLAB_TOKEN)".

Definition toFixedIsNoFunction : string :=
  "executionDetails.cost_usd?.toFixed is not a function".

Section Script.
Context {World : Type} {RT : Runtime World} {API : GitlabApi World}.

(** The state of the script: the world and the API calls made so far,
    oldest first. *)
Definition ApiSt : Type := World * list ApiCall.

(** [mrIid], or else [issueIid = CI_ISSUE_IID || CLAUDE_RESOURCE_ID]: the
    resource whose notes are read, the merge request first. *)
Definition targetResource (w : World) : option (Resource * string) :=
  match env_truthy w "CI_MERGE_REQUEST_IID" with
  | Some mrIid => Some (MergeRequest, mrIid)
  | None =>
      match env_truthy w "CI_ISSUE_IID" with
      | Some issueIid => Some (Issue, issueIid)
      | None =>
          match env_truthy w "CLAUDE_RESOURCE_ID" with
          | Some issueIid => Some (Issue, issueIid)
          | None => None
          end
      end
  end.

(** [CLAUDE_CODE_GL_ACCESS_TOKEN || CLAUDE_CODE_OAUTH_TOKEN || GITLAB_TOKEN] *)
Definition gitlabToken (w : World) : option string :=
  match env_truthy w "CLAUDE_CODE_GL_ACCESS_TOKEN" with
  | Some t => Some t
  | None =>
      match env_truthy w "CLAUDE_CODE_OAUTH_TOKEN" with
      | Some t => Some t
      | None => env_truthy w "GITLAB_TOKEN"
      end
  end.

Definition gitlabHost (w : World) : string :=
  or_else (env_truthy w "CI_SERVER_URL") "https://gitlab.com".

(** [PREPARE_SUCCESS !== "false" && CLAUDE_SUCCESS !== "false"] *)
Definition actionSucceeded (w : World) : bool :=
  negb (env_is w "PREPARE_SUCCESS" "false")
  && negb (env_is w "CLAUDE_SUCCESS" "false").

(** [pipelineId ? `${gitlabHost}/${projectId}/-/pipelines/${pipelineId}`
               : `${gitlabHost}/${projectId}/-/pipelines`] *)
Definition jobUrl (w : World) (host projectId : string) : string :=
  match env_truthy w "CI_PIPELINE_ID" with
  | Some pipelineId => host ++ "/" ++ projectId ++ "/-/pipelines/" ++ pipelineId
  | None => host ++ "/" ++ projectId ++ "/-/pipelines"
  end.

(** The [catch] at the end of [run]: a warning, then [process.exit(0)]. *)
Definition giveUp (errorMessage : string) (st : ApiSt) : option (ending * ApiSt) :=
  Some (Exited 0 ("Failed to update GitLab comment: " ++ errorMessage), st).

(** The inner [catch]: the error is wrapped and thrown to the outer one. *)
Definition failedToUpdate (errorMsg : string) (st : ApiSt)
  : option (ending * ApiSt) :=
  giveUp ("Failed to fetch or update comment: " ++ errorMsg) st.

(** What was read from the environment before the notes are fetched. *)
Record Settings : Type := SettingsOf {
  commentId : Z;
  projectId : string;
  resource : Resource;
  iid : jsint;
  host : string;
  succeeded : bool;
  errorDetails : option string;
  executionDetails : option ExecutionDetails
}.

(** The new body of the comment, as far as the model prints it. *)
Inductive rendered : Type :=
| Body (text : string)
| TypeErrorThrown
| BeyondModel.

Definition updatedBody (c : Settings) (originalBody url : string) : rendered :=
  let format details :=
    match formatGitLabCommentBody originalBody (succeeded c) url
            (errorDetails c) details with
    | Some text => Body text
    | None => BeyondModel
    end in
  match executionDetails c with
  | None => format None
  | Some d =>
      match renderingOf d with
      | Numbers n => format (Some n)
      | ThrowsTypeError => TypeErrorThrown
      | NotModelled => BeyondModel
      end
  end.

(** The inner [try]: fetch the notes, find the comment, edit it. *)
Definition fetchAndEdit (c : Settings) (st : ApiSt) : option (ending * ApiSt) :=
  let '(w, log) := st in
  let '(fetched, w1) := notesAll (resource c) (projectId c) (iid c) w in
  let log1 := (log ++ [NotesAll (resource c) (projectId c) (iid c)])%list in
  match fetched with
  | inl e => failedToUpdate e (w1, log1)
  | inr notes =>
      match findNote (commentId c) notes with
      | None =>
          failedToUpdate
            ("Could not find GitLab note ID "
               ++ JsNumber.print_integer (commentId c)
               ++ " in " ++ resourceType (resource c) ++ " "
               ++ int_to_string (iid c)
               ++ ". Available IDs: " ++ availableIds notes) (w1, log1)
      | Some originalComment =>
          match updatedBody c (note_body originalComment)
                  (jobUrl w1 (host c) (projectId c)) with
          | TypeErrorThrown => failedToUpdate toFixedIsNoFunction (w1, log1)
          | BeyondModel => None
          | Body text =>
              let '(failure, w2) :=
                notesEdit (resource c) (projectId c) (iid c) (commentId c)
                          text w1 in
              let log2 :=
                (log1 ++ [NotesEdit (resource c) (projectId c) (iid c)
                                    (commentId c) text])%list in
              match failure with
              | Some e => failedToUpdate e (w2, log2)
              | None => Some (Returned, (w2, log2))
              end
          end
      end
  end.

(** [run]; [None] when [duration_ms] is no number (see [rendering]). *)
Definition run (st : ApiSt) : option (ending * ApiSt) :=
  let w := fst st in
  match parseInt (env_text w "CLAUDE_COMMENT_ID") with
  | IntNaN => giveUp notANumber st
  | IntOf id =>
      match env_truthy w "CI_PROJECT_ID" with
      | None => giveUp noProject st
      | Some project =>
          match targetResource w with
          | None =>
              giveUp ("Neither CI_MERGE_REQUEST_IID nor CI_ISSUE_IID is set. CLAUDE_RESOURCE_ID: "
                        ++ env_text w "CLAUDE_RESOURCE_ID") st
          | Some (target, targetIid) =>
              match gitlabToken w with
              | None => giveUp noToken st
              | Some _ =>
                  fetchAndEdit
                    (SettingsOf id project target (parseInt targetIid)
                       (gitlabHost w) (actionSucceeded w)
                       (getenv w "PREPARE_ERROR")
                       (getExecutionDetails w (getenv w "OUTPUT_FILE")))
                    st
              end
          end
      end
  end.

End Script.

(** The environment of a child process started with [.env(env)], where
    [env = { ...process.env, ...overrides }]: the overrides first, then
    the parent's variables. *)
Fixpoint override (name : string) (overrides : list (string * string))
  : option string :=
  match overrides with
  | [] => None
  | (k, v) :: rest =>
      match override name rest with
      | Some v' => Some v'
      | None => if (k =? name)%string then Some v else None
      end
  end.

Definition childRuntime {World : Type} (RT : Runtime World)
    (overrides : list (string * string)) : Runtime World := {|
  sh := sh;
  getenv w name :=
    match override name overrides with
    | Some v => Some v
    | None => getenv w name
    end;
  existsSync := existsSync;
  readFile := readFile;
  now := now;
  numberToString := numberToString
|}.

End UpdateScript.

(** ** The provider factory: [src/providers/provider-factory.ts] *)

Module ProviderFactory.

Import JsString Host.

(** [type ProviderType = "github" | "gitlab"] *)
Inductive ProviderType : Type :=
| Github
| Gitlab.

(** [core.getInput(name)] of [@actions/core], the empty string for an
    input that is not given. *)
Class ActionsCore (World : Type) : Type := {
  getInput : World -> string -> string
}.

(** [interface ProviderFactoryOptions] *)
Record ProviderFactoryOptions : Type := FactoryOptions {
  platform : option ProviderType;
  token : string;
  triggerPhrase : option string;
  directPrompt : option string
}.

(** The options handed to [new GitLabProvider(...)]. *)
Record GitLabProviderOptions : Type := GitLabOptions {
  gl_token : string;
  gl_projectId : string;
  gl_mrIid : option string;
  gl_issueIid : option string;
  gl_host : string;
  gl_pipelineUrl : option string;
  gl_triggerPhrase : option string;
  gl_directPrompt : option string
}.

(** The options handed to [new GitHubProvider(...)]. *)
Record GitHubProviderOptions : Type := GitHubOptions {
  gh_token : string;
  gh_runId : string;
  gh_actor : string;
  gh_eventName : string;
  gh_owner : string;
  gh_repo : string;
  gh_triggerPhrase : option string;
  gh_directPrompt : option string
}.

(** The provider classes are not among the sources at hand: a provider is
    the options it is built from. *)
Inductive Provider : Type :=
| GitLabProvider (options : GitLabProviderOptions)
| GitHubProvider (options : GitHubProviderOptions).

(** [s.split("/")] and the like: never empty. *)
Fixpoint split_on (sep : ascii) (s : string) : list string :=
  match s with
  | EmptyString => [EmptyString]
  | String c r =>
      if Ascii.eqb c sep then EmptyString :: split_on sep r
      else match split_on sep r with
           | h :: t => String c h :: t
           | [] => [String c EmptyString]
           end
  end.

Section Factory.
Context {World : Type} {RT : Runtime World} {AC : ActionsCore World}.

(** [detectPlatform] *)
Definition detectPlatform (w : World) : ProviderType :=
  if env_is w "CI_PLATFORM" "gitlab" then Gitlab
  else if env_is w "CI_PLATFORM" "github" then Github
  else if env_is w "GITLAB_CI" "true"
          || match env_truthy w "CI_PROJECT_ID" with
             | Some _ => true
             | None => false
             end
  then Gitlab
  else if env_is w "GITHUB_ACTIONS" "true" then Github
  else Github.

(** [process.env.NAME || core.getInput(input)] *)
Definition env_or_input (w : World) (name input : string) : option string :=
  match env_truthy w name with
  | Some v => Some v
  | None => opt_truthy (Some (getInput w input))
  end.

(** [getToken] *)
Definition getToken (w : World) : outcome string :=
  match detectPlatform w with
  | Gitlab =>
      let usable :=
        match env_truthy w "CLAUDE_CODE_GL_ACCESS_TOKEN" with
        | Some glAccessToken =>
            if prefix "$" glAccessToken then None else Some glAccessToken
        | None => None
        end in
      match usable with
      | Some glAccessToken => Ok glAccessToken
      | None =>
          match env_or_input w "CLAUDE_CODE_OAUTH_TOKEN" "claude_code_oauth_token" with
          | Some oauthToken => Ok oauthToken
          | None =>
              match env_or_input w "GITLAB_TOKEN" "gitlab_token" with
              | Some t => Ok t
              | None =>
                  Throw "GitLab authentication required (CLAUDE_CODE_GL_ACCESS_TOKEN, CLAUDE_CODE_OAUTH_TOKEN, GITLAB_TOKEN, or gitlab_token input)"
              end
          end
      end
  | Github =>
      match env_or_input w "CLAUDE_CODE_OAUTH_TOKEN" "claude_code_oauth_token" with
      | Some oauthToken => Ok oauthToken
      | None =>
          let githubToken :=
            match opt_truthy (Some (getInput w "github_token")) with
            | Some t => Some t
            | None =>
                match env_truthy w "GITHUB_TOKEN" with
                | Some t => Some t
                | None => opt_truthy (Some (getInput w "anthropic_api_key"))
                end
            end in
          match githubToken with
          | Some t => Ok t
          | None =>
              Throw "GitHub authentication required (claude_code_oauth_token or github_token)"
          end
      end
  end.

(** The two ids of the GitLab resource: from [CLAUDE_RESOURCE_TYPE] and
    [CLAUDE_RESOURCE_ID] in a pipeline started by the webhook, from
    [CI_MERGE_REQUEST_IID] otherwise. *)
Definition gitlabResource (w : World) : option string * option string :=
  let claudeResourceId := env_truthy w "CLAUDE_RESOURCE_ID" in
  match claudeResourceId with
  | Some id =>
      if env_is w "CLAUDE_RESOURCE_TYPE" "merge_request" then (Some id, None)
      else if env_is w "CLAUDE_RESOURCE_TYPE" "issue" then (None, Some id)
      else (getenv w "CI_MERGE_REQUEST_IID", Some id)
  | None => (getenv w "CI_MERGE_REQUEST_IID", None)
  end.

(** [createProvider] *)
Definition createProvider (w : World) (options : ProviderFactoryOptions)
  : outcome Provider :=
  let chosen :=
    match platform options with
    | Some p => p
    | None => detectPlatform w
    end in
  match chosen with
  | Gitlab =>
      let '(mrIid, issueIid) := gitlabResource w in
      match env_truthy w "CI_PROJECT_ID" with
      | None => Throw "GitLab project ID is required (CI_PROJECT_ID)"
      | Some projectId =>
          Ok (GitLabProvider
                (GitLabOptions (token options) projectId mrIid issueIid
                   (or_else (env_truthy w "CI_SERVER_URL") "https://gitlab.com")
                   (getenv w "CI_PIPELINE_URL")
                   (triggerPhrase options) (directPrompt options)))
      end
  | Github =>
      let text name := or_else (env_truthy w name) EmptyString in
      let parts := split_on "/"%char (text "GITHUB_REPOSITORY") in
      match parts with
      | owner :: repo :: _ =>
          if JsString.truthy owner && JsString.truthy repo then
            Ok (GitHubProvider
                  (GitHubOptions (token options) (text "GITHUB_RUN_ID")
                     (text "GITHUB_ACTOR") (text "GITHUB_EVENT_NAME")
                     owner repo (triggerPhrase options) (directPrompt options)))
          else Throw "GitHub repository must be in format owner/repo"
      | _ => Throw "GitHub repository must be in format owner/repo"
      end
  end.

End Factory.

End ProviderFactory.

(** ** The image scripts: [docker/scripts/tag-image.sh], [push-image.sh] *)

Module ImageScripts.

Import JsString Host.

Definition registry : string := "785865403848.dkr.ecr.eu-west-1.amazonaws.com".
Definition image_name : string := "norobet/ai-tool".

Inductive DockerCmd : Type :=
| ImageTag (source target : string)   (* docker image tag source target *)
| ImagePush (target : string).        (* docker image push target *)

(** Command substitution [$(...)] drops the line feeds at the end of the
    output. *)
Fixpoint chomp (s : string) : string :=
  match s with
  | EmptyString => EmptyString
  | String c r =>
      let r' := chomp r in
      if Ascii.eqb c lf && is_empty r' then EmptyString else String c r'
  end.

(** The characters of the default [IFS]: space, tab, line feed. *)
Definition is_ifs (c : ascii) : bool :=
  let n := code c in ((n =? 32) || (n =? 9) || (n =? 10))%N.

(** Word splitting of an unquoted [$tags]: [word] is the word being read.
    Names of git tags hold no [*], [?] or [[], so no pattern among the
    words is expanded. *)
Fixpoint split_words (word : string) (s : string) : list string :=
  match s with
  | EmptyString => if is_empty word then [] else [word]
  | String c r =>
      if is_ifs c then
        if is_empty word then split_words EmptyString r
        else word :: split_words EmptyString r
      else split_words (word ++ String c EmptyString) r
  end.

Definition words (s : string) : list string := split_words EmptyString s.

Section Scripts.
Context {World : Type} {RT : Runtime World}.

(** [[
      if [ -n "$CI_COMMIT_BRANCH" ]; then branch=$CI_COMMIT_BRANCH
      elif [ -n "$CI_MERGE_REQUEST_TARGET_BRANCH_NAME" ]; then ...
      else branch=$(git rev-parse --abbrev-ref HEAD); fi
    ]]
    [head] is the output of the git command. *)
Definition branch (w : World) (head : string) : string :=
  match env_truthy w "CI_COMMIT_BRANCH" with
  | Some b => b
  | None =>
      match env_truthy w "CI_MERGE_REQUEST_TARGET_BRANCH_NAME" with
      | Some b => b
      | None => chomp head
      end
  end.

(** [tag-image.sh] *)
Definition tagImage (w : World) (head revision tags : string) : list DockerCmd :=
  let ref t := registry ++ "/" ++ image_name ++ ":" ++ t in
  ImageTag image_name (ref (branch w head))
    :: ImageTag image_name (ref (branch w head ++ "-" ++ chomp revision))
    :: map (fun tag => ImageTag image_name (ref tag)) (words (chomp tags)).

(** [push-image.sh] *)
Definition pushImage (w : World) (head revision tags : string) : list DockerCmd :=
  let ref t := registry ++ "/" ++ image_name ++ ":" ++ t in
  ImagePush (ref (branch w head))
    :: ImagePush (ref (branch w head ++ "-" ++ chomp revision))
    :: map (fun tag => ImagePush (ref tag)) (words (chomp tags)).

End Scripts.

End ImageScripts.

(** ** A host with a GitLab project, to run the update script on *)

Module Lab.

Import JsString Host Phase UpdateScript ProviderFactory.

(** The simulated host of [Sim], the notes of the resource, and the error
    an edit ends with, if any. *)
Record World : Type := WorldOf {
  machine : Sim.World;
  notes : list GitLabNote;
  editError : option string
}.

Definition edited (noteId : Z) (body : string) (n : GitLabNote) : GitLabNote :=
  if note_id n =? noteId then NoteOf noteId body else n.

#[global] Instance runtime : Runtime World := {
  sh c w :=
    let '(r, m) := Sim.sim_sh c (machine w) in
    (r, WorldOf m (notes w) (editError w));
  getenv w name := Sim.assoc name (Sim.env (machine w));
  existsSync w path := existsSync (machine w) path;
  readFile w path := readFile (machine w) path;
  now _ := 1700000000000;
  numberToString := Sim.printNumber
}.

#[global] Instance api : GitlabApi World := {
  notesAll _ _ _ w := (inr (notes w), w);
  notesEdit _ _ _ noteId body w :=
    match editError w with
    | Some e => (Some e, w)
    | None => (None, WorldOf (machine w) (map (edited noteId body) (notes w)) None)
    end
}.

(** No inputs of the action are given. *)
#[global] Instance inputs : ActionsCore World := {
  getInput _ _ := EmptyString
}.

Definition withEnv (extra : list (string * string)) (w : Sim.World) : Sim.World :=
  Sim.WorldOf (extra ++ Sim.env w) (Sim.files w) (Sim.head w) (Sim.locals w)
    (Sim.remotes w) (Sim.origin w) (Sim.status w) (Sim.prepare w)
    (Sim.baseAction w) (Sim.push w) (Sim.update w).

Definition trackingNote : GitLabNote :=
  NoteOf 4711
    ("ðŸ¤– Claude is working on this..." ++ String lf "- [ ] Read the issue").

(** The project of the job, with the tracking comment among its notes and
    a token in the environment. *)
Definition project : World := {|
  machine :=
    withEnv [("CI_PROJECT_ID", "42"); ("GITLAB_TOKEN", "glpat-example");
             ("CI_PIPELINE_ID", "900")]
            Sim.job;
  notes := [NoteOf 4700 "An earlier note"; trackingNote];
  editError := None
|}.

(** The environment the update phase hands to the script. *)
Definition scriptEnv : list (string * string) :=
  Entry.updateEnv project Sim.prepared Sim.executed.

Definition begin (w : World) : World * list ApiCall := (w, []).

End Lab.

(** ** More vocabulary *)

Module Shape.

Import JsString Host.


(** The character [c] is nowhere in the text. *)
Fixpoint lacks (c : ascii) (s : string) : bool :=
  match s with
  | EmptyString => true
  | String a r => negb (Ascii.eqb a c) && lacks c r
  end.

(** The number a run of decimal digits stands for, read after [acc]. *)
Fixpoint digits_value (d : Decimal.uint) (acc : Z) : Z :=
  match d with
  | Decimal.Nil => acc
  | Decimal.D0 l => digits_value l (10 * acc)
  | Decimal.D1 l => digits_value l (10 * acc + 1)
  | Decimal.D2 l => digits_value l (10 * acc + 2)
  | Decimal.D3 l => digits_value l (10 * acc + 3)
  | Decimal.D4 l => digits_value l (10 * acc + 4)
  | Decimal.D5 l => digits_value l (10 * acc + 5)
  | Decimal.D6 l => digits_value l (10 * acc + 6)
  | Decimal.D7 l => digits_value l (10 * acc + 7)
  | Decimal.D8 l => digits_value l (10 * acc + 8)
  | Decimal.D9 l => digits_value l (10 * acc + 9)
  end.

(** An unchecked item of a task list. *)
Definition box : string := "- [ ] ".

(** The integer is a double: rounding leaves it as it is. *)
Definition isDouble (z : Z) : Prop :=
  JsNumber.round_integer (Z.abs z) = Some (Z.abs z).

(** A comment id that [toString] writes without an exponent: no id,
    [NaN], or a double of magnitude below [10^21]. *)
Definition plainId (i : option Phase.jsint) : Prop :=
  match i with
  | Some (Phase.IntOf z) => isDouble z /\ Z.abs z < 10 ^ 21
  | _ => True
  end.

(** The runtime of the update script when the update phase starts it:
    the job's own, with the environment the phase hands over. *)
Definition scriptRuntime {World : Type} (RT : Host.Runtime World) (w : World)
    (prepareResult executeResult : Phase.PhaseResult) : Host.Runtime World :=
  UpdateScript.childRuntime RT
    (@Entry.updateEnv World RT w prepareResult executeResult).

Definition isNotesEdit (c : UpdateScript.ApiCall) : bool :=
  match c with
  | UpdateScript.NotesEdit _ _ _ _ _ => true
  | UpdateScript.NotesAll _ _ _ => false
  end.

(** The image a docker command names as its target. *)
Definition target (c : ImageScripts.DockerCmd) : string :=
  match c with
  | ImageScripts.ImageTag _ t => t
  | ImageScripts.ImagePush t => t
  end.

End Shape.

(** ** More jobs and texts to run the code on *)

Module Cases.

Import JsString Json Host UpdateComment Phase UpdateScript ProviderFactory.

(** The record of the first line of the transcript. *)
Definition resultRecord : json :=
  match parse Sim.resultLine with
  | Some v => v
  | None => JNull
  end.



(** The prepare script exits with code 1. *)
Definition prepareFails : Sim.World :=
  Sim.withAnswers (Completed 1 EmptyString "cannot reach GitLab")
    Sim.done Sim.done Sim.done Sim.job.

(** A source file is new in the working tree. *)
Definition sourceChanged : Sim.World := Sim.withStatus "?? src/app.ts" Sim.job.

(** The assistant has left no output file. *)
Definition noOutputs : Sim.World := Sim.withFiles [] Sim.job.

(** The one entry of the working tree is [output.txt]. *)
Definition onlyOutputTxt : Sim.World := Sim.withStatus "?? output.txt" Sim.job.

(** The byte order mark, U+FEFF, in UTF-8. *)
Definition bom : string :=
  String (ascii_of_nat 239) (String (ascii_of_nat 187)
    (String (ascii_of_nat 191) EmptyString)).

(** A line of 69 characters that is not JSON, and a record that holds no
    message. *)
Definition plainText : string :=
  "Error: the assistant could not be started, see the job log for detail".

Definition systemLine : string := q "{'type':'system','subtype':'init'}".

Definition plainTranscript : string := plainText ++ String lf systemLine.

(** The transcript of the job is the plain line and the system record. *)
Definition onlyPlainText : Sim.World :=
  Sim.withFiles [(Sim.txtPath, Some plainTranscript)] Sim.job.

(** A host on which the address of [origin] changes once it has been
    asked for: the world is the number of times it was asked.  The first
    answer names the project, the later ones another repository. *)
Definition moved_sh (c : Cmd) (asked : nat) : cmd_result * nat :=
  match c with
  | GitRemoteGetUrl =>
      (Sim.says (match asked with
                 | O => "https://gitlab.com/group/project.git"
                 | S _ => "https://gitlab.com/other/repo.git"
                 end), S asked)
  | GitStatusPorcelain => (Sim.says "?? src/app.ts", asked)
  | _ => (Sim.done, asked)
  end.

Definition movedRuntime : Runtime nat := {|
  sh := moved_sh;
  getenv _ name := Sim.assoc name Sim.projectEnv;
  existsSync _ _ := false;
  readFile _ _ := None;
  now _ := 1700000000000;
  numberToString := Sim.printNumber
|}.

(** The commands of the classifier on that host. *)
Definition classified : list Cmd :=
  snd (snd (@Entry.checkGitStatus nat movedRuntime (O, []))).

Definition pipelineUrl : string := "https://gitlab.com/42/-/pipelines/900".

(** Execution details with a cost of [2^70]. *)
Definition costly : NumDetails :=
  NumDetailsOf (Some (JsNumber.Fin 1 70)) (Some (JsNumber.of_Z 1500)).

(** The tracking comment after the update, without execution details. *)
Definition updatedNote : string :=
  match formatGitLabCommentBody (note_body Lab.trackingNote) true pipelineUrl
          None None with
  | Some body => body
  | None => EmptyString
  end.

(** The update script as the update phase of the job starts it. *)
Definition scriptRuntime : Runtime Lab.World :=
  Shape.scriptRuntime Lab.runtime Lab.project Sim.prepared Sim.executed.

Definition scriptOutcome : option (ending * (Lab.World * list ApiCall)) :=
  @UpdateScript.run Lab.World scriptRuntime Lab.api (Lab.begin Lab.project).

Definition afterScript : Lab.World * list ApiCall :=
  match scriptOutcome with
  | Some (_, st) => st
  | None => Lab.begin Lab.project
  end.

(** The body the script gives the tracking comment. *)
Definition editedBody : string :=
  match snd afterScript with
  | [_; NotesEdit _ _ _ _ body] => body
  | _ => EmptyString
  end.

(** A job of GitHub Actions, with a repository name of three segments. *)
Definition github : Lab.World := {|
  Lab.machine :=
    Lab.withEnv [("GITHUB_REPOSITORY", "octo/tool/extra");
                 ("GITHUB_ACTIONS", "true")]
                Sim.job;
  Lab.notes := [];
  Lab.editError := None
|}.

Definition factoryOptions : ProviderFactoryOptions :=
  FactoryOptions None "glpat-example" None None.

Definition githubOptions : GitHubProviderOptions :=
  GitHubOptions "glpat-example" EmptyString EmptyString EmptyString
    "octo" "tool" None None.

Definition gitlabOptions : GitLabProviderOptions :=
  GitLabOptions "glpat-example" "42" None (Some "7") "https://gitlab.com"
    None None None.

End Cases.

(** * Properties *)

(** ** Strings and lines *)

Module LineFacts.

Import JsString.

Lemma string_length_ind (P : string -> Prop) :
  (forall s, (forall r, (String.length r < String.length s)%nat -> P r) -> P s) ->
  forall s, P s.
Proof.
  intros H s.
  assert (G : forall n r, (String.length r < n)%nat -> P r).
  { induction n as [|n IH]; intros r Hr; [lia|].
    apply H. intros r' Hr'. apply IH. lia. }
  exact (G (S (String.length s)) s (Nat.lt_succ_diag_r _)).
Qed.

Lemma ws_head_first (a : ascii) (r r' : string) :
  ws_head (String a r) = Some r' -> ws_first a = true.
Proof.
  unfold ws_first. cbn [ws_head]. destruct (is_ws a); [reflexivity|].
  destruct r as [|b r2]; [discriminate|].
  unfold is_ws2. destruct (code a =? 194)%N; [reflexivity|].
  cbn [andb]. destruct r2 as [|c r3]; [discriminate|].
  unfold is_ws3.
  destruct (code a =? 225)%N; [reflexivity|].
  destruct (code a =? 226)%N; [reflexivity|].
  destruct (code a =? 227)%N; [reflexivity|].
  destruct (code a =? 239)%N; [reflexivity|].
  cbn [andb orb]. discriminate.
Qed.

Lemma ws_first_code (c : ascii) :
  ws_first c = true -> (code c < 128 \/ 192 <= code c)%N.
Proof.
  unfold ws_first, is_ws. intros H.
  repeat (apply orb_prop in H; destruct H as [H | H]);
    try (apply N.eqb_eq in H; lia).
  apply andb_prop in H as [_ H]. apply N.leb_le in H. lia.
Qed.

Lemma is_ws2_second (a b : ascii) :
  is_ws2 a b = true -> ws_first b = false.
Proof.
  unfold is_ws2. intros H. apply andb_prop in H as [_ H].
  apply N.eqb_eq in H.
  destruct (ws_first b) eqn:E; [|reflexivity].
  apply ws_first_code in E. lia.
Qed.

Lemma is_ws3_rest (a b c : ascii) :
  is_ws3 a b c = true -> ws_first b = false /\ ws_first c = false.
Proof.
  unfold is_ws3. intros H.
  assert (G : (128 <= code b < 192 /\ 128 <= code c < 192)%N).
  { repeat (apply orb_prop in H; destruct H as [H | H]);
      apply andb_prop in H as [_ H]; apply andb_prop in H as [Hb Hc];
      apply N.eqb_eq in Hb;
      try (apply N.eqb_eq in Hc; lia).
    repeat (apply orb_prop in Hc; destruct Hc as [Hc | Hc]);
      try (apply N.eqb_eq in Hc; lia).
    apply andb_prop in Hc as [H1 H2].
    apply N.leb_le in H1, H2. lia. }
  split.
  - destruct (ws_first b) eqn:E; [|reflexivity].
    apply ws_first_code in E. lia.
  - destruct (ws_first c) eqn:E; [|reflexivity].
    apply ws_first_code in E. lia.
Qed.

Lemma ws_head_app (s r t : string) :
  ws_head s = Some r -> ws_head (s ++ t) = Some (r ++ t).
Proof.
  destruct s as [|a [|b [|c r3]]]; cbn [ws_head append].
  - discriminate.
  - destruct (is_ws a); [|discriminate].
    intros H. injection H as <-. reflexivity.
  - destruct (is_ws a).
    { intros H. injection H as <-. reflexivity. }
    destruct (is_ws2 a b); [|discriminate].
    intros H. injection H as <-. reflexivity.
  - destruct (is_ws a).
    { intros H. injection H as <-. reflexivity. }
    destruct (is_ws2 a b).
    { intros H. injection H as <-. reflexivity. }
    destruct (is_ws3 a b c); [|discriminate].
    intros H. injection H as <-. reflexivity.
Qed.

(** A text that joins on without completing a character begun before
    it: it is empty, or its first byte may begin a white-space
    character. *)
Lemma ws_head_none_app (s t : string) :
  s <> EmptyString -> ws_head s = None ->
  (t = EmptyString \/ exists c u, t = String c u /\ ws_first c = true) ->
  ws_head (s ++ t) = None.
Proof.
  intros Hne Hs Ht.
  destruct s as [|a [|b [|c r3]]]; [congruence | | |]; cbn [ws_head append] in *.
  - destruct (is_ws a); [discriminate|].
    destruct Ht as [-> | (c & u & -> & Hc)]; [reflexivity|].
    destruct (is_ws2 a c) eqn:E2.
    { apply is_ws2_second in E2. congruence. }
    destruct u as [|d u']; [reflexivity|].
    destruct (is_ws3 a c d) eqn:E3; [|reflexivity].
    apply is_ws3_rest in E3 as [E3 _]. congruence.
  - destruct (is_ws a); [discriminate|].
    destruct (is_ws2 a b); [discriminate|].
    destruct Ht as [-> | (c & u & -> & Hc)]; [reflexivity|].
    cbn [append].
    destruct (is_ws3 a b c) eqn:E3; [|reflexivity].
    apply is_ws3_rest in E3 as [_ E3]. congruence.
  - destruct (is_ws a); [discriminate|].
    destruct (is_ws2 a b); [discriminate|].
    destruct (is_ws3 a b c); [discriminate | reflexivity].
Qed.

Lemma trim_start_eq (s : string) :
  trim_start s
  = match ws_head s with
    | Some r => trim_start r
    | None => s
    end.
Proof.
  destruct s as [|a [|b [|c r3]]]; cbn [ws_head trim_start];
    try reflexivity.
  - destruct (is_ws a); reflexivity.
  - destruct (is_ws a); [reflexivity|]. destruct (is_ws2 a b); reflexivity.
  - destruct (is_ws a); [reflexivity|].
    destruct (is_ws2 a b); [reflexivity|].
    destruct (is_ws3 a b c); reflexivity.
Qed.

Lemma all_ws_eq (s : string) :
  all_ws s
  = match s with
    | EmptyString => true
    | String _ _ =>
        match ws_head s with
        | Some r => all_ws r
        | None => false
        end
    end.
Proof.
  destruct s as [|a [|b [|c r3]]]; cbn [ws_head all_ws];
    try reflexivity.
  - destruct (is_ws a); reflexivity.
  - destruct (is_ws a); [reflexivity|]. destruct (is_ws2 a b); reflexivity.
  - destruct (is_ws a); [reflexivity|].
    destruct (is_ws2 a b); [reflexivity|].
    destruct (is_ws3 a b c); reflexivity.
Qed.

Lemma ws_head_length (s r : string) :
  ws_head s = Some r -> (String.length r < String.length s)%nat.
Proof.
  destruct s as [|a [|b [|c r3]]]; cbn [ws_head String.length].
  - discriminate.
  - destruct (is_ws a); [|discriminate].
    intros H. injection H as <-. cbn. lia.
  - destruct (is_ws a).
    { intros H. injection H as <-. cbn. lia. }
    destruct (is_ws2 a b); [|discriminate].
    intros H. injection H as <-. cbn. lia.
  - destruct (is_ws a).
    { intros H. injection H as <-. cbn. lia. }
    destruct (is_ws2 a b).
    { intros H. injection H as <-. cbn. lia. }
    destruct (is_ws3 a b c); [|discriminate].
    intros H. injection H as <-. lia.
Qed.

(** White space begins with a byte that begins a white-space character. *)
Lemma all_ws_first (t : string) :
  all_ws t = true ->
  t = EmptyString \/ exists c u, t = String c u /\ ws_first c = true.
Proof.
  destruct t as [|c u]; [now left|]. intros H. right. exists c, u.
  split; [reflexivity|]. rewrite all_ws_eq in H.
  destruct (ws_head (String c u)) as [r|] eqn:E; [|discriminate].
  exact (ws_head_first _ _ _ E).
Qed.

Lemma all_ws_app (s t : string) :
  (t = EmptyString \/ exists c u, t = String c u /\ ws_first c = true) ->
  all_ws (s ++ t) = all_ws s && all_ws t.
Proof.
  intros Ht. induction s as [s IH] using string_length_ind.
  destruct s as [|a r]; [reflexivity|].
  rewrite (all_ws_eq (String a r ++ t)), (all_ws_eq (String a r)).
  cbn [append].
  destruct (ws_head (String a r)) as [r'|] eqn:E.
  - change (String a (r ++ t)) with (String a r ++ t).
    rewrite (ws_head_app _ _ t E). apply IH, ws_head_length, E.
  - change (String a (r ++ t)) with (String a r ++ t).
    rewrite (ws_head_none_app (String a r) t) by (discriminate || assumption).
    reflexivity.
Qed.

Lemma trim_start_length (s : string) :
  (String.length (trim_start s) <= String.length s)%nat.
Proof.
  induction s as [s IH] using string_length_ind.
  rewrite trim_start_eq. destruct (ws_head s) as [r|] eqn:E; [|lia].
  pose proof (ws_head_length _ _ E). pose proof (IH r H). lia.
Qed.

Lemma trim_end_length (s : string) :
  (String.length (trim_end s) <= String.length s)%nat.
Proof.
  induction s as [|c r IH]; [cbn; lia|].
  cbn [trim_end]. destruct (all_ws (String c r)); cbn [String.length]; lia.
Qed.

Lemma trim_start_all_ws (h s : string) :
  all_ws h = true -> trim_start (h ++ s) = trim_start s.
Proof.
  induction h as [h IH] using string_length_ind. intros H.
  destruct h as [|a r]; [reflexivity|].
  rewrite all_ws_eq in H.
  destruct (ws_head (String a r)) as [r'|] eqn:E; [|discriminate].
  rewrite trim_start_eq, (ws_head_app _ _ s E).
  exact (IH r' (ws_head_length _ _ E) H).
Qed.

Lemma trim_start_ws_only (t : string) :
  all_ws t = true -> trim_start t = EmptyString.
Proof.
  induction t as [t IH] using string_length_ind. intros H.
  destruct t as [|a r]; [reflexivity|].
  rewrite all_ws_eq in H. rewrite trim_start_eq.
  destruct (ws_head (String a r)) as [r'|] eqn:E; [|discriminate].
  exact (IH r' (ws_head_length _ _ E) H).
Qed.

Lemma trim_start_empty (s : string) :
  is_empty (trim_start s) = true -> all_ws s = true.
Proof.
  induction s as [s IH] using string_length_ind. intros H.
  destruct s as [|a r]; [reflexivity|].
  rewrite trim_start_eq in H. rewrite all_ws_eq.
  destruct (ws_head (String a r)) as [r'|] eqn:E; [|discriminate].
  exact (IH r' (ws_head_length _ _ E) H).
Qed.

Lemma trim_end_all_ws (t : string) :
  all_ws t = true -> trim_end t = EmptyString.
Proof.
  intros H. destruct t as [|c r]; [reflexivity|].
  cbn [trim_end]. rewrite H. reflexivity.
Qed.

Lemma trim_end_empty (s : string) :
  is_empty (trim_end s) = true -> all_ws s = true.
Proof.
  destruct s as [|c r]; [reflexivity|]. cbn [trim_end].
  destruct (all_ws (String c r)); [reflexivity | discriminate].
Qed.

(** [trimEnd] of two texts joined, the second of which joins on without
    completing a character begun in the first. *)
Lemma trim_end_app (s t : string) :
  (t = EmptyString \/ exists c u, t = String c u /\ ws_first c = true) ->
  trim_end (s ++ t) = if all_ws t then trim_end s else s ++ trim_end t.
Proof.
  intros Ht. induction s as [|c r IH].
  - cbn [append trim_end]. destruct (all_ws t) eqn:E; [|reflexivity].
    apply trim_end_all_ws, E.
  - change (String c r ++ t) with (String c (r ++ t)). cbn [trim_end].
    change (String c (r ++ t)) with (String c r ++ t).
    rewrite (all_ws_app _ _ Ht), IH.
    destruct (all_ws t); [rewrite andb_true_r | rewrite andb_false_r];
      reflexivity.
Qed.

Lemma trim_end_app_all_ws (s t : string) :
  all_ws t = true -> trim_end (s ++ t) = trim_end s.
Proof.
  intros Ht. rewrite (trim_end_app _ _ (all_ws_first _ Ht)), Ht. reflexivity.
Qed.

(** A text that [trim] empties consists of white space only. *)
Lemma trim_empty_all_ws (s : string) :
  is_empty (trim s) = true -> all_ws s = true.
Proof.
  unfold trim. intros H. apply trim_start_empty.
  apply trim_end_empty in H.
  destruct (trim_start s) as [|a r] eqn:E; [reflexivity|].
  exfalso. rewrite all_ws_eq in H.
  assert (N : ws_head (String a r) = None).
  { destruct (ws_head (String a r)) as [r'|] eqn:W; [|reflexivity].
    exfalso. pose proof (f_equal trim_start E) as F.
    assert (I : trim_start (trim_start s) = trim_start s).
    { clear. induction s as [s IH] using string_length_ind.
      rewrite (trim_start_eq s).
      destruct (ws_head s) as [r|] eqn:W.
      - apply IH, ws_head_length, W.
      - rewrite trim_start_eq, W. reflexivity. }
    rewrite I, E in F. rewrite trim_start_eq, W in F.
    pose proof (trim_start_length r') as L1.
    pose proof (ws_head_length _ _ W) as L2.
    rewrite <- F in L1. lia. }
  rewrite N in H. discriminate.
Qed.

(** A text that [trim] leaves alone is empty, or neither begins nor is
    white space, and [trimEnd] leaves it alone too. *)
Lemma trimmed_head (s : string) :
  trim s = s -> s <> EmptyString ->
  ws_head s = None /\ all_ws s = false /\ trim_end s = s.
Proof.
  intros H Hne.
  assert (N : ws_head s = None).
  { destruct (ws_head s) as [r|] eqn:W; [|reflexivity].
    exfalso. unfold trim in H. rewrite trim_start_eq, W in H.
    pose proof (trim_end_length (trim_start r)) as L1.
    pose proof (trim_start_length r) as L2.
    pose proof (ws_head_length _ _ W) as L3.
    rewrite H in L1. lia. }
  split; [exact N|].
  unfold trim in H. rewrite trim_start_eq, N in H.
  split; [|exact H].
  destruct s as [|a r]; [congruence|].
  rewrite all_ws_eq, N. reflexivity.
Qed.

(** White space around a trimmed text is what [trim] removes. *)
Lemma trim_padded (h s t : string) :
  all_ws h = true -> all_ws t = true -> trim s = s ->
  trim (h ++ s ++ t) = s.
Proof.
  intros Hh Ht Hs. unfold trim. rewrite (trim_start_all_ws h _ Hh).
  destruct s as [|a r].
  - cbn [append]. rewrite (trim_start_ws_only t Ht). reflexivity.
  - destruct (trimmed_head _ Hs) as (N & _ & E); [discriminate|].
    rewrite trim_start_eq.
    rewrite (ws_head_none_app (String a r) t) by
      (discriminate || assumption || apply all_ws_first, Ht).
    rewrite (trim_end_app_all_ws _ _ Ht). exact E.
Qed.

Lemma split_lines_single (l : string) :
  no_lf l = true -> split_lines l = [l].
Proof.
  induction l as [|c r IH]; simpl; [reflexivity|].
  intros H. apply andb_prop in H as [Hc Hr].
  apply negb_true_iff in Hc. rewrite Hc, (IH Hr). reflexivity.
Qed.

Lemma split_lines_cons (l rest : string) :
  no_lf l = true ->
  split_lines (l ++ String lf rest) = l :: split_lines rest.
Proof.
  induction l as [|c r IH]; simpl; intros H.
  - reflexivity.
  - apply andb_prop in H as [Hc Hr].
    apply negb_true_iff in Hc. rewrite Hc, (IH Hr). reflexivity.
Qed.

(** Splitting what was joined gives the lines back. *)
Lemma split_join_lines (lines : list string) :
  lines <> [] ->
  Forall (fun l => no_lf l = true) lines ->
  split_lines (join_lines lines) = lines.
Proof.
  induction lines as [|l rest IH]; intros Hne Hall; [congruence|].
  inversion Hall as [|? ? Hl Hrest]; subst.
  destruct rest as [|l2 rest'].
  - simpl. apply split_lines_single, Hl.
  - change (join_lines (l :: l2 :: rest'))
      with (l ++ String lf (join_lines (l2 :: rest'))).
    rewrite (split_lines_cons _ _ Hl), IH; [reflexivity | discriminate | exact Hrest].
Qed.

(** A text whose first byte begins no white-space character is left
    alone by [trimStart]. *)
Lemma trim_start_other (a : ascii) (r : string) :
  ws_first a = false -> trim_start (String a r) = String a r.
Proof.
  intros H. rewrite trim_start_eq.
  destruct (ws_head (String a r)) as [r'|] eqn:E; [|reflexivity].
  rewrite (ws_head_first _ _ _ E) in H. discriminate.
Qed.

End LineFacts.

(** ** The transcript reader *)

Module ReaderFacts.

Import JsString Json Host UpdateComment Spec LineFacts.

Lemma json_ws_is_ws (c : ascii) : is_json_ws c = true -> is_ws c = true.
Proof.
  destruct c as [[] [] [] [] [] [] [] []]; vm_compute; intros H;
    try discriminate; reflexivity.
Qed.

Lemma all_ws_skip (s : string) :
  all_ws s = true ->
  skip_ws s = EmptyString \/
  exists c r,
    skip_ws s = String c r /\ ws_first c = true /\ is_json_ws c = false.
Proof.
  induction s as [|c r IH]; intros H; [now left|].
  cbn [skip_ws]. destruct (is_json_ws c) eqn:E.
  - apply IH. cbn [all_ws] in H. rewrite (json_ws_is_ws c E) in H. exact H.
  - right. exists c, r. split; [reflexivity|]. split; [|exact E].
    destruct (all_ws_first _ H) as [Habs | (c' & u & Heq & Hc)];
      [discriminate|].
    injection Heq as <- <-. exact Hc.
Qed.

Lemma parse_value_blank (fuel : nat) (s : string) :
  all_ws s = true -> parse_value fuel s = None.
Proof.
  intros H. destruct fuel as [|f]; [reflexivity|].
  simpl. destruct (all_ws_skip s H) as [E | (c & r & E & Hc & Hj)]; rewrite E.
  - reflexivity.
  - destruct c as [[] [] [] [] [] [] [] []]; vm_compute in Hc, Hj;
      try discriminate; reflexivity.
Qed.

(** [JSON.parse] throws on a blank line, so the test for a blank line
    drops nothing that the parse would have kept. *)
Lemma parse_blank (s : string) :
  is_empty (trim s) = true -> parse s = None.
Proof.
  intros H. unfold parse.
  rewrite (parse_value_blank _ s (trim_empty_all_ws s H)). reflexivity.
Qed.

Lemma parseLines_records (lines : list string) :
  parseLines lines = records lines.
Proof.
  induction lines as [|l rest IH]; simpl; [reflexivity|].
  destruct (is_empty (trim l)) eqn:E.
  - rewrite (parse_blank l E). simpl. exact IH.
  - destruct (parse l); simpl; rewrite IH; reflexivity.
Qed.

Lemma records_app (xs ys : list string) :
  records (xs ++ ys) = (records xs ++ records ys)%list.
Proof. unfold records. apply flat_map_app. Qed.

(** In the loop of [postClaudeResponse] a line that does not parse and
    is too short to pass for plain text changes nothing. *)
Lemma scanLines_skips_malformed
    (numberToString : JsNumber.jsnum -> string)
    (before : list string) (bad : string) (after : list string)
    (claudeMessage : json) :
  parse bad = None ->
  (units (trim bad) <= 50)%nat ->
  Phase.scanLines numberToString (before ++ bad :: after) claudeMessage
  = Phase.scanLines numberToString (before ++ after) claudeMessage.
Proof.
  intros Hbad Hshort. revert claudeMessage.
  induction before as [|l rest IH]; intros m; simpl.
  - rewrite Hbad.
    replace (Nat.ltb 50 (units (trim bad))) with false
      by (symmetry; apply Nat.ltb_ge; exact Hshort).
    rewrite andb_false_r. destruct (is_empty (trim bad)); reflexivity.
  - destruct (is_empty (trim l)); [apply IH|].
    destruct (parse l) as [output|]; [|apply IH].
    destruct (Phase.tryRecord numberToString output m); try apply IH.
    reflexivity.
Qed.

(** What the [catch] branch of the loop of [postClaudeResponse] leaves
    in [claudeMessage] for a line that does not parse: the trimmed line
    when no message was found before and the trimmed line has more than
    50 UTF-16 units, the message as it was otherwise. *)
Lemma scanLines_malformed_head
    (numberToString : JsNumber.jsnum -> string)
    (bad : string) (after : list string) (claudeMessage : json) :
  parse bad = None ->
  Phase.scanLines numberToString (bad :: after) claudeMessage
  = Phase.scanLines numberToString after
      (if negb (Json.truthy claudeMessage) && Nat.ltb 50 (units (trim bad))
       then JStr (trim bad) else claudeMessage).
Proof.
  intros Hbad. cbn [Phase.scanLines]. rewrite Hbad.
  destruct (trim bad) eqn:E; [|reflexivity].
  cbn [is_empty units Nat.ltb Nat.leb]. rewrite andb_false_r. reflexivity.
Qed.

Lemma result_record_breaks
    (numberToString : JsNumber.jsnum -> string) (output claudeMessage : json) :
  is_string (get output "type") "result" = true ->
  Json.truthy (prop_value (get output "result")) = true ->
  Phase.tryRecord numberToString output claudeMessage
  = Phase.Break (prop_value (get output "result")).
Proof.
  intros Htype Hresult. unfold Phase.tryRecord.
  destruct (get output "type"); try discriminate Htype;
    rewrite Htype, Hresult; reflexivity.
Qed.

(** A result record that follows lines that do not parse is found, and
    its [result] is the message, whatever those lines were. *)
Lemma scanLines_result_after_malformed
    (numberToString : JsNumber.jsnum -> string)
    (before : list string) (good : string) (after : list string)
    (output claudeMessage : json) :
  Forall (fun l => parse l = None) before ->
  parse good = Some output ->
  is_string (get output "type") "result" = true ->
  Json.truthy (prop_value (get output "result")) = true ->
  Phase.scanLines numberToString (before ++ good :: after) claudeMessage
  = prop_value (get output "result").
Proof.
  intros Hbefore Hgood Htype Hresult. revert claudeMessage.
  induction Hbefore as [|l rest Hl _ IH]; intros m.
  - cbn [app Phase.scanLines].
    destruct (is_empty (trim good)) eqn:E;
      [rewrite (parse_blank good E) in Hgood; discriminate|].
    rewrite Hgood, (result_record_breaks _ _ _ Htype Hresult). reflexivity.
  - cbn [app]. rewrite (scanLines_malformed_head _ _ _ _ Hl). apply IH.
Qed.

(** C9, as amended.  A transcript made of the lines [lines] (each
    without a line feed, their text without outer white space), with any
    white space before and after, such as a byte order mark or a final
    line feed, is read by the loop of [getExecutionDetails] into exactly
    the parses of its well-formed lines, in order: a line that does not
    parse adds nothing and removes nothing, a line that parses adds its
    record between those of the lines around it.  The loop of
    [postClaudeResponse] reads the same lines and goes on after a line
    that does not parse, but skips it only when a message was found
    before or the trimmed line has at most 50 UTF-16 units; otherwise
    the trimmed line becomes the message.  Its result is the same with
    and without a malformed line of at most 50 units, and a result
    record that follows malformed lines of any length is still found and
    gives the message. *)
Theorem jsonl_keeps_wellformed_records
    (lines : list string) (leading trailing : string) :
  Forall (fun l => no_lf l = true) lines ->
  trim (join_lines lines) = join_lines lines ->
  all_ws leading = true ->
  all_ws trailing = true ->
  let fileContent := leading ++ join_lines lines ++ trailing in
  parseJsonl fileContent = records lines /\
  (forall before bad after,
      lines = (before ++ bad :: after)%list -> parse bad = None ->
      parseJsonl fileContent = (records before ++ records after)%list) /\
  (forall before good after v,
      lines = (before ++ good :: after)%list -> parse good = Some v ->
      parseJsonl fileContent = (records before ++ v :: records after)%list) /\
  forall numberToString,
    Phase.extractMessage numberToString fileContent
    = Phase.scanLines numberToString lines (JStr EmptyString) /\
    (forall bad after claudeMessage,
        parse bad = None ->
        Phase.scanLines numberToString (bad :: after) claudeMessage
        = Phase.scanLines numberToString after
            (if negb (Json.truthy claudeMessage)
                && Nat.ltb 50 (units (trim bad))
             then JStr (trim bad) else claudeMessage)) /\
    (forall before bad after claudeMessage,
        lines = (before ++ bad :: after)%list -> parse bad = None ->
        (units (trim bad) <= 50)%nat ->
        Phase.scanLines numberToString lines claudeMessage
        = Phase.scanLines numberToString (before ++ after) claudeMessage) /\
    (forall before good after output claudeMessage,
        lines = (before ++ good :: after)%list ->
        Forall (fun l => parse l = None) before ->
        parse good = Some output ->
        is_string (get output "type") "result" = true ->
        Json.truthy (prop_value (get output "result")) = true ->
        Phase.scanLines numberToString lines claudeMessage
        = prop_value (get output "result")).
Proof.
  intros Hlines Htrim Hlead Htrail fileContent.
  assert (Htext : trim fileContent = join_lines lines).
  { unfold fileContent. apply trim_padded; assumption. }
  assert (Hsplit : lines <> [] -> split_lines (join_lines lines) = lines).
  { intros Hne. apply split_join_lines; assumption. }
  assert (Hall : parseJsonl fileContent = records lines).
  { unfold parseJsonl. rewrite Htext.
    destruct lines as [|l rest]; [reflexivity|].
    rewrite Hsplit by discriminate. apply parseLines_records. }
  split; [exact Hall|]. split; [|split].
  - intros before bad after -> Hbad.
    rewrite Hall, records_app. simpl. rewrite Hbad. reflexivity.
  - intros before good after v -> Hgood. rewrite Hall, records_app.
    simpl. rewrite Hgood. reflexivity.
  - intros nts. split; [|split; [|split]].
    + unfold Phase.extractMessage. rewrite Htext.
      destruct lines as [|l rest]; [reflexivity|].
      rewrite Hsplit by discriminate. reflexivity.
    + intros bad after m Hbad. apply scanLines_malformed_head, Hbad.
    + intros before bad after m -> Hbad Hshort.
      apply scanLines_skips_malformed; assumption.
    + intros before good after output m -> Hbefore Hgood Htype Hresult.
      apply scanLines_result_after_malformed; assumption.
Qed.

End ReaderFacts.

(** ** The log of commands *)

Module LogFacts.

Import Host Spec.

Section Logs.
Context {World : Type} {RT : Runtime World}.
Variable P : Cmd -> Prop.

Lemma emits_ret {A} (a : A) : emits P (@ret World A a).
Proof. intros st. exists []. rewrite app_nil_r. split; [reflexivity | constructor]. Qed.

Lemma emits_throw {A} (e : string) : emits P (@throw World A e).
Proof. intros st. exists []. rewrite app_nil_r. split; [reflexivity | constructor]. Qed.

Lemma emits_world : emits P (@world World).
Proof. intros st. exists []. rewrite app_nil_r. split; [reflexivity | constructor]. Qed.

Lemma emits_run (c : Cmd) : P c -> emits P (run c).
Proof.
  intros Hc [w log]. exists [c]. unfold run.
  destruct (sh c w) as [[code out err | e] w']; simpl;
    (split; [reflexivity | repeat constructor; exact Hc]).
Qed.

Lemma emits_bind {A B} (m : @M World A) (k : A -> @M World B) :
  emits P m -> (forall a, emits P (k a)) -> emits P (bind m k).
Proof.
  intros Hm Hk st. unfold bind.
  destruct (Hm st) as (a1 & E1 & F1).
  destruct (m st) as [[a | e] st1]; simpl in E1.
  - destruct (Hk a st1) as (a2 & E2 & F2).
    exists (a1 ++ a2)%list. rewrite E2, E1, app_assoc.
    split; [reflexivity | apply Forall_app; split; assumption].
  - exists a1. split; assumption.
Qed.

Lemma emits_try_catch {A} (m : @M World A) (h : string -> @M World A) :
  emits P m -> (forall e, emits P (h e)) -> emits P (try_catch m h).
Proof.
  intros Hm Hh st. unfold try_catch.
  destruct (Hm st) as (a1 & E1 & F1).
  destruct (m st) as [[a | e] st1]; simpl in E1.
  - exists a1. split; assumption.
  - destruct (Hh e st1) as (a2 & E2 & F2).
    exists (a1 ++ a2)%list. rewrite E2, E1, app_assoc.
    split; [reflexivity | apply Forall_app; split; assumption].
Qed.

Lemma emits_total {A} (m : @M World A) (h : string -> A) :
  emits P m -> emitsT P (total m h).
Proof.
  intros Hm st. unfold total.
  destruct (Hm st) as (a1 & E1 & F1).
  destruct (m st) as [[a | e] st1]; simpl in E1; exists a1; split; assumption.
Qed.

Lemma emits_lift {A} (t : @T World A) : emitsT P t -> emits P (lift t).
Proof.
  intros Ht st. unfold lift.
  destruct (Ht st) as (a1 & E1 & F1).
  destruct (t st) as [a st1]; simpl in *. exists a1. split; assumption.
Qed.

Lemma emits_run_ignoring (c : Cmd) : P c -> emits P (run_ignoring c).
Proof.
  intros Hc. unfold run_ignoring. apply emits_try_catch.
  - apply emits_bind; [apply emits_run, Hc | intros; apply emits_ret].
  - intros; apply emits_ret.
Qed.

Lemma emits_for_each {A} (f : A -> @M World unit) (l : list A) :
  (forall a, emits P (f a)) -> emits P (for_each f l).
Proof.
  intros Hf. induction l as [|a rest IH]; simpl.
  - apply emits_ret.
  - apply emits_bind; [apply Hf | intros; exact IH].
Qed.

End Logs.

(** Walks through a computation, leaving the commands to be checked. *)
Ltac emits_step :=
  first
    [ apply emits_ret
    | apply emits_throw
    | apply emits_world
    | apply emits_run
    | apply emits_run_ignoring
    | apply emits_for_each; intros
    | apply emits_lift
    | apply emits_total
    | apply emits_bind; [|intros]
    | apply emits_try_catch; [|intros]
    | match goal with
      | |- emits _ (if ?b then _ else _) => destruct b
      | |- emits _ (match ?x with _ => _ end) => destruct x
      end ].

Ltac emits_auto := repeat emits_step; try reflexivity.

End LogFacts.

(** ** Which file is read *)

Module FileFacts.

Import JsString Json Host UpdateComment Phase Entry Spec.

Lemma path_join_truthy (dir name : string) :
  JsString.truthy (path_join dir name) = true.
Proof. unfold path_join. destruct dir; reflexivity. Qed.

Lemma append_inj (a x y : string) : a ++ x = a ++ y -> x = y.
Proof.
  induction a as [|c r IH]; simpl; intros H; [exact H|].
  injection H as H. exact (IH H).
Qed.

Section Files.
Context {World : Type} {RT : Runtime World}.
Variable getClaudeExecutionOutputPath : World -> string.

Lemma jsonOutputPath_truthy (w : World) :
  opt_truthy (Some (jsonOutputPath w)) = Some (jsonOutputPath w).
Proof.
  unfold opt_truthy, jsonOutputPath.
  rewrite path_join_truthy. reflexivity.
Qed.

Lemma txtOutputPath_truthy (w : World) :
  opt_truthy (Some (txtOutputPath w)) = Some (txtOutputPath w).
Proof.
  unfold opt_truthy, txtOutputPath.
  rewrite path_join_truthy. reflexivity.
Qed.

Lemma json_txt_differ (w : World) : jsonOutputPath w <> txtOutputPath w.
Proof.
  unfold jsonOutputPath, txtOutputPath, path_join. intros H.
  apply append_inj in H. discriminate.
Qed.

(** The loop over the candidates stops at the first file that exists
    and can be read. *)
Lemma readFirstExisting_first (w : World) (files : list string) :
  firstReadable w files (fst (readFirstExisting w files))
                        (snd (readFirstExisting w files)).
Proof.
  induction files as [|p rest IH]; simpl.
  - right. repeat split. constructor.
  - destruct (existsSync w p) eqn:Ex; [destruct (readFile w p) as [c|] eqn:Rd|].
    + left. exists [], rest. simpl. repeat split; auto.
    + destruct IH as [(b & a & E & Hb & Hx & Hr) | (Hall & Ec & Ef)].
      * left. exists (p :: b), a. rewrite E at 1. simpl.
        repeat split; auto. constructor; [right; exact Rd | exact Hb].
      * right. repeat split; auto. constructor; [right; exact Rd | exact Hall].
    + destruct IH as [(b & a & E & Hb & Hx & Hr) | (Hall & Ec & Ef)].
      * left. exists (p :: b), a. rewrite E at 1. simpl.
        repeat split; auto. constructor; [left; exact Ex | exact Hb].
      * right. repeat split; auto. constructor; [left; exact Ex | exact Hall].
Qed.

Lemma readFirstExisting_none (w : World) (files : list string) :
  Forall (unreadable w) files ->
  readFirstExisting w files = (EmptyString, EmptyString).
Proof.
  induction 1 as [|p rest [Hp | Hp] _ IH]; simpl; [reflexivity| |].
  - rewrite Hp. exact IH.
  - rewrite Hp. destruct (existsSync w p); exact IH.
Qed.

Lemma readFirstExisting_head (w : World) (p c : string) (rest : list string) :
  existsSync w p = true -> readFile w p = Some c ->
  readFirstExisting w (p :: rest) = (c, p).
Proof. intros Ex Rd. simpl. rewrite Ex, Rd. reflexivity. Qed.

(** C5, as amended.  Given a non-empty override path,
    [getExecutionDetails] goes through the override, the JSON file and
    the JSONL file of the temp directory, in this order, and reads the
    first that exists and can be read; when none does, the answer is
    [null].  Without an override (absent or empty) the answer is
    [null] at once, whatever files exist.  [postClaudeResponse] drops
    an absent override from its list and starts with the two files of
    the temp directory.  Neither reader throws: both are total. *)
Theorem reader_tries_candidates_in_order (w : World) :
  (forall file, JsString.truthy file = true ->
     let found := readFirstExisting w [file; jsonOutputPath w; txtOutputPath w] in
     firstReadable w [file; jsonOutputPath w; txtOutputPath w]
                   (fst found) (snd found) /\
     getExecutionDetails w (Some file)
     = (if is_empty (fst found) then None else detailsOfContent (fst found)) /\
     (Forall (unreadable w) [file; jsonOutputPath w; txtOutputPath w] ->
      getExecutionDetails w (Some file) = None)) /\
  getExecutionDetails w None = None /\
  getExecutionDetails w (Some EmptyString) = None /\
  (forall executeResult,
     opt_truthy (outputFile executeResult) = None ->
     exists rest,
       possibleOutputFiles getClaudeExecutionOutputPath w executeResult
       = jsonOutputPath w :: txtOutputPath w :: rest).
Proof.
  split; [|split; [reflexivity | split; [reflexivity|]]].
  - intros file Hfile found. split; [apply readFirstExisting_first|].
    assert (E : getExecutionDetails w (Some file)
                = if is_empty (fst found) then None
                  else detailsOfContent (fst found)).
    { unfold getExecutionDetails, opt_truthy, possibleFiles.
      rewrite Hfile. fold found. destruct found as [c f]. reflexivity. }
    split; [exact E|].
    intros Hall. rewrite E. subst found.
    rewrite (readFirstExisting_none w _ Hall). reflexivity.
  - intros er Her. unfold possibleOutputFiles.
    cbn [filter_truthy]. rewrite Her, jsonOutputPath_truthy, txtOutputPath_truthy.
    eexists. reflexivity.
Qed.

(** C6.  When the JSON file and the JSONL file of the temp directory
    both exist (and can be read), each place that chooses between them
    takes the JSON file: the output file the execute phase reports,
    the file the update phase falls back to when the execute phase
    reported none, and the file each of the two readers opens, given
    an execute result that names no file or the file the execute phase
    chooses. *)
Theorem json_file_preferred (w : World) (json txt : string) :
  existsSync w (jsonOutputPath w) = true ->
  readFile w (jsonOutputPath w) = Some json ->
  existsSync w (txtOutputPath w) = true ->
  readFile w (txtOutputPath w) = Some txt ->
  jsonOutputPath w <> txtOutputPath w /\
  actualOutputFile w = jsonOutputPath w /\
  (forall executeResult,
     outputFile executeResult = None \/
     outputFile executeResult = Some (actualOutputFile w) ->
     updateOutputFile w executeResult = jsonOutputPath w /\
     readFirstExisting w
       (possibleOutputFiles getClaudeExecutionOutputPath w executeResult)
     = (json, jsonOutputPath w) /\
     readFirstExisting w (possibleFiles w (updateOutputFile w executeResult))
     = (json, jsonOutputPath w)).
Proof.
  intros Ej Rj Et Rt.
  assert (Ha : actualOutputFile w = jsonOutputPath w).
  { unfold actualOutputFile. rewrite Ej. reflexivity. }
  split; [apply json_txt_differ | split; [exact Ha|]].
  intros er Her.
  assert (Hu : updateOutputFile w er = jsonOutputPath w).
  { unfold updateOutputFile.
    destruct Her as [-> | ->].
    - simpl. rewrite Ej. reflexivity.
    - rewrite Ha, jsonOutputPath_truthy. reflexivity. }
  split; [exact Hu | split].
  - unfold possibleOutputFiles. cbn [filter_truthy].
    destruct Her as [-> | ->].
    + simpl opt_truthy at 1. rewrite jsonOutputPath_truthy.
      apply readFirstExisting_head; assumption.
    + rewrite Ha, jsonOutputPath_truthy.
      apply readFirstExisting_head; assumption.
  - rewrite Hu. unfold possibleFiles.
    apply readFirstExisting_head; assumption.
Qed.

End Files.

End FileFacts.

(** ** The phases *)

Module PhaseFacts.

Import JsString Json Host UpdateComment Phase Entry Spec LogFacts.
Local Open Scope js_scope.

Section Phases.
Context {World : Type} {RT : Runtime World}.
Variable getClaudePromptsDirectory : World -> string.
Variable getClaudeExecutionOutputPath : World -> string.

Lemma total_bind {A B} (m : @M World A) (k : A -> @M World B)
    (h : string -> B) (st : St) :
  total (bind m k) h st
  = match m st with
    | (Ok a, st1) => total (k a) h st1
    | (Throw e, st1) => (h e, st1)
    end.
Proof. unfold total, bind. destruct (m st) as [[a | e] st1]; reflexivity. Qed.

Lemma total_bind_world {B} (k : World -> @M World B)
    (h : string -> B) (st : St) :
  total (bind world k) h st = total (k (fst st)) h st.
Proof. reflexivity. Qed.

(** The execute phase reports no output file (when it fails with an
    error) or the file [actualOutputFile] chooses in the world it ends
    in. *)
Lemma runExecutePhase_outputFile (prepareResult : PhaseResult) (st : St) :
  let r := runExecutePhase getClaudePromptsDirectory prepareResult st in
  outputFile (fst r) = None \/
  outputFile (fst r) = Some (actualOutputFile (fst (snd r))).
Proof.
  unfold runExecutePhase.
  repeat first
    [ rewrite total_bind_world
    | rewrite total_bind;
      match goal with
      | |- context [match ?m ?s with _ => _ end] =>
          destruct (m s) as [[? | ?] ?]
      end; [| left; reflexivity] ].
  right. reflexivity.
Qed.

(** C1.  [main] leaves with code 1 after running the update phase when
    the prepare phase succeeded and the execute phase failed; with
    code 0 after running the update phase when both succeeded,
    whatever the update phase returns; and with code 0 straight after
    the prepare phase, the other two phases not run, when that phase
    reports "No trigger found". *)
Theorem main_exit_code (st : St) :
  let p := runPreparePhase st in
  let e := runExecutePhase getClaudePromptsDirectory (fst p) (snd p) in
  let u := runUpdatePhase getClaudeExecutionOutputPath (fst p) (fst e) (snd e) in
  (success (fst p) = true -> success (fst e) = false ->
   main getClaudePromptsDirectory getClaudeExecutionOutputPath st
   = (1, snd u)) /\
  (success (fst p) = true -> success (fst e) = true ->
   main getClaudePromptsDirectory getClaudeExecutionOutputPath st
   = (0, snd u)) /\
  (success (fst p) = false -> error (fst p) = Some "No trigger found" ->
   main getClaudePromptsDirectory getClaudeExecutionOutputPath st
   = (0, snd p)).
Proof.
  unfold main.
  destruct (runPreparePhase st) as [pr st1]. cbn [fst snd].
  destruct (runExecutePhase getClaudePromptsDirectory pr st1) as [er st2].
  cbn [fst snd].
  destruct (runUpdatePhase getClaudeExecutionOutputPath pr er st2)
    as [ur st3].
  cbn [fst snd].
  repeat split; intros Hp He; rewrite Hp; cbn [negb].
  - rewrite He. reflexivity.
  - rewrite He. reflexivity.
  - rewrite He. reflexivity.
Qed.

End Phases.

End PhaseFacts.

(** ** The update phase *)

Module UpdateFacts.

Import JsString Json Host UpdateComment Phase Entry Spec LogFacts.
Local Open Scope js_scope.

Section Update.
Context {World : Type} {RT : Runtime World}.
Variable getClaudePromptsDirectory : World -> string.
Variable getClaudeExecutionOutputPath : World -> string.

Lemma checkGitStatus_emits (P : Cmd -> Prop) :
  (forall c, isUpdateScript c = false -> P c) ->
  emitsT P checkGitStatus.
Proof. intros HP. unfold checkGitStatus. emits_auto; apply HP; reflexivity. Qed.

Lemma postClaudeResponse_emits (P : Cmd -> Prop) pr er :
  (forall c, isUpdateScript c = false -> P c) ->
  emitsT P (postClaudeResponse getClaudeExecutionOutputPath pr er).
Proof. intros HP. unfold postClaudeResponse. emits_auto; apply HP; reflexivity. Qed.

Lemma stageAndUnstage_emits (P : Cmd -> Prop) :
  (forall c, commits c = false -> isUpdateScript c = false -> P c) ->
  emits P stageAndUnstage.
Proof. intros HP. unfold stageAndUnstage. emits_auto; apply HP; reflexivity. Qed.

Lemma createMergeRequest_emits (P : Cmd -> Prop) pr er :
  (forall c, isUpdateScript c = false -> P c) ->
  emits P (createMergeRequest pr er).
Proof.
  intros HP. unfold createMergeRequest, stageCommitPush, stageAndUnstage.
  emits_auto; apply HP; reflexivity.
Qed.

(** The update phase begins with the classification and goes on in
    the state that leaves. *)
Lemma runUpdatePhase_unfold (pr er : PhaseResult) (st : St) :
  runUpdatePhase getClaudeExecutionOutputPath pr er st
  = total
      ((if fst (checkGitStatus st)
        then createMergeRequest pr er
        else lift (postClaudeResponse getClaudeExecutionOutputPath pr er)) ;;
       updateTrackingComment pr er)
      updateFailed (snd (checkGitStatus st)).
Proof.
  unfold runUpdatePhase, total, bind at 1, lift at 1.
  destruct (checkGitStatus st) as [hc st1]. reflexivity.
Qed.

(** Once [git add -A] and the unstaging of the temp files are done,
    [createMergeRequest] reads [git status --short]; when that text is
    empty, or no line of it passes the filter, the function returns
    there without an error: no commit, no change of the remote address
    and no push are issued, neither before nor after. *)
Lemma returns_when_the_filter_leaves_nothing
    (prepareResult : PhaseResult) (branch : string) (st st1 : St)
    (code : Z) (out err : string) (w2 : World) :
  stageAndUnstage st = (Ok tt, st1) ->
  sh GitStatusShort (fst st1) = (Completed code out err, w2) ->
  nothingRemains (trim out) ->
  stageCommitPush prepareResult branch st
  = (Ok tt, (w2, (snd st1 ++ [GitStatusShort])%list)) /\
  exists added,
    (snd st1 ++ [GitStatusShort])%list = (snd st ++ added)%list /\
    Forall (fun c => commits c = false) added.
Proof.
  intros Hstage Hstatus Hnothing. split.
  - unfold stageCommitPush, bind at 1. rewrite Hstage.
    unfold bind at 1, run. destruct st1 as [w1 log1]. cbn [fst snd] in *.
    rewrite Hstatus. cbn [stdout].
    destruct Hnothing as [E | E]; rewrite E; [reflexivity|].
    destruct (negb (JsString.truthy (trim out))); reflexivity.
  - destruct (stageAndUnstage_emits (fun c => commits c = false)
                (fun c H _ => H) st) as (added & E & F).
    rewrite Hstage in E. cbn [snd] in E.
    exists (added ++ [GitStatusShort])%list. rewrite E, app_assoc.
    split; [reflexivity|].
    apply Forall_app. split; [exact F | repeat constructor].
Qed.

(** C8, on the code.  When [output.txt] is the one entry of
    [git status --short] after [git add -A] and the unstaging, whatever
    its two status letters [x] and [y] are, be it untracked again
    ([?? output.txt]: nothing is staged) or still in the index
    ([A  output.txt], [D  output.txt]: the unstaging has failed), the
    filter keeps the line, since none of its tests names [output.txt],
    and [createMergeRequest] goes on: [git commit] is the next command
    it issues.  When git refuses the commit the function throws; when
    git accepts it, the change of the remote address follows. *)
Theorem output_txt_reaches_the_commit
    (prepareResult : PhaseResult) (branch : string) (st st1 : St)
    (code : Z) (out err : string) (w2 : World) (x y : ascii) :
  stageAndUnstage st = (Ok tt, st1) ->
  sh GitStatusShort (fst st1) = (Completed code out err, w2) ->
  trim out = String x (String y " output.txt") ->
  Ascii.eqb x lf = false ->
  Ascii.eqb y lf = false ->
  (x = "?"%char -> nothingStaged (trim out) = true) /\
  projectLines false (trim out) = [trim out] /\
  exists r st' more,
    stageCommitPush prepareResult branch st = (r, st') /\
    snd st'
    = (snd st1 ++ GitStatusShort :: GitCommit (commitMessage w2) :: more)%list /\
    match sh (GitCommit (commitMessage w2)) w2 with
    | (Rejected reason, _) => r = Throw reason /\ more = []
    | (Completed _ _ _, w3) =>
        exists more', more = GitRemoteSetUrl (gitRemoteUrl w3) :: more'
    end.
Proof.
  intros Hstage Hstatus Hout Hx Hy.
  assert (Hsplit : split_lines (trim out) = [trim out]).
  { rewrite Hout. cbn [split_lines]. rewrite Hx, Hy. reflexivity. }
  assert (Hlines : projectLines false (trim out) = [trim out]).
  { unfold projectLines. rewrite Hsplit, Hout. reflexivity. }
  split.
  { intros ->. unfold nothingStaged. rewrite Hsplit, Hout. reflexivity. }
  split; [exact Hlines|].
  assert (Ht : JsString.truthy (trim out) = true)
    by (rewrite Hout; reflexivity).
  assert (Hl : Nat.eqb (List.length (projectLines false (trim out))) 0 = false)
    by (rewrite Hlines; reflexivity).
  destruct st1 as [w1 log1]. cbn [fst snd] in *.
  unfold stageCommitPush. unfold bind at 1. rewrite Hstage.
  unfold bind at 1. unfold run at 1. rewrite Hstatus. cbn [stdout].
  rewrite Ht, Hl. cbn [negb].
  unfold bind, world, run, ret. cbn [fst].
  destruct (sh (GitCommit (commitMessage w2)) w2) as [[c3 o3 e3 | reason] w3].
  2:{ do 3 eexists. split; [reflexivity|].
      split; [cbn [snd]; rewrite <- !app_assoc; reflexivity|].
      split; reflexivity. }
  cbn [fst].
  destruct (sh (GitRemoteSetUrl (gitRemoteUrl w3)) w3)
    as [[c4 o4 e4 | reason] w4].
  2:{ do 3 eexists. split; [reflexivity|].
      split; [cbn [snd]; rewrite <- !app_assoc; reflexivity|].
      eexists; reflexivity. }
  cbn [fst].
  destruct (sh (GitPush (targetBranch w3) (mrTitle w3) (mrDescription w3)
                  branch) w4) as [[c5 o5 e5 | reason] w5].
  2:{ do 3 eexists. split; [reflexivity|].
      split; [cbn [snd]; rewrite <- !app_assoc; reflexivity|].
      eexists; reflexivity. }
  cbn [stdout]. destruct (matchMrUrl o5) as [url|].
  2:{ do 3 eexists. split; [reflexivity|].
      split; [cbn [snd]; rewrite <- !app_assoc; reflexivity|].
      eexists; reflexivity. }
  destruct (hasCommentId prepareResult).
  2:{ do 3 eexists. split; [reflexivity|].
      split; [cbn [snd]; rewrite <- !app_assoc; reflexivity|].
      eexists; reflexivity. }
  cbn [fst].
  destruct (sh (CreateComment (mrComment url)) w5) as [[c6 o6 e6 | reason] w6];
    do 3 eexists; (split; [reflexivity|]);
    (split; [cbn [snd]; rewrite <- !app_assoc; reflexivity|]);
    eexists; reflexivity.
Qed.

(** C4, as amended.  [checkGitStatus] and [createMergeRequest] both
    ask git for the address of [origin] before any other git command
    and compare it with [CI_PROJECT_PATH].  When the address does not
    contain the project path, [createMergeRequest] throws and
    [checkGitStatus] answers "no changes"; neither issues a further
    command.  After that answer of [checkGitStatus] the update phase
    goes on as it does without changes: response poster, then tracking
    comment.  When it is [createMergeRequest] that meets the mismatch,
    after a classification that has found changes, the update phase
    returns the failure with that error and issues no further command.
    The execute phase, which fetches and checks out the working branch,
    never asks for the address of [origin]. *)
Theorem repository_checked_before_git_work
    (prepareResult executeResult : PhaseResult) (w : World) (log : list Cmd)
    (dir : string) (c1 : Z) (o1 e1 : string) (w1 : World)
    (c2 : Z) (url e2 : string) (w2 : World) :
  env_truthy w "CI_PROJECT_DIR" = Some dir ->
  sh (Chdir dir) w = (Completed c1 o1 e1, w1) ->
  sh GitRemoteGetUrl w1 = (Completed c2 url e2, w2) ->
  wrongRepository w2 (trim url) = true ->
  let st' := (w2, (log ++ [Chdir dir; GitRemoteGetUrl])%list) in
  let message := "Wrong repository! Expected " ++ env_text w2 "CI_PROJECT_PATH"
                   ++ ", but working in " ++ trim url in
  checkGitStatus (w, log) = (false, st') /\
  createMergeRequest prepareResult executeResult (w, log)
  = (Throw message, st') /\
  runUpdatePhase getClaudeExecutionOutputPath prepareResult executeResult (w, log)
  = total (lift (postClaudeResponse getClaudeExecutionOutputPath
                   prepareResult executeResult) ;;
           updateTrackingComment prepareResult executeResult)
          updateFailed st' /\
  (forall st0 : St,
      checkGitStatus st0 = (true, (w, log)) ->
      runUpdatePhase getClaudeExecutionOutputPath prepareResult executeResult st0
      = (updateFailed message, st')) /\
  emitsT (fun c => c <> GitRemoteGetUrl)
         (runExecutePhase getClaudePromptsDirectory prepareResult).
Proof.
  intros Hdir Hcd Hurl Hwrong st' message.
  assert (Hcheck : checkGitStatus (w, log) = (false, st')).
  { unfold checkGitStatus, total, bind, world, run. cbn [fst].
    rewrite Hdir, Hcd, Hurl. cbn [fst stdout]. rewrite Hwrong.
    unfold ret, st'. rewrite <- app_assoc. reflexivity. }
  assert (Hsubmit : createMergeRequest prepareResult executeResult (w, log)
                    = (Throw message, st')).
  { unfold createMergeRequest, bind, world, run. cbn [fst].
    rewrite Hdir, Hcd, Hurl. cbn [fst stdout]. rewrite Hwrong.
    unfold throw, st'. rewrite <- app_assoc. reflexivity. }
  split; [exact Hcheck|]. split; [exact Hsubmit|]. split; [|split].
  - rewrite runUpdatePhase_unfold, Hcheck. reflexivity.
  - intros st0 H0. rewrite runUpdatePhase_unfold, H0. cbn [fst snd].
    unfold total, bind at 1. rewrite Hsubmit. reflexivity.
  - unfold runExecutePhase, setupWorkingBranch. emits_auto; discriminate.
Qed.

Lemma updateTrackingComment_skips (pr er : PhaseResult) (st : St) :
  hasCommentId pr = false ->
  updateTrackingComment pr er st = (Ok (PhaseResultOf true None None None), st).
Proof. intros H. unfold updateTrackingComment. rewrite H. reflexivity. Qed.

(** C10, as amended.  When the prepare result carries no usable comment
    id (none, [0] or [NaN], as for a comment-id file that holds
    nothing, ["0"] or no digits), the update phase never runs the
    update script.  Its result is a success whenever the step before
    did not throw, which is always so without changes in the working
    tree; when [createMergeRequest] throws, the result is the failure
    with that error. *)
Theorem update_skips_script_without_comment_id
    (prepareResult executeResult : PhaseResult) (st : St) :
  hasCommentId prepareResult = false ->
  let r := runUpdatePhase getClaudeExecutionOutputPath
             prepareResult executeResult st in
  let c := checkGitStatus st in
  (exists added,
      snd (snd r) = (snd st ++ added)%list /\
      Forall (fun c => isUpdateScript c = false) added) /\
  (fst c = false -> fst r = PhaseResultOf true None None None) /\
  (fst c = true ->
   match createMergeRequest prepareResult executeResult (snd c) with
   | (Ok _, _) => fst r = PhaseResultOf true None None None
   | (Throw e, _) => fst r = updateFailed e
   end) /\
  hasCommentId (PhaseResultOf true None (Some (parseInt "0")) None) = false /\
  hasCommentId (PhaseResultOf true None (Some (parseInt "abc")) None) = false /\
  hasCommentId (PhaseResultOf true None None None) = false.
Proof.
  intros Hid r c. split; [|split; [|split; [|repeat split]]].
  - subst r. unfold runUpdatePhase.
    apply (emits_total (fun c => isUpdateScript c = false)).
    apply emits_bind.
    + apply emits_lift, checkGitStatus_emits. auto.
    + intros hasChanges. apply emits_bind.
      * destruct hasChanges.
        -- apply createMergeRequest_emits. auto.
        -- apply emits_lift, postClaudeResponse_emits. auto.
      * intros _ st0. exists []. rewrite app_nil_r.
        rewrite (updateTrackingComment_skips _ _ _ Hid).
        split; [reflexivity | constructor].
  - subst r c. rewrite runUpdatePhase_unfold.
    destruct (checkGitStatus st) as [hc st1]. cbn [fst snd]. intros ->.
    unfold total, bind, lift.
    destruct (postClaudeResponse getClaudeExecutionOutputPath
                prepareResult executeResult st1) as [[] st2].
    rewrite (updateTrackingComment_skips _ _ _ Hid). reflexivity.
  - subst r c. rewrite runUpdatePhase_unfold.
    destruct (checkGitStatus st) as [hc st1]. cbn [fst snd]. intros ->.
    unfold total, bind.
    destruct (createMergeRequest prepareResult executeResult st1)
      as [[[] | e] st2].
    + rewrite (updateTrackingComment_skips _ _ _ Hid). reflexivity.
    + reflexivity.
Qed.

End Update.

End UpdateFacts.

(** ** The branch set-up *)

Module BranchFacts.

Import JsString Json Host Phase Entry Spec PhaseFacts.
Local Open Scope js_scope.

Section Branch.
Context {World : Type} {RT : Runtime World}.
Variable getClaudePromptsDirectory : World -> string.

(** When the set-up returns, its last command was the question for the
    current branch, and git's answer was the branch asked for. *)
Lemma setupWorkingBranch_postcondition
    (claudeBranch projectDir : string) (st st' : St) :
  setupWorkingBranch claudeBranch projectDir st = (Ok tt, st') ->
  exists w1 log1 code out err,
    sh GitRevParseHead w1 = (Completed code out err, fst st') /\
    snd st' = (log1 ++ [GitRevParseHead])%list /\
    trim out = claudeBranch.
Proof.
  unfold setupWorkingBranch. unfold bind at 1.
  destruct (run (Chdir projectDir) st) as [[? | ?] st1]; [|discriminate].
  unfold bind at 1.
  match goal with
  | |- context [try_catch ?m ?h st1] =>
      destruct (try_catch m h st1) as [[[] | ?] [w2 log2]]
  end; [|discriminate].
  unfold bind at 1, run.
  destruct (sh GitRevParseHead w2) as [[code out err | e] w3] eqn:Hrev;
    [|discriminate].
  cbn [stdout].
  destruct (trim out =? claudeBranch)%string eqn:Heq; cbn [negb];
    [|discriminate].
  intros H. injection H as <-.
  exists w2, log2, code, out, err. cbn [fst snd].
  repeat split; [exact Hrev | apply String.eqb_eq, Heq].
Qed.

(** When git rejects the fetch and then the creation of the branch, the
    set-up throws; nothing else is tried. *)
Lemma setupWorkingBranch_rejected
    (claudeBranch projectDir : string) (w : World) (log : list Cmd)
    (c : Z) (o e : string) (w1 : World) (m1 : string) (w2 : World)
    (m2 : string) (w3 : World) :
  sh (Chdir projectDir) w = (Completed c o e, w1) ->
  sh (GitFetch claudeBranch) w1 = (Rejected m1, w2) ->
  sh (GitCheckoutNew claudeBranch) w2 = (Rejected m2, w3) ->
  setupWorkingBranch claudeBranch projectDir (w, log)
  = (Throw ("Failed to setup working branch: " ++ error_string m2),
     (w3, (log ++ [Chdir projectDir; GitFetch claudeBranch;
                   GitCheckoutNew claudeBranch])%list)).
Proof.
  intros Hcd Hfetch Hnew.
  unfold setupWorkingBranch, bind, try_catch, run, throw, ret.
  rewrite Hcd, Hfetch, Hnew. rewrite <- !app_assoc. reflexivity.
Qed.

(** An error of the set-up, a branch other than the one asked for
    among them, is the failure of the execute phase. *)
Lemma setupWorkingBranch_failure
    (prepareResult : PhaseResult) (claudeBranch projectDir e : string)
    (st st' : St) :
  env_truthy (fst st) "CLAUDE_BRANCH" = Some claudeBranch ->
  env_truthy (fst st) "CI_PROJECT_DIR" = Some projectDir ->
  setupWorkingBranch claudeBranch projectDir st = (Throw e, st') ->
  runExecutePhase getClaudePromptsDirectory prepareResult st
  = (PhaseResultOf false (Some e) (commentId prepareResult) None, st').
Proof.
  intros Hb Hd Hsetup. unfold runExecutePhase.
  rewrite total_bind_world, Hb, Hd, total_bind, Hsetup. reflexivity.
Qed.

End Branch.

(** C3, on the simulated repository.  With the target branch checked out
    already, git refuses the fetch into it (or finds no such branch on
    the remote) and refuses to create it a second time, so the set-up
    throws and the execute phase fails: running the set-up again is not
    a no-op. *)
Theorem setup_fails_on_checked_out_branch
    (w : Sim.World) (log : list Cmd) (branch dir : string)
    (prepareResult : PhaseResult) :
  Sim.head w = branch ->
  Sim.mem branch (Sim.locals w) = true ->
  let message :=
    "Failed to setup working branch: Error: fatal: a branch named '"
      ++ branch ++ "' already exists" in
  (exists st', setupWorkingBranch branch dir (w, log) = (Throw message, st')) /\
  (env_truthy w "CLAUDE_BRANCH" = Some branch ->
   env_truthy w "CI_PROJECT_DIR" = Some dir ->
   fst (runExecutePhase Sim.promptsDirectory prepareResult (w, log))
   = PhaseResultOf false (Some message) (commentId prepareResult) None).
Proof.
  intros Hhead Hlocal message.
  assert (Hsetup : exists st',
             setupWorkingBranch branch dir (w, log) = (Throw message, st')).
  { assert (Hfetch : exists m1, sh (GitFetch branch) w = (Rejected m1, w)).
    { cbn [sh Sim.runtime Sim.sim_sh]. rewrite Hhead, String.eqb_refl.
      destruct (negb (Sim.mem branch (Sim.remotes w))); eexists; reflexivity. }
    destruct Hfetch as (m1 & Hfetch).
    eexists. unfold message.
    apply (setupWorkingBranch_rejected branch dir w log
             0 EmptyString EmptyString w m1 w _ w);
      [reflexivity | exact Hfetch |].
    cbn [sh Sim.runtime Sim.sim_sh]. rewrite Hlocal. reflexivity. }
  split; [exact Hsetup|].
  intros Hb Hd. destruct Hsetup as (st' & Hsetup).
  rewrite (setupWorkingBranch_failure Sim.promptsDirectory prepareResult
             branch dir message (w, log) st' Hb Hd Hsetup).
  reflexivity.
Qed.

(** The set-up run twice in a row: the first run checks the branch out,
    the second fails on it. *)
Lemma setup_fails_on_checked_out_branch_witness :
  let first := setupWorkingBranch Sim.workBranch Sim.projectDir
                 (Sim.start Sim.branchOnRemote) in
  fst first = Ok tt /\
  Sim.head (fst (snd first)) = Sim.workBranch /\
  exists st',
    setupWorkingBranch Sim.workBranch Sim.projectDir (snd first)
    = (Throw "Failed to setup working branch: Error: fatal: a branch named 'claude/issue-7' already exists",
       st').
Proof.
  intros first. split; [reflexivity | split; [reflexivity|]].
  exact (proj1 (setup_fails_on_checked_out_branch
                  (fst (snd first)) (snd (snd first))
                  Sim.workBranch Sim.projectDir Sim.prepared
                  eq_refl eq_refl)).
Defined.

End BranchFacts.

(** ** The scenarios, run *)

Module Scenarios.

Import JsString Json Host UpdateComment Phase Entry Spec Sim.
Local Open Scope js_scope.

(** C7.  For the transcript whose first line is the result record
    (result "Done.", cost 0.02, duration 1500) and whose second line is
    an assistant record with the text "ignored", the message extracted
    is "Done.", the details read are those of the result record, and the
    footer of the tracking comment shows 1.50s and $0.0200, whatever the
    comment was before. *)
Theorem transcript_result_wins :
  (forall numberToString,
      extractMessage numberToString transcript = JStr "Done.") /\
  exists details numbers,
    detailsOfContent transcript = Some details /\
    getExecutionDetails onlyTranscript (Some txtPath) = Some details /\
    typed details = Some numbers /\
    footer numbers
    = Some (String lf (String lf ("---" ++ String lf
              "*Execution time: 1.50s | Estimated cost: $0.0200*"))) /\
    forall initialBody ok jobUrl errorDetails,
    exists body,
      formatGitLabCommentBody initialBody ok jobUrl errorDetails (Some numbers)
      = Some (body ++ String lf (String lf ("---" ++ String lf
                "*Execution time: 1.50s | Estimated cost: $0.0200*"))).
Proof.
  split; [intros nts; vm_compute; reflexivity|].
  eexists. eexists.
  split; [vm_compute; reflexivity|].
  split; [vm_compute; reflexivity|].
  split; [vm_compute; reflexivity|].
  assert (F : footer
                (NumDetailsOf (Some (JsNumber.Fin 5764607523034235 (-58)))
                              (Some (JsNumber.Fin 6597069766656000 (-42))))
              = Some transcriptFooter) by (vm_compute; reflexivity).
  split; [exact F|].
  intros initialBody ok jobUrl errorDetails.
  unfold formatGitLabCommentBody. rewrite F.
  eexists. reflexivity.
Qed.

(** C2, on the code.  The status text with the two untracked entries
    [output.txt] and [/tmp/claude-output/x.json] is classified as a
    change: the filter drops the second line and keeps [output.txt],
    which none of its tests names.  The update phase therefore calls
    [createMergeRequest], not [postClaudeResponse]. *)
Theorem output_txt_counts_as_change :
  projectLines true twoTempFiles = ["?? output.txt"] /\
  classifyStatus twoTempFiles = true /\
  let st := start (withStatus twoTempFiles job) in
  fst (checkGitStatus st) = true /\
  runUpdatePhase executionOutputPath prepared executed st
  = total (createMergeRequest prepared executed ;;
           updateTrackingComment prepared executed)
          updateFailed (snd (checkGitStatus st)) /\
  In GitAddAll
     (snd (snd (runUpdatePhase executionOutputPath prepared executed st))).
Proof.
  split; [vm_compute; reflexivity|].
  split; [vm_compute; reflexivity|].
  intros st.
  split; [vm_compute; reflexivity|].
  split.
  - rewrite UpdateFacts.runUpdatePhase_unfold.
    replace (fst (checkGitStatus st)) with true by (vm_compute; reflexivity).
    reflexivity.
  - vm_compute. do 25 right. left. reflexivity.
Qed.

(** *** Instances of the general statements *)

(** C1 at three jobs: the assistant fails, the update script fails, no
    trigger is found. *)
Lemma main_exit_code_witness :
  fst (main promptsDirectory executionOutputPath (start executeFails)) = 1 /\
  existsb isUpdateScript
    (snd (snd (main promptsDirectory executionOutputPath (start executeFails))))
  = true /\
  fst (main promptsDirectory executionOutputPath (start updateFails)) = 0 /\
  main promptsDirectory executionOutputPath (start noTrigger)
  = (0, (noTrigger, [BunRunPrepare])).
Proof.
  destruct (PhaseFacts.main_exit_code promptsDirectory executionOutputPath
              (start executeFails)) as (H1 & _ & _).
  destruct (PhaseFacts.main_exit_code promptsDirectory executionOutputPath
              (start updateFails)) as (_ & H2 & _).
  destruct (PhaseFacts.main_exit_code promptsDirectory executionOutputPath
              (start noTrigger)) as (_ & _ & H3).
  rewrite (H1 eq_refl eq_refl), (H2 eq_refl eq_refl), (H3 eq_refl eq_refl).
  repeat split.
Defined.

(** C9, as amended, at a transcript that begins with a byte order mark,
    has a malformed line between its two records and ends with a line
    feed. *)
Lemma jsonl_keeps_wellformed_records_witness :
  parseJsonl (Cases.bom
                ++ join_lines [assistantLine; "Traceback: not JSON"; resultLine]
                ++ String lf EmptyString)
  = records [assistantLine; resultLine] /\
  extractMessage printNumber
    (Cases.bom
       ++ join_lines [assistantLine; "Traceback: not JSON"; resultLine]
       ++ String lf EmptyString)
  = scanLines printNumber [assistantLine; resultLine] (JStr EmptyString).
Proof.
  destruct (ReaderFacts.jsonl_keeps_wellformed_records
              [assistantLine; "Traceback: not JSON"; resultLine]
              Cases.bom (String lf EmptyString))
    as (_ & H & _ & S).
  - repeat constructor.
  - reflexivity.
  - reflexivity.
  - reflexivity.
  - split.
    + exact (H [assistantLine] "Traceback: not JSON" [resultLine]
                eq_refl eq_refl).
    + destruct (S printNumber) as (E & _ & K & _). rewrite E.
      apply (K [assistantLine] "Traceback: not JSON" [resultLine]);
        [reflexivity | reflexivity | vm_compute; lia].
Defined.

(** C9 as stated fails for the loop of [postClaudeResponse].  The line
    of 69 characters that is not JSON is not skipped: ahead of a record
    that holds no message it is the message read from the transcript,
    and the comment posted, where the record alone gives no message and
    no comment.  In [getExecutionDetails] the same line is skipped. *)
Lemma long_malformed_line_becomes_the_message :
  parse Cases.plainText = None /\
  parseJsonl Cases.plainTranscript = parseJsonl Cases.systemLine /\
  extractMessage printNumber Cases.plainTranscript = JStr Cases.plainText /\
  extractMessage printNumber Cases.systemLine = JStr EmptyString /\
  snd (snd (postClaudeResponse executionOutputPath prepared executed
              (start Cases.onlyPlainText)))
  = [CreateComment (responseBody Cases.plainText)] /\
  snd (snd (postClaudeResponse executionOutputPath prepared executed
              (start (withFiles [(txtPath, Some Cases.systemLine)] job))))
  = [].
Proof. repeat split. Qed.

(** C6 at the job that has both files. *)
Lemma json_file_preferred_witness :
  actualOutputFile job = jsonPath /\
  updateOutputFile job preparedWithoutId = jsonPath /\
  snd (readFirstExisting job
         (possibleOutputFiles executionOutputPath job preparedWithoutId))
  = jsonPath.
Proof.
  destruct (FileFacts.json_file_preferred executionOutputPath job
              ("[" ++ resultLine ++ "]") transcript)
    as (_ & Ha & Hrest); try reflexivity.
  destruct (Hrest preparedWithoutId) as (Hu & Hr & _); [left; reflexivity|].
  rewrite Ha, Hu, Hr. repeat split.
Defined.

(** C5, as amended, at an override that does not exist: the JSON file of
    the temp directory is read instead. *)
Lemma reader_tries_candidates_in_order_witness :
  getExecutionDetails job (Some "/missing/override.json")
  = detailsOfContent ("[" ++ resultLine ++ "]").
Proof.
  destruct (FileFacts.reader_tries_candidates_in_order executionOutputPath job)
    as (H & _).
  destruct (H "/missing/override.json") as (_ & E & _); [reflexivity|].
  rewrite E. reflexivity.
Defined.

(** C5 as stated fails: without an override the reader answers [null]
    although the JSON file of the temp directory exists, can be read and
    holds the details. *)
Lemma reader_skips_temp_files_without_override :
  getExecutionDetails job None = None /\
  readFirstExisting job [jsonOutputPath job; txtOutputPath job]
  = ("[" ++ resultLine ++ "]", jsonPath) /\
  detailsOfContent ("[" ++ resultLine ++ "]")
  = Some (Details (JNum (JsNumber.Fin 5764607523034235 (-58)))
                  (JNum (JsNumber.Fin 6597069766656000 (-42)))).
Proof. repeat split. Qed.

(** At a working tree whose only change is a log file the submitter
    returns before the commit. *)
Lemma returns_when_the_filter_leaves_nothing_at_a_log_file :
  stageCommitPush prepared "claude-issue-7" (start onlyLogFile)
  = (Ok tt,
     (onlyLogFile,
      [GitAddAll; GitResetHead noisePaths; GitCheckoutPaths noisePaths;
       GitStatusShort])).
Proof.
  destruct (UpdateFacts.returns_when_the_filter_leaves_nothing
              prepared "claude-issue-7" (start onlyLogFile)
              (onlyLogFile,
               [GitAddAll; GitResetHead noisePaths;
                GitCheckoutPaths noisePaths])
              0 ("?? debug.log" ++ String lf EmptyString) EmptyString
              onlyLogFile) as (H & _).
  - reflexivity.
  - reflexivity.
  - right. reflexivity.
  - exact H.
Defined.

(** C8, on the code, at a working tree whose one entry is [output.txt],
    untracked after the unstaging: nothing is staged, and the submitter
    issues the commit, the change of the remote address and the push. *)
Lemma output_txt_reaches_the_commit_witness :
  nothingStaged "?? output.txt" = true /\
  (exists r st' more,
      stageCommitPush prepared "claude-issue-7" (start Cases.onlyOutputTxt)
      = (r, st') /\
      snd st'
      = ([GitAddAll; GitResetHead noisePaths; GitCheckoutPaths noisePaths]
           ++ GitStatusShort
           :: GitCommit (commitMessage Cases.onlyOutputTxt) :: more)%list) /\
  filter commits
    (snd (snd (createMergeRequest prepared executed
                 (start Cases.onlyOutputTxt))))
  = [ GitCommit (commitMessage Cases.onlyOutputTxt);
      GitRemoteSetUrl (gitRemoteUrl Cases.onlyOutputTxt);
      GitPush (targetBranch Cases.onlyOutputTxt) (mrTitle Cases.onlyOutputTxt)
        (mrDescription Cases.onlyOutputTxt) "claude-issue-7-1700000000000" ].
Proof.
  split; [reflexivity|]. split; [|vm_compute; reflexivity].
  destruct (UpdateFacts.output_txt_reaches_the_commit
              prepared "claude-issue-7" (start Cases.onlyOutputTxt)
              (Cases.onlyOutputTxt,
               [GitAddAll; GitResetHead noisePaths;
                GitCheckoutPaths noisePaths])
              0 ("?? output.txt" ++ String lf EmptyString) EmptyString
              Cases.onlyOutputTxt "?"%char "?"%char)
    as (_ & _ & r & st' & more & H1 & H2 & _).
  - reflexivity.
  - reflexivity.
  - reflexivity.
  - reflexivity.
  - reflexivity.
  - exists r, st', more. split; [exact H1 | exact H2].
Defined.

(** C4, as amended, at a working tree of another project, and at a host
    on which the address of [origin] changes between the classification
    and the submission. *)
Lemma repository_checked_before_git_work_witness :
  checkGitStatus (start wrongRepo)
  = (false, (wrongRepo, [Chdir projectDir; GitRemoteGetUrl])) /\
  createMergeRequest prepared executed (start wrongRepo)
  = (Throw "Wrong repository! Expected group/project, but working in https://gitlab.com/other/repo.git",
     (wrongRepo, [Chdir projectDir; GitRemoteGetUrl])) /\
  @runUpdatePhase nat Cases.movedRuntime (fun _ => "/tmp/out.json")
    prepared executed (O, [])
  = (updateFailed "Wrong repository! Expected group/project, but working in https://gitlab.com/other/repo.git",
     (2%nat, (Cases.classified ++ [Chdir projectDir; GitRemoteGetUrl])%list)).
Proof.
  destruct (UpdateFacts.repository_checked_before_git_work
              promptsDirectory executionOutputPath prepared executed
              wrongRepo [] projectDir
              0 EmptyString EmptyString wrongRepo
              0 ("https://gitlab.com/other/repo.git" ++ String lf EmptyString)
              EmptyString wrongRepo)
    as (H1 & H2 & _); try reflexivity.
  split; [exact H1|]. split; [exact H2|].
  destruct (@UpdateFacts.repository_checked_before_git_work
              nat Cases.movedRuntime (fun _ => "/tmp/prompts")
              (fun _ => "/tmp/out.json") prepared executed
              1%nat Cases.classified projectDir
              0 EmptyString EmptyString 1%nat
              0 ("https://gitlab.com/other/repo.git" ++ String lf EmptyString)
              EmptyString 2%nat)
    as (_ & _ & _ & H4 & _);
    [reflexivity | reflexivity | reflexivity | reflexivity |].
  apply (H4 (O, [])). vm_compute. reflexivity.
Defined.

(** C4 as stated fails.  On the working tree of another project the
    classification answers "no changes" and the update phase runs to its
    end, update script included, and reports success.  On the same
    working tree the execute phase fetches, creates and checks out the
    working branch and runs the assistant, and succeeds, without having
    asked for the address of [origin]. *)
Lemma wrong_repository_reads_as_no_changes :
  fst (checkGitStatus (start wrongRepo)) = false /\
  fst (runUpdatePhase executionOutputPath prepared executed (start wrongRepo))
  = PhaseResultOf true None None None /\
  existsb isUpdateScript
    (snd (snd (runUpdatePhase executionOutputPath prepared executed
                 (start wrongRepo))))
  = true /\
  success (fst (runExecutePhase promptsDirectory prepared (start wrongRepo)))
  = true /\
  map (fun c => match c with BunRunBaseAction _ => BunRunBaseAction [] | _ => c end)
    (snd (snd (runExecutePhase promptsDirectory prepared (start wrongRepo))))
  = [ Chdir projectDir; GitFetch workBranch; GitCheckoutNew workBranch;
      GitRevParseHead; BunInstallClaude; BunInstallDeps; BunRunBaseAction [] ].
Proof. repeat split. Qed.

(** C10, as amended, at a job without a tracking comment and without
    changes. *)
Lemma update_skips_script_without_comment_id_witness :
  fst (runUpdatePhase executionOutputPath preparedWithoutId executed (start job))
  = PhaseResultOf true None None None /\
  existsb isUpdateScript
    (snd (snd (runUpdatePhase executionOutputPath preparedWithoutId executed
                 (start job))))
  = false.
Proof.
  destruct (UpdateFacts.update_skips_script_without_comment_id
              executionOutputPath preparedWithoutId executed (start job))
    as (_ & H & _); [reflexivity|].
  split; [apply H; reflexivity | reflexivity].
Defined.

(** C10 as stated fails: without a tracking comment, with a changed
    source file and a push that is refused, the update phase returns a
    failure. *)
Lemma update_fails_without_comment_id_when_push_fails :
  hasCommentId preparedWithoutId = false /\
  runUpdatePhase executionOutputPath preparedWithoutId executed
    (start pushDenied)
  = (updateFailed "remote: You are not allowed to push code to this project.",
     snd (runUpdatePhase executionOutputPath preparedWithoutId executed
            (start pushDenied))) /\
  success (fst (runUpdatePhase executionOutputPath preparedWithoutId executed
                  (start pushDenied))) = false.
Proof. repeat split. Qed.

End Scenarios.

(** ** Texts: searching, replacing, numbers in decimal *)

Module TextFacts.

Import JsString Json Host UpdateComment Phase Shape.

Lemma length_append (a b : string) :
  String.length (a ++ b) = (String.length a + String.length b)%nat.
Proof. induction a as [|c a IH]; simpl; [reflexivity | rewrite IH; reflexivity]. Qed.

Lemma append_assoc (a b c : string) : (a ++ b) ++ c = a ++ (b ++ c).
Proof. induction a as [|x a IH]; simpl; [reflexivity | rewrite IH; reflexivity]. Qed.

Lemma append_nil_r (a : string) : a ++ EmptyString = a.
Proof. induction a as [|x a IH]; simpl; [reflexivity | rewrite IH; reflexivity]. Qed.

Lemma prefix_nil (s : string) : prefix EmptyString s = true.
Proof. destruct s; reflexivity. Qed.

Lemma prefix_cons (a c : ascii) (u s : string) :
  prefix (String a u) (String c s)
  = if ascii_dec a c then prefix u s else false.
Proof. reflexivity. Qed.

Lemma prefix_app (u a b : string) :
  prefix u a = true -> prefix u (a ++ b) = true.
Proof.
  revert a. induction u as [|c u IH]; intros a H; [apply prefix_nil|].
  destruct a as [|c' a']; simpl in *; [discriminate|].
  destruct (ascii_dec c c'); [apply IH, H | discriminate].
Qed.

Lemma prefix_self_app (u x : string) : prefix u (u ++ x) = true.
Proof.
  induction u as [|c u IH]; simpl; [apply prefix_nil|].
  destruct (ascii_dec c c); [exact IH | congruence].
Qed.

Lemma prefix_split (p s : string) :
  prefix p s = true -> s = p ++ substring_from (String.length p) s.
Proof.
  revert s. induction p as [|c p IH]; intros s H; [reflexivity|].
  destruct s as [|c' s']; simpl in H; [discriminate|].
  destruct (ascii_dec c c') as [->|]; [|discriminate].
  simpl. f_equal. apply IH, H.
Qed.


Lemma includes_prefix (s u : string) :
  prefix u s = true -> includes s u = true.
Proof. intros H. destruct s; cbn [includes]; rewrite H; reflexivity. Qed.

Lemma includes_app_l (a b u : string) :
  includes a u = true -> includes (a ++ b) u = true.
Proof.
  induction a as [|c a IH]; cbn [includes append]; intros H.
  - rewrite orb_false_r in H. apply includes_prefix.
    destruct u; [apply prefix_nil | discriminate].
  - apply orb_true_iff in H as [H | H].
    + change (String c (a ++ b)) with (String c a ++ b).
      rewrite (prefix_app _ _ b H). reflexivity.
    + rewrite (IH H). apply orb_true_r.
Qed.

Lemma includes_app_r (a b u : string) :
  includes b u = true -> includes (a ++ b) u = true.
Proof.
  intros H. induction a as [|c a IH]; cbn [includes append]; [exact H|].
  rewrite IH. apply orb_true_r.
Qed.

Lemma formatted_body_includes_job
    (initialBody : string) (ok : bool) (jobUrl : string)
    (errorDetails : option string) (details : option NumDetails)
    (body : string) :
  formatGitLabCommentBody initialBody ok jobUrl errorDetails details = Some body ->
  includes body jobUrl = true.
Proof.
  unfold formatGitLabCommentBody.
  set (body2 := replace_all _ _ _).
  set (body3 := if includes body2 jobUrl then body2 else _).
  assert (H3 : includes body3 jobUrl = true).
  { unfold body3. destruct (includes body2 jobUrl) eqn:E; [exact E|].
    apply includes_app_r. change (includes (String lf (String lf
      ("[View job details](" ++ jobUrl ++ ")"))) jobUrl = true).
    apply (includes_app_r (String lf (String lf "[View job details](")) _ jobUrl).
    apply includes_prefix, prefix_self_app. }
  set (body4 := match opt_truthy errorDetails with Some _ => _ | None => _ end).
  assert (H4 : includes body4 jobUrl = true).
  { unfold body4. destruct (opt_truthy errorDetails);
      [apply includes_app_l|]; exact H3. }
  destruct details as [d|].
  - destruct (footer d); [|discriminate].
    intros H. injection H as <-. apply includes_app_l, H4.
  - intros H. injection H as <-. exact H4.
Qed.

(** [toFixed] prints every number. *)
Lemma toFixed_total (d : nat) (x : JsNumber.jsnum) :
  exists t, JsNumber.toFixed d x = Some t.
Proof.
  destruct x as [m e|[]|]; unfold JsNumber.toFixed; eauto.
  destruct (if 0 <=? e then _ else _)%Z; [|eauto].
  destruct (if (0 <=? e)%Z then _ else _) as [m' e'|sg|]; eauto.
Qed.

Lemma footer_total (d : NumDetails) : exists f, footer d = Some f.
Proof.
  unfold footer.
  destruct (toFixed_total 2
              (JsNumber.div_const
                 (match duration d with
                  | Some n => n
                  | None => JsNumber.of_Z 0
                  end) 1000)) as [t ->].
  destruct (cost d) as [c|]; [|eauto].
  destruct (toFixed_total 4 c) as [u ->]. eauto.
Qed.

(** X1.  [formatGitLabCommentBody] returns a body for every comment,
    outcome, error text and execution details whose duration and cost
    are numbers or absent, and the body it returns contains the address
    of the job. *)
Theorem formatted_body_links_job
    (initialBody : string) (ok : bool) (jobUrl : string)
    (errorDetails : option string) (details : option NumDetails) :
  exists body,
    formatGitLabCommentBody initialBody ok jobUrl errorDetails details
    = Some body /\
    includes body jobUrl = true.
Proof.
  assert (Hsome : exists body,
             formatGitLabCommentBody initialBody ok jobUrl errorDetails details
             = Some body).
  { unfold formatGitLabCommentBody. destruct details as [d|]; [|eauto].
    destruct (footer_total d) as [f ->]. eauto. }
  destruct Hsome as [body H]. exists body. split; [exact H|].
  exact (formatted_body_includes_job _ _ _ _ _ _ H).
Qed.

(** What follows the dash of an unchecked box has no dash itself, so a
    copy of it in the output was there in the input. *)
Lemma dashless_prefix_kept (fuel : nat) (t s : string) :
  lacks "-" t = true ->
  prefix t (replace_all_fuel fuel box "- [x] " s) = true ->
  prefix t s = true.
Proof.
  unfold box.
  revert t s. induction fuel as [|f IH]; intros t s Ht H; [exact H|].
  destruct t as [|a t']; [apply prefix_nil|].
  simpl in Ht. apply andb_prop in Ht as [Ha Ht'].
  cbn [replace_all_fuel] in H.
  destruct (prefix "- [ ] " s) eqn:E.
  - exfalso. simpl in H.
    destruct (ascii_dec a "-") as [->|]; [discriminate | discriminate].
  - destruct s as [|c r]; [exact H|].
    simpl in H |- *. destruct (ascii_dec a c); [|discriminate].
    apply (IH t' r Ht' H).
Qed.

Lemma replace_all_fuel_no_box (fuel : nat) (s : string) :
  (String.length s < fuel)%nat ->
  includes (replace_all_fuel fuel box "- [x] " s) box = false.
Proof.
  unfold box.
  revert s. induction fuel as [|f IH]; intros s Hlen; [lia|].
  cbn [replace_all_fuel].
  destruct (prefix "- [ ] " s) eqn:E.
  - assert (Hshort : (String.length (substring_from (String.length "- [ ] ") s) < f)%nat).
    { rewrite (prefix_split _ _ E) in Hlen.
      rewrite length_append in Hlen. simpl in Hlen. simpl. lia. }
    specialize (IH _ Hshort).
    set (rest := replace_all_fuel f "- [ ] " "- [x] " _) in *.
    simpl. rewrite IH. 
    destruct rest as [|c rest']; reflexivity.
  - destruct s as [|c r]; [reflexivity|].
    assert (Hr : (String.length r < f)%nat) by (simpl in Hlen; lia).
    specialize (IH r Hr).
    cbn [includes]. rewrite IH, orb_false_r.
    destruct (prefix "- [ ] " (String c (replace_all_fuel f "- [ ] " "- [x] " r))) eqn:P;
      [|reflexivity].
    exfalso. change "- [ ] " with (String "-" " [ ] ") in P, E.
    rewrite prefix_cons in P, E.
    destruct (ascii_dec "-" c) as [Hc|]; [|discriminate].
    assert (Q : prefix " [ ] " r = true)
      by (apply (dashless_prefix_kept f " [ ] " r eq_refl); exact P).
    rewrite Q in E. discriminate.
Qed.

(** X2.  The body [formatGitLabCommentBody] returns starts with the
    original comment after its two replacements, and in that part no
    unchecked task item [- [ ] ] is left. *)
Theorem formatted_body_has_no_open_item
    (initialBody : string) (ok : bool) (jobUrl : string)
    (errorDetails : option string) (details : option NumDetails)
    (body : string) :
  formatGitLabCommentBody initialBody ok jobUrl errorDetails details = Some body ->
  let converted :=
    replace_all "- [ ] " "- [x] "
      (replace_first workingMarker
         (if ok then successMessage else failureMessage) initialBody) in
  includes converted "- [ ] " = false /\
  exists appended, body = converted ++ appended.
Proof.
  intros H converted. split.
  - unfold converted, replace_all. cbn [is_empty].
    apply replace_all_fuel_no_box. lia.
  - revert H. unfold formatGitLabCommentBody. fold converted.
    set (link := String lf (String lf ("[View job details](" ++ jobUrl ++ ")"))).
    assert (H3 : exists a, (if includes converted jobUrl then converted
                            else converted ++ link) = converted ++ a).
    { destruct (includes converted jobUrl);
        [exists EmptyString; rewrite append_nil_r; reflexivity
        | exists link; reflexivity]. }
    destruct H3 as (a3 & ->).
    assert (H4 : exists a,
               match opt_truthy errorDetails with
               | Some e => (converted ++ a3)
                             ++ String lf (String lf ("**Error:** `" ++ e ++ "`"))
               | None => converted ++ a3
               end = converted ++ a).
    { destruct (opt_truthy errorDetails) as [e|]; eexists;
        [rewrite append_assoc|]; reflexivity. }
    destruct H4 as (a4 & ->).
    destruct details as [d|].
    + destruct (footer d) as [f|]; [|discriminate].
      intros H. injection H as <-. eexists.
      rewrite append_assoc. reflexivity.
    + intros H. injection H as <-. eexists. reflexivity.
Qed.

End TextFacts.

(** ** The numbers as they are printed and read *)

Module NumberFacts.

Import JsNumber.
Local Open Scope Z_scope.

Lemma round_half_even_floor (num den : Z) :
  num / den <= round_half_even num den.
Proof.
  unfold round_half_even.
  destruct (_ <? _); [lia|]. destruct (_ <? _); [lia|].
  destruct (Z.even _); lia.
Qed.

Lemma round_half_even_one (n : Z) : round_half_even n 1 = n.
Proof.
  unfold round_half_even. rewrite Z.div_1_r, Z.mod_1_r. reflexivity.
Qed.

(** Every integer below [2^53] is a double. *)
Lemma round_integer_small (a : Z) :
  0 <= a < 2 ^ 53 -> round_integer a = Some a.
Proof.
  intros [H0 H53].
  destruct (Z.eq_dec a 0) as [->|Hne]; [reflexivity|].
  assert (Hpos : 0 < a) by lia.
  pose proof (Z.log2_nonneg a) as Hl0.
  assert (Hl : Z.log2 a < 53) by (apply Z.log2_lt_pow2; lia).
  destruct (Z.log2_spec a Hpos) as [Hlo _].
  set (k := 52 - Z.log2 a).
  assert (Hk : 0 <= k <= 52) by (unfold k; lia).
  assert (Hshift : 2 ^ 52 <= a * 2 ^ k).
  { replace (2 ^ 52) with (2 ^ Z.log2 a * 2 ^ k)
      by (rewrite <- Z.pow_add_r by lia; f_equal; unfold k; lia).
    apply Z.mul_le_mono_nonneg_r; [apply Z.pow_nonneg; lia | exact Hlo]. }
  assert (Hlog : Z.log2 (a * 2 ^ k) = 52).
  { rewrite Z.log2_mul_pow2 by lia. unfold k. lia. }
  unfold round_integer, nearest.
  replace (a <=? 0) with false by (symmetry; apply Z.leb_gt; lia).
  cbn [orb Z.leb Z.compare].
  change (Z.log2 1) with 0.
  replace (Z.log2 a - 0 - 52) with (- k) by (unfold k; lia).
  destruct (Z.eq_dec k 0) as [Ek|Ek].
  - rewrite Ek in *. cbn [Z.opp]. unfold scaled. cbn [Z.leb Z.compare].
    change (1 * 2 ^ 0) with 1. rewrite Z.div_1_r.
    replace (a <? 2 ^ 52) with false by (symmetry; apply Z.ltb_ge; lia).
    change (Z.max 0 (-1074)) with 0. cbn [Z.leb Z.compare].
    change (1 * 2 ^ 0) with 1. rewrite round_half_even_one.
    replace (a * 2 ^ 0) with a in Hlog by lia. rewrite Hlog.
    cbn. f_equal. lia.
  - unfold scaled.
    replace (0 <=? - k) with false by (symmetry; apply Z.leb_gt; lia).
    rewrite Z.opp_involutive, Z.div_1_r.
    replace (a * 2 ^ k <? 2 ^ 52) with false by (symmetry; apply Z.ltb_ge; lia).
    replace (Z.max (- k) (-1074)) with (- k) by lia.
    replace (0 <=? - k) with false by (symmetry; apply Z.leb_gt; lia).
    rewrite Z.opp_involutive, round_half_even_one, Hlog.
    replace (1024 <=? 52 + - k) with false by (symmetry; apply Z.leb_gt; lia).
    replace (0 <=? - k) with false by (symmetry; apply Z.leb_gt; lia).
    rewrite Z.opp_involutive. f_equal.
    apply Z.div_mul. apply Z.pow_nonzero; lia.
Qed.

(** From [2^53] on the doubles are the multiples of [2^e] with 53 bits:
    the double nearest to [v] is not below [v] with its low bits
    cleared. *)
Lemma round_integer_large (v r : Z) :
  2 ^ 53 <= v -> round_integer v = Some r ->
  let e := Z.log2 v - 52 in
  0 < e /\ 2 ^ 52 <= v / 2 ^ e /\ v / 2 ^ e * 2 ^ e <= r.
Proof.
  intros Hv Hr e.
  assert (Hpos : 0 < v) by (assert (0 < 2 ^ 53) by reflexivity; lia).
  assert (Hl : 53 <= Z.log2 v) by (apply Z.log2_le_pow2; lia).
  destruct (Z.log2_spec v Hpos) as [Hlo _].
  assert (He : 0 < e) by (unfold e; lia).
  assert (Hp : 0 < 2 ^ e) by (apply Z.pow_pos_nonneg; lia).
  assert (Hq : 2 ^ 52 <= v / 2 ^ e).
  { apply Z.div_le_lower_bound; [exact Hp|].
    replace (2 ^ e * 2 ^ 52) with (2 ^ Z.log2 v); [exact Hlo|].
    rewrite <- Z.pow_add_r by lia. f_equal. unfold e. lia. }
  split; [exact He|]. split; [exact Hq|].
  revert Hr. unfold round_integer, nearest.
  replace (v <=? 0) with false by (symmetry; apply Z.leb_gt; lia).
  cbn [orb Z.leb Z.compare].
  change (Z.log2 1) with 0.
  replace (Z.log2 v - 0 - 52) with e by (unfold e; lia).
  unfold scaled.
  replace (0 <=? e) with true by (symmetry; apply Z.leb_le; lia).
  rewrite Z.mul_1_l.
  replace (v / 2 ^ e <? 2 ^ 52) with false by (symmetry; apply Z.ltb_ge; lia).
  replace (Z.max e (-1074)) with e by lia.
  replace (0 <=? e) with true by (symmetry; apply Z.leb_le; lia).
  rewrite Z.mul_1_l.
  destruct (1024 <=? _); [discriminate|].
  replace (0 <=? e) with true by (symmetry; apply Z.leb_le; lia).
  intros H. injection H as <-.
  apply Z.mul_le_mono_nonneg_r; [lia | apply round_half_even_floor].
Qed.

Lemma round_integer_keeps_53 (v r : Z) :
  2 ^ 53 <= v -> round_integer v = Some r -> 2 ^ 53 <= r.
Proof.
  intros Hv Hr.
  destruct (round_integer_large v r Hv Hr) as (He & Hq & Hle).
  set (e := Z.log2 v - 52) in *.
  assert (H2 : 2 ^ 1 <= 2 ^ e) by (apply Z.pow_le_mono_r; lia).
  change (2 ^ 53) with (2 ^ 52 * 2 ^ 1).
  eapply Z.le_trans; [|exact Hle].
  apply Z.mul_le_mono_nonneg; lia.
Qed.

(** A decimal of [10^21] or more is not read as a double below [10^21]. *)
Lemma round_integer_keeps_1e21 (v r : Z) :
  10 ^ 21 <= v -> round_integer v = Some r -> 10 ^ 21 <= r.
Proof.
  intros Hv Hr.
  assert (Hv53 : 2 ^ 53 <= v).
  { assert (2 ^ 53 <= 10 ^ 21) by (vm_compute; discriminate). lia. }
  destruct (round_integer_large v r Hv53 Hr) as (He & Hq & Hle).
  set (e := Z.log2 v - 52) in *.
  assert (Hp : 0 < 2 ^ e) by (apply Z.pow_pos_nonneg; lia).
  eapply Z.le_trans; [|exact Hle].
  destruct (Z_le_gt_dec e 21) as [Hsmall|Hbig].
  - assert (Hd : 10 ^ 21 / 2 ^ e <= v / 2 ^ e)
      by (apply Z.div_le_mono; lia).
    assert (Hx : 10 ^ 21 / 2 ^ e * 2 ^ e = 10 ^ 21).
    { assert (Hc : e = 1 \/ e = 2 \/ e = 3 \/ e = 4 \/ e = 5 \/ e = 6 \/
                   e = 7 \/ e = 8 \/ e = 9 \/ e = 10 \/ e = 11 \/ e = 12 \/
                   e = 13 \/ e = 14 \/ e = 15 \/ e = 16 \/ e = 17 \/
                   e = 18 \/ e = 19 \/ e = 20 \/ e = 21) by lia.
      clearbody e.
      repeat (destruct Hc as [->|Hc]; [reflexivity|]). subst e. reflexivity. }
    rewrite <- Hx at 1. apply Z.mul_le_mono_nonneg_r; lia.
  - assert (H22 : 2 ^ 22 <= 2 ^ e) by (apply Z.pow_le_mono_r; lia).
    assert (Hc : 10 ^ 21 <= 2 ^ 52 * 2 ^ 22) by (vm_compute; discriminate).
    eapply Z.le_trans; [exact Hc|].
    apply Z.mul_le_mono_nonneg; lia.
Qed.

Lemma pick_digits_sound (a unit s : Z) :
  pick_digits a unit = Some s ->
  0 < s /\ round_integer (s * unit) = Some a.
Proof.
  unfold pick_digits.
  assert (Hfit : forall t, (0 <? t) && reads_as a (t * unit) = true ->
                           0 < t /\ round_integer (t * unit) = Some a).
  { intros t H. apply andb_prop in H as [Ht Hr]. apply Z.ltb_lt in Ht.
    split; [exact Ht|]. unfold reads_as in Hr.
    destruct (round_integer (t * unit)) as [r|]; [|discriminate].
    apply Z.eqb_eq in Hr. congruence. }
  destruct ((0 <? a / unit) && _) eqn:E1;
    destruct ((0 <? a / unit + 1) && _) eqn:E2;
    try discriminate.
  - cbv zeta.
    destruct (a - _ <? _); [intros [= <-]; exact (Hfit _ E1)|].
    destruct (_ - a <? _); [intros [= <-]; exact (Hfit _ E2)|].
    destruct (Z.even _); intros [= <-];
      [exact (Hfit _ E1) | exact (Hfit _ E2)].
  - intros [= <-]; exact (Hfit _ E1).
  - intros [= <-]; exact (Hfit _ E2).
Qed.

(** The digits chosen for a double are read back as that double. *)
Lemma shortest_from_sound (p : nat) (a s : Z) (q : nat) :
  0 < a -> round_integer a = Some a ->
  shortest_from p a = (s, q) ->
  0 < s /\ round_integer (s * 10 ^ Z.of_nat q) = Some a.
Proof.
  intros Ha Hd. induction p as [|p IH]; cbn [shortest_from].
  - destruct (pick_digits a _) as [s0|] eqn:E.
    + intros [= <- <-]. exact (pick_digits_sound _ _ _ E).
    + intros [= <- <-]. split; [exact Ha|].
      change (10 ^ Z.of_nat 0) with 1. rewrite Z.mul_1_r. exact Hd.
  - destruct (pick_digits a _) as [s0|] eqn:E.
    + intros [= <- <-]. exact (pick_digits_sound _ _ _ E).
    + exact IH.
Qed.

(** A double below [10^21] is printed as a run of decimal digits that is
    read as that double. *)
Lemma integer_text_digits (a : Z) :
  0 < a < 10 ^ 21 -> round_integer a = Some a ->
  exists v, integer_text a = JsString.of_N (Z.to_N v) /\
            0 < v /\ round_integer v = Some a.
Proof.
  intros [Ha Hlt] Hd. unfold integer_text.
  destruct (shortest_from _ a) as [s q] eqn:E.
  destruct (shortest_from_sound _ _ _ _ Ha Hd E) as [Hs Hr].
  assert (Hv : 0 < s * 10 ^ Z.of_nat q).
  { apply Z.mul_pos_pos; [exact Hs | apply Z.pow_pos_nonneg; lia]. }
  destruct (s * 10 ^ Z.of_nat q <? 10 ^ 21) eqn:L.
  - exists (s * 10 ^ Z.of_nat q). repeat split; assumption.
  - apply Z.ltb_ge in L.
    pose proof (round_integer_keeps_1e21 _ _ L Hr). lia.
Qed.

End NumberFacts.

(** ** The merge-request link and the comment id *)

Module LinkFacts.

Import JsString Json Host Phase Shape TextFacts.









(** *** Decimal digits *)

Lemma take_radix_step (c : ascii) (k acc n : Z) (s : string) :
  digit_val c = Some k ->
  take_radix digit_val 10 acc n (String c s)
  = take_radix digit_val 10 (acc * 10 + k) (n + 1) s.
Proof. intros H. cbn [take_radix]. rewrite H. reflexivity. Qed.

Lemma take_radix_digits (d : Decimal.uint) (acc n : Z) (rest : string) :
  (forall c r, rest = String c r -> digit_val c = None) ->
  take_radix digit_val 10 acc n (NilEmpty.string_of_uint d ++ rest)
  = (digits_value d acc, n + Z.of_nat (Decimal.nb_digits d)).
Proof.
  intros Hrest. revert acc n.
  induction d; intros acc n;
    cbn [NilEmpty.string_of_uint append digits_value Decimal.nb_digits].
  - destruct rest as [|c r].
    + cbn. f_equal. lia.
    + cbn [take_radix]. rewrite (Hrest c r eq_refl). f_equal. lia.
  - rewrite (take_radix_step _ 0) by reflexivity.
    rewrite IHd. f_equal; [f_equal|]; lia.
  - rewrite (take_radix_step _ 1) by reflexivity.
    rewrite IHd. f_equal; [f_equal|]; lia.
  - rewrite (take_radix_step _ 2) by reflexivity.
    rewrite IHd. f_equal; [f_equal|]; lia.
  - rewrite (take_radix_step _ 3) by reflexivity.
    rewrite IHd. f_equal; [f_equal|]; lia.
  - rewrite (take_radix_step _ 4) by reflexivity.
    rewrite IHd. f_equal; [f_equal|]; lia.
  - rewrite (take_radix_step _ 5) by reflexivity.
    rewrite IHd. f_equal; [f_equal|]; lia.
  - rewrite (take_radix_step _ 6) by reflexivity.
    rewrite IHd. f_equal; [f_equal|]; lia.
  - rewrite (take_radix_step _ 7) by reflexivity.
    rewrite IHd. f_equal; [f_equal|]; lia.
  - rewrite (take_radix_step _ 8) by reflexivity.
    rewrite IHd. f_equal; [f_equal|]; lia.
  - rewrite (take_radix_step _ 9) by reflexivity.
    rewrite IHd. f_equal; [f_equal|]; lia.
Qed.

Lemma of_uint_acc_value (d : Decimal.uint) (acc : positive) :
  Z.pos (Pos.of_uint_acc d acc) = digits_value d (Z.pos acc).
Proof.
  revert acc. induction d; intros acc; cbn [Pos.of_uint_acc digits_value];
    [reflexivity | rewrite IHd; f_equal; lia ..].
Qed.

Lemma of_uint_value (d : Decimal.uint) :
  Z.of_N (N.of_uint d) = digits_value d 0.
Proof.
  unfold N.of_uint.
  induction d; cbn [Pos.of_uint digits_value]; try exact IHd;
    try reflexivity;
    (cbn [Z.of_N]; rewrite of_uint_acc_value; reflexivity).
Qed.

(** The decimal text of a natural number: at least one digit, read back
    as the number, not mistaken for a hexadecimal literal. *)
Lemma of_N_digits (n : N) :
  exists d,
    JsString.of_N n = NilEmpty.string_of_uint d /\
    d <> Decimal.Nil /\
    digits_value d 0 = Z.of_N n.
Proof.
  exists (N.to_uint n). split; [|split].
  - unfold JsString.of_N, NilZero.string_of_uint.
    destruct (N.to_uint n) eqn:E; try reflexivity.
    exfalso. destruct n; [discriminate|].
    exact (DecimalPos.Unsigned.to_uint_nonnil _ E).
  - destruct n; [discriminate | apply DecimalPos.Unsigned.to_uint_nonnil].
  - rewrite <- of_uint_value, DecimalN.Unsigned.of_to. reflexivity.
Qed.

Lemma digit_head (d : Decimal.uint) :
  d <> Decimal.Nil ->
  exists c r,
    NilEmpty.string_of_uint d = String c r /\
    ws_first c = false /\
    (code c =? 45)%N = false /\ (code c =? 43)%N = false.
Proof.
  destruct d; [congruence|..]; intros _; eexists _, _;
    repeat (split; [reflexivity|]); reflexivity.
Qed.

(** [parseInt] of a run of decimal digits, with or without a minus sign:
    the double nearest to their value. *)
Lemma parseInt_digits (neg : bool) (d : Decimal.uint) :
  d <> Decimal.Nil ->
  parseInt ((if neg then "-" else EmptyString) ++ NilEmpty.string_of_uint d)
  = IntOf (let r := match JsNumber.round_integer (digits_value d 0) with
                    | Some r => r
                    | None => digits_value d 0
                    end in
           if neg then - r else r).
Proof.
  intros Hd.
  assert (Htake : take_radix digit_val 10 0 0 (NilEmpty.string_of_uint d)
                  = (digits_value d 0, Z.of_nat (Decimal.nb_digits d))).
  { rewrite <- (append_nil_r (NilEmpty.string_of_uint d)).
    rewrite take_radix_digits; [reflexivity | discriminate]. }
  assert (Hn : (Z.of_nat (Decimal.nb_digits d) =? 0) = false).
  { apply Z.eqb_neq. destruct d; cbn [Decimal.nb_digits]; try lia. congruence. }
  assert (Hx : prefix "0x" (NilEmpty.string_of_uint d)
               || prefix "0X" (NilEmpty.string_of_uint d) = false).
  { destruct d as [|d'|d'|d'|d'|d'|d'|d'|d'|d'|d']; try reflexivity;
      destruct d'; reflexivity. }
  destruct (digit_head d Hd) as (c & r & Hc & Hw & H45 & H43).
  unfold parseInt. destruct neg.
  - change ("-" ++ NilEmpty.string_of_uint d)
      with (String "-" (NilEmpty.string_of_uint d)).
    rewrite (LineFacts.trim_start_other "-") by reflexivity.
    change (code "-" =? 45)%N with true. cbv iota.
    rewrite Hx, Htake, Hn. reflexivity.
  - cbn [append]. rewrite Hc in Hx, Htake |- *.
    rewrite (LineFacts.trim_start_other c r Hw). cbv iota.
    rewrite H45, H43, Hx, Htake, Hn. reflexivity.
Qed.

(** An id that is a double below [10^21] is printed in decimal digits and
    read back as it is. *)
Lemma parseInt_print_integer (z : Z) :
  isDouble z -> Z.abs z < 10 ^ 21 ->
  parseInt (JsNumber.print_integer z) = IntOf z.
Proof.
  intros Hd Hlt. unfold isDouble in Hd.
  destruct (Z.eq_dec z 0) as [->|Hz]; [reflexivity|].
  unfold JsNumber.print_integer. rewrite Hd.
  destruct (NumberFacts.integer_text_digits (Z.abs z)) as (v & -> & Hv & Hr);
    [lia | exact Hd |].
  destruct (of_N_digits (Z.to_N v)) as (d & -> & Hnil & Hval).
  rewrite (parseInt_digits (z <? 0) d Hnil).
  rewrite Hval, Z2N.id by lia. cbv zeta. rewrite Hr. f_equal.
  destruct (z <? 0) eqn:E; [apply Z.ltb_lt in E | apply Z.ltb_ge in E]; lia.
Qed.

Lemma small_isDouble (z : Z) : Z.abs z < 2 ^ 53 -> isDouble z.
Proof.
  intros H. apply NumberFacts.round_integer_small. lia.
Qed.

(** X4.  What [toString] writes for a comment id is read back by
    [parseInt] as the same id when the id is [NaN] or a double of
    magnitude below [10^21], as every integer of magnitude below [2^53]
    is: the id the update phase puts into [CLAUDE_COMMENT_ID] is then the
    id the script reads.  From [10^21] on [toString] writes the exponent
    notation, of which [parseInt] reads the digits before the point: the
    id [10^21] is written [1e+21] and read as 1. *)
Theorem parseInt_reads_back :
  (forall z : Z, isDouble z -> Z.abs z < 10 ^ 21 ->
     parseInt (int_to_string (IntOf z)) = IntOf z) /\
  (forall z : Z, Z.abs z < 2 ^ 53 -> isDouble z) /\
  parseInt (int_to_string IntNaN) = IntNaN /\
  int_to_string (IntOf (10 ^ 21)) = "1e+21" /\
  parseInt (int_to_string (IntOf (10 ^ 21))) = IntOf 1.
Proof.
  split; [exact parseInt_print_integer|].
  split; [exact small_isDouble|].
  split; [reflexivity|]. split; vm_compute; reflexivity.
Qed.

End LinkFacts.

(** ** More on the phases *)

Module MorePhaseFacts.

Import JsString Json Host UpdateComment Phase Entry Spec LogFacts PhaseFacts.
Local Open Scope js_scope.

Section Phases.
Context {World : Type} {RT : Runtime World}.
Variable getClaudePromptsDirectory : World -> string.
Variable getClaudeExecutionOutputPath : World -> string.

Lemma run_inv (c : Cmd) (st st' : St) (r : shell_output) :
  run c st = (Ok r, st') ->
  exists code out err,
    sh c (fst st) = (Completed code out err, fst st') /\
    r = ShellOutput code out err /\
    snd st' = (snd st ++ [c])%list.
Proof.
  unfold run. destruct st as [w log].
  cbn [fst snd].
  destruct (sh c w) as [[code out err | e] w'] eqn:E; intros H; [|discriminate].
  injection H as <- <-. exists code, out, err. cbn. repeat split; reflexivity.
Qed.

(** A prepare phase that fails has no comment id to offer. *)
Lemma runPreparePhase_cases (st : St) :
  let r := fst (runPreparePhase st) in
  (success r = true <-> error r = None) /\
  (success r = false -> commentId r = None) /\
  outputFile r = None.
Proof.
  unfold runPreparePhase, total, bind.
  destruct (run BunRunPrepare st) as [[out | e] st1]; cbn [fst].
  - destruct (negb (exitCode out =? 0)); [cbn; split; [split|split]; congruence|].
    destruct (includes (stdout out) "No trigger found");
      cbn; (split; [split|split]; congruence).
  - cbn. split; [split|split]; congruence.
Qed.

(** X5.  The result of the execute phase carries the comment id of the
    prepare result unchanged, on success and on failure alike; it has an
    error message exactly when it is a failure, and names an output file
    whenever it is a success. *)
Theorem execute_result_forwards_comment_id
    (prepareResult : PhaseResult) (st : St) :
  let r := fst (runExecutePhase getClaudePromptsDirectory prepareResult st) in
  commentId r = commentId prepareResult /\
  (success r = true <-> error r = None) /\
  (success r = true -> exists file, outputFile r = Some file).
Proof.
  unfold runExecutePhase.
  repeat first
    [ rewrite total_bind_world
    | rewrite total_bind;
      match goal with
      | |- context [match ?m ?s with _ => _ end] =>
          destruct (m s) as [[? | ?] ?]
      end;
      [| cbn; split; [reflexivity | split; [split|]; congruence] ] ].
  cbn. split; [reflexivity | split].
  - destruct (exitCode _ =? 0); cbn; split; congruence.
  - intros _. eexists. reflexivity.
Qed.

(** X6.  The results of the prepare phase and of the update phase have an
    error message exactly when they are failures; a failed prepare phase
    reports no comment id, and neither phase reports an output file. *)
Theorem phase_results_carry_error_on_failure
    (prepareResult executeResult : PhaseResult) (st : St) :
  let p := fst (runPreparePhase st) in
  let u := fst (runUpdatePhase getClaudeExecutionOutputPath
                  prepareResult executeResult st) in
  (success p = true <-> error p = None) /\
  (success p = false -> commentId p = None) /\
  outputFile p = None /\
  (success u = true <-> error u = None) /\
  commentId u = None /\
  outputFile u = None.
Proof.
  intros p u.
  destruct (runPreparePhase_cases st) as (H1 & H2 & H3).
  split; [exact H1 | split; [exact H2 | split; [exact H3|]]].
  subst u. rewrite UpdateFacts.runUpdatePhase_unfold.
  unfold total, bind.
  destruct ((if fst (checkGitStatus st)
             then createMergeRequest prepareResult executeResult
             else lift (postClaudeResponse getClaudeExecutionOutputPath
                          prepareResult executeResult))
              (snd (checkGitStatus st))) as [[[] | e] st1].
  - unfold updateTrackingComment.
    destruct (negb (hasCommentId prepareResult));
      [cbn; repeat split; congruence|].
    unfold bind, world, run. destruct st1 as [w1 log1]. cbn [fst].
    destruct (sh _ w1) as [[code out err | e] w2];
      [destruct (negb (code =? 0)) eqn:E; cbn [exitCode]; rewrite ?E|];
      cbn; repeat split; congruence.
  - cbn. repeat split; congruence.
Qed.

(** X7.  When the prepare phase fails for another reason than "No trigger
    found", [main] leaves with code 1 in the state the prepare phase left:
    the execute phase is not run, and neither is the update phase, the
    failed result having no comment id for the attempt in the [catch]
    block. *)
Theorem main_stops_after_failed_prepare (st : St) :
  let p := runPreparePhase st in
  success (fst p) = false ->
  error (fst p) <> Some "No trigger found" ->
  main getClaudePromptsDirectory getClaudeExecutionOutputPath st = (1, snd p).
Proof.
  intros p Hfail Herr. unfold main. fold p.
  destruct (runPreparePhase_cases st) as (_ & Hid & _).
  fold p in Hid. specialize (Hid Hfail).
  destruct p as [pr st1]. cbn [fst snd] in *.
  rewrite Hfail. cbn [negb].
  assert (Hno : match error pr with
                | Some e => (e =? "No trigger found")%string
                | None => false
                end = false).
  { destruct (error pr) as [e|]; [|reflexivity].
    apply String.eqb_neq. congruence. }
  rewrite Hno. unfold fatalError, hasCommentId. rewrite Hid. reflexivity.
Qed.

(** X8.  Without a usable comment id in the prepare result,
    [createMergeRequest] never creates a comment, whatever git answers. *)
Theorem submitter_needs_comment_id_to_comment
    (prepareResult executeResult : PhaseResult) :
  hasCommentId prepareResult = false ->
  emits (fun c => isCreateComment c = false)
        (createMergeRequest prepareResult executeResult).
Proof.
  intros Hid. unfold createMergeRequest, stageCommitPush, stageAndUnstage.
  rewrite Hid. emits_auto.
Qed.

(** X9.  [postClaudeResponse] issues at most one command, the creation of
    a comment; it issues none, and leaves the world as it is, when none of
    its candidate files can be read. *)
Theorem poster_creates_at_most_one_comment
    (prepareResult executeResult : PhaseResult) (st : St) :
  let after := snd (postClaudeResponse getClaudeExecutionOutputPath
                      prepareResult executeResult st) in
  (after = st \/
   exists body, snd after = (snd st ++ [CreateComment body])%list) /\
  (Forall (unreadable (fst st))
          (possibleOutputFiles getClaudeExecutionOutputPath (fst st) executeResult) ->
   after = st).
Proof.
  destruct st as [w log]. unfold postClaudeResponse, total, bind, world.
  cbn [fst snd].
  destruct (readFirstExisting w _) as [content found] eqn:R.
  split.
  - destruct (negb (JsString.truthy content)); [left; reflexivity|].
    destruct (negb (Json.truthy _)); [left; reflexivity|].
    right. unfold run.
    match goal with
    | |- context [sh ?c w] => destruct (sh c w) as [[code out err | e] w']
    end; eexists; reflexivity.
  - intros Hall. rewrite (FileFacts.readFirstExisting_none _ _ Hall) in R.
    injection R as <- <-. reflexivity.
Qed.

End Phases.

End MorePhaseFacts.

(** ** The classification and the end of the update phase *)

Module ClassifierFacts.

Import JsString Json Host UpdateComment Phase Entry Spec LogFacts PhaseFacts
       LineFacts MorePhaseFacts.
Local Open Scope js_scope.

Section Classifier.
Context {World : Type} {RT : Runtime World}.
Variable getClaudeExecutionOutputPath : World -> string.

(** X10.  [checkGitStatus] reports changes only when [git status
    --porcelain] completed and its output holds a line that the filter
    takes for a project file; whatever goes wrong before (no project
    directory, a failing [chdir], another repository, a rejected command)
    reads as "no changes". *)
Theorem changes_reported_only_from_status (st : St) :
  fst (checkGitStatus st) = true ->
  exists w code out err,
    sh GitStatusPorcelain w
    = (Completed code out err, fst (snd (checkGitStatus st))) /\
    classifyStatus (trim out) = true.
Proof.
  unfold checkGitStatus. rewrite total_bind_world.
  destruct (env_truthy (fst st) "CI_PROJECT_DIR") as [dir|];
    [|cbn; discriminate].
  rewrite total_bind.
  destruct (run (Chdir dir) st) as [[? | ?] st1]; [|cbn; discriminate].
  rewrite total_bind.
  destruct (run GitRemoteGetUrl st1) as [[remote | ?] st2]; [|cbn; discriminate].
  rewrite total_bind_world.
  destruct (wrongRepository (fst st2) _); [cbn; discriminate|].
  rewrite total_bind.
  destruct (for_each _ statusTempPatterns st2) as [[? | ?] st3];
    [|cbn; discriminate].
  rewrite total_bind.
  destruct (for_each _ statusTempDirs st3) as [[? | ?] st4];
    [|cbn; discriminate].
  rewrite total_bind.
  destruct (run GitStatusPorcelain st4) as [[result | ?] st5] eqn:E;
    [|cbn; discriminate].
  cbn. intros H.
  destruct (run_inv _ _ _ _ E) as (code & out & err & Hs & -> & _).
  exists (fst st4), code, out, err. split; assumption.
Qed.

Lemma updateTrackingComment_log (pr er : PhaseResult) (st : St) :
  exists added,
    snd (snd (updateTrackingComment pr er st)) = (snd st ++ added)%list /\
    (added = [] \/ exists env, added = [BunRunUpdate env]).
Proof.
  unfold updateTrackingComment.
  destruct (negb (hasCommentId pr)).
  - exists []. rewrite app_nil_r. split; [reflexivity | now left].
  - unfold bind, world, run. destruct st as [w log]. cbn [fst snd].
    eexists. split; [|right; eexists; reflexivity].
    destruct (sh _ w) as [[code out err | e] w'];
      [destruct (negb (exitCode _ =? 0))|]; reflexivity.
Qed.

(** X11.  The update phase runs the update script at most once, and then
    as its last command: whatever it does before (classification, merge
    request or response) never starts the script. *)
Theorem update_script_runs_last
    (prepareResult executeResult : PhaseResult) (st : St) :
  exists before,
    Forall (fun c => isUpdateScript c = false) before /\
    (snd (snd (runUpdatePhase getClaudeExecutionOutputPath
                 prepareResult executeResult st))
     = (snd st ++ before)%list
     \/ exists env,
       snd (snd (runUpdatePhase getClaudeExecutionOutputPath
                   prepareResult executeResult st))
       = (snd st ++ before ++ [BunRunUpdate env])%list).
Proof.
  rewrite UpdateFacts.runUpdatePhase_unfold.
  destruct (UpdateFacts.checkGitStatus_emits
              (fun c => isUpdateScript c = false) (fun c H => H) st)
    as (a0 & E0 & F0).
  set (st1 := snd (checkGitStatus st)) in *.
  set (step := if fst (checkGitStatus st)
               then createMergeRequest prepareResult executeResult
               else lift (postClaudeResponse getClaudeExecutionOutputPath
                            prepareResult executeResult)).
  assert (Hstep : emits (fun c => isUpdateScript c = false) step).
  { unfold step. destruct (fst (checkGitStatus st)).
    - apply UpdateFacts.createMergeRequest_emits. auto.
    - apply emits_lift, UpdateFacts.postClaudeResponse_emits. auto. }
  destruct (Hstep st1) as (a1 & E1 & F1).
  unfold total, bind.
  destruct (step st1) as [[[] | e] st2]; cbn [snd] in E1.
  - destruct (updateTrackingComment_log prepareResult executeResult st2)
      as (a2 & E2 & H2).
    destruct (updateTrackingComment prepareResult executeResult st2)
      as [[r | e] st3]; cbn [snd] in *;
      exists (a0 ++ a1)%list;
      (split; [apply Forall_app; split; assumption|]);
      rewrite E2, E1, E0;
      (destruct H2 as [-> | (env & ->)];
       [left; rewrite app_nil_r, app_assoc; reflexivity
       | right; exists env; rewrite !app_assoc; reflexivity]).
  - exists (a0 ++ a1)%list. split; [apply Forall_app; split; assumption|].
    left. cbn [snd]. rewrite E1, E0, app_assoc. reflexivity.
Qed.

(** X12.  The file name the update phase hands to the update script in
    [OUTPUT_FILE] is never empty, so [getExecutionDetails] does not stop
    at its test for a missing name: it looks for that file first, then
    for the two files of the temp directory. *)
Theorem update_hands_over_a_file_name
    (w : World) (prepareResult executeResult : PhaseResult) :
  JsString.truthy (updateOutputFile w executeResult) = true /\
  In ("OUTPUT_FILE", updateOutputFile w executeResult)
     (updateEnv w prepareResult executeResult) /\
  getExecutionDetails w (Some (updateOutputFile w executeResult))
  = (let content :=
       fst (readFirstExisting w
              [updateOutputFile w executeResult;
               jsonOutputPath w; txtOutputPath w]) in
     if is_empty content then None else detailsOfContent content).
Proof.
  assert (Ht : JsString.truthy (updateOutputFile w executeResult) = true).
  { unfold updateOutputFile.
    destruct (opt_truthy (outputFile executeResult)) as [f|] eqn:E.
    - unfold opt_truthy in E. destruct (outputFile executeResult) as [g|];
        [|discriminate].
      destruct (JsString.truthy g) eqn:T; [|discriminate]. congruence.
    - destruct (existsSync w (jsonOutputPath w));
        [|destruct (existsSync w (txtOutputPath w))];
        apply FileFacts.path_join_truthy. }
  split; [exact Ht | split].
  - unfold updateEnv. apply in_or_app. left. cbn. auto.
  - unfold getExecutionDetails, opt_truthy, possibleFiles. rewrite Ht.
    destruct (readFirstExisting w _); reflexivity.
Qed.

End Classifier.

(** *** The filter on the lines of [git status] *)

Lemma filter_length_existsb {A} (f : A -> bool) (l : list A) :
  negb (Nat.eqb (List.length (filter f l)) 0) = existsb f l.
Proof.
  induction l as [|a l IH]; [reflexivity|].
  cbn [filter existsb]. destruct (f a); [reflexivity | exact IH].
Qed.

(** X13.  For a status text made of the lines [lines], the classification
    answers whether one of them is a project file: temp files alone give
    "no changes", and one project file among them gives "changes". *)
Theorem classification_by_lines (lines : list string) :
  Forall (fun l => no_lf l = true) lines ->
  join_lines lines <> EmptyString ->
  classifyStatus (join_lines lines) = existsb (isProjectFile true) lines.
Proof.
  intros Hlines Hne. unfold classifyStatus, projectLines.
  assert (T : JsString.truthy (join_lines lines) = true)
    by (destruct (join_lines lines); [congruence | reflexivity]).
  rewrite T, filter_length_existsb, split_join_lines;
    [reflexivity | | exact Hlines].
  intros ->. apply Hne. reflexivity.
Qed.

Lemma isProjectFile_weaker (line : string) :
  isProjectFile true line = true -> isProjectFile false line = true.
Proof.
  unfold isProjectFile. cbn [andb]. intros H.
  repeat (apply andb_prop in H as [H ?]).
  repeat (apply andb_true_intro; split); try assumption. reflexivity.
Qed.

(** X14.  The filter of [createMergeRequest] keeps every line the filter
    of [checkGitStatus] keeps.  A status text that is classified as a
    change therefore never makes the submitter stop for want of project
    files. *)
Theorem classified_change_reaches_commit (statusOutput : string) :
  classifyStatus statusOutput = true ->
  ~ nothingRemains statusOutput.
Proof.
  unfold classifyStatus, nothingRemains, projectLines.
  destruct (JsString.truthy statusOutput) eqn:T; [|discriminate].
  rewrite filter_length_existsb. intros H [E | E].
  - rewrite E in T. discriminate.
  - apply existsb_exists in H as (l & Hin & Hl).
    assert (Hin' : In l (filter (isProjectFile false) (split_lines statusOutput)))
      by (apply filter_In; split; [exact Hin | apply isProjectFile_weaker, Hl]).
    rewrite E in Hin'. exact Hin'.
Qed.

End ClassifierFacts.

(** ** More on transcripts and status lines *)

Module TranscriptFacts.

Import JsString Json Host UpdateComment Phase Spec LineFacts ReaderFacts.

Lemma parsed_line_is_not_blank (line : string) (v : json) :
  parse line = Some v -> is_empty (trim line) = false.
Proof.
  intros H. destruct (is_empty (trim line)) eqn:E; [|reflexivity].
  rewrite (parse_blank line E) in H. discriminate.
Qed.

(** X15.  In the loop of [postClaudeResponse], a record of type [result]
    with a truthy [result] ends the reading: its [result] is the message
    when it is the first line, and the lines after it have no influence
    wherever it stands. *)
Theorem result_record_ends_the_scan
    (numberToString : JsNumber.jsnum -> string)
    (before : list string) (line : string) (after : list string)
    (output claudeMessage : json) :
  parse line = Some output ->
  is_string (get output "type") "result" = true ->
  Json.truthy (prop_value (get output "result")) = true ->
  scanLines numberToString (line :: after) claudeMessage
  = prop_value (get output "result") /\
  scanLines numberToString (before ++ line :: after) claudeMessage
  = scanLines numberToString (before ++ [line]) claudeMessage.
Proof.
  intros Hparse Htype Hresult.
  assert (Hbreak : forall m,
             tryRecord numberToString output m
             = Break (prop_value (get output "result"))).
  { intros m. unfold tryRecord.
    destruct (get output "type"); try discriminate Htype;
      rewrite Htype, Hresult; reflexivity. }
  assert (Hhead : forall rest m,
             scanLines numberToString (line :: rest) m
             = prop_value (get output "result")).
  { intros rest m. cbn [scanLines].
    rewrite (parsed_line_is_not_blank _ _ Hparse), Hparse, Hbreak. reflexivity. }
  split; [apply Hhead|].
  revert claudeMessage. induction before as [|l rest IH]; intros m.
  - cbn [app]. rewrite !Hhead. reflexivity.
  - cbn [app scanLines].
    destruct (is_empty (trim l)); [apply IH|].
    destruct (parse l) as [o|]; [|apply IH].
    destruct (tryRecord numberToString o m); try apply IH. reflexivity.
Qed.

(** X16.  A file that parses as one JSON value other than an array, such
    as a transcript of a single record on a single line, gives no
    execution details, although reading it line by line would have given
    that record. *)
Theorem single_value_file_gives_no_details (fileContent : string) (v : json) :
  parse fileContent = Some v ->
  (forall items, v <> JArr items) ->
  detailsOfContent fileContent = None /\
  (no_lf fileContent = true -> trim fileContent = fileContent ->
   parseJsonl fileContent = [v]).
Proof.
  intros Hparse Hv. split.
  - unfold detailsOfContent. rewrite Hparse.
    destruct v; try reflexivity. exfalso. exact (Hv _ eq_refl).
  - intros Hlf Htrim. unfold parseJsonl.
    replace (split_lines (trim fileContent)) with [fileContent]
      by (rewrite Htrim; symmetry; apply split_lines_single, Hlf).
    cbn [parseLines].
    rewrite (parsed_line_is_not_blank _ _ Hparse), Hparse. reflexivity.
Qed.


End TranscriptFacts.

(** ** The update script *)

Module ScriptFacts.

Import JsString Json Host UpdateComment Phase UpdateScript Shape.

Lemma override_app (name : string) (a b : list (string * string)) :
  override name (a ++ b)%list
  = match override name b with
    | Some v => Some v
    | None => override name a
    end.
Proof.
  induction a as [|[k v] a IH]; cbn [app override].
  - destruct (override name b); reflexivity.
  - rewrite IH. destruct (override name b); reflexivity.
Qed.

Lemma findNote_sound (n : Z) (notes : list GitLabNote) (note : GitLabNote) :
  findNote n notes = Some note -> In note notes /\ note_id note = n.
Proof.
  induction notes as [|x rest IH]; cbn [findNote]; [discriminate|].
  destruct (note_id x =? n) eqn:E.
  - intros H. injection H as <-. split; [left; reflexivity | apply Z.eqb_eq, E].
  - intros H. destruct (IH H) as [Hin Hid]. split; [right; exact Hin | exact Hid].
Qed.

Section Script.
Context {World : Type} {RT : Runtime World} {API : GitlabApi World}.

Lemma updatedBody_formats (c : Settings) (body url text : string) :
  updatedBody c body url = Body text ->
  exists details,
    formatGitLabCommentBody body (succeeded c) url (errorDetails c) details
    = Some text.
Proof.
  unfold updatedBody. destruct (executionDetails c) as [d|].
  - destruct (renderingOf d) as [n| |]; try discriminate.
    destruct (formatGitLabCommentBody body (succeeded c) url (errorDetails c)
                (Some n)) as [t|] eqn:F; [|discriminate].
    intros H. injection H as <-. exists (Some n). exact F.
  - destruct (formatGitLabCommentBody body (succeeded c) url (errorDetails c)
                None) as [t|] eqn:F; [|discriminate].
    intros H. injection H as <-. exists None. exact F.
Qed.

Lemma fetchAndEdit_cases (c : Settings) (st : ApiSt) (e : ending) (st' : ApiSt) :
  fetchAndEdit c st = Some (e, st') ->
  exists fetched w1,
    notesAll (resource c) (projectId c) (iid c) (fst st) = (fetched, w1) /\
    ((exists reason,
        e = Exited 0 ("Failed to update GitLab comment: " ++ reason) /\
        st' = (w1, (snd st ++ [NotesAll (resource c) (projectId c) (iid c)])%list))
     \/
     (exists notes note text failure w2,
        fetched = inr notes /\
        findNote (UpdateScript.commentId c) notes = Some note /\
        updatedBody c (note_body note) (jobUrl w1 (host c) (projectId c))
        = Body text /\
        notesEdit (resource c) (projectId c) (iid c) (UpdateScript.commentId c)
                  text w1 = (failure, w2) /\
        st' = (w2, (snd st ++
                      [NotesAll (resource c) (projectId c) (iid c);
                       NotesEdit (resource c) (projectId c) (iid c)
                                 (UpdateScript.commentId c) text])%list) /\
        (failure = None /\ e = Returned \/
         exists reason,
           failure = Some reason /\
           e = Exited 0 ("Failed to update GitLab comment: "
                           ++ "Failed to fetch or update comment: " ++ reason)))).
Proof.
  destruct st as [w log]. unfold fetchAndEdit. cbn [fst snd].
  destruct (notesAll (resource c) (projectId c) (iid c) w) as [fetched w1].
  intros H. exists fetched, w1. split; [reflexivity|].
  destruct fetched as [err | notes].
  - left. unfold failedToUpdate, giveUp in H. injection H as <- <-.
    eexists. split; reflexivity.
  - destruct (findNote (UpdateScript.commentId c) notes) as [note|] eqn:Hfind.
    + destruct (updatedBody c (note_body note)
                  (jobUrl w1 (host c) (projectId c))) as [text| |] eqn:Hbody.
      * destruct (notesEdit (resource c) (projectId c) (iid c)
                    (UpdateScript.commentId c) text w1) as [failure w2] eqn:Hedit.
        right. exists notes, note, text, failure, w2.
        rewrite <- app_assoc in H. cbn [app] in H.
        destruct failure as [m|]; unfold failedToUpdate, giveUp in H;
          injection H as <- <-; repeat split; try assumption.
        -- right. eexists. split; reflexivity.
        -- left. split; reflexivity.
      * left. unfold failedToUpdate, giveUp in H. injection H as <- <-.
        eexists. split; reflexivity.
      * discriminate.
    + left. unfold failedToUpdate, giveUp in H. injection H as <- <-.
      eexists. split; reflexivity.
Qed.

Lemma fetchAndEdit_total (c : Settings) (st : ApiSt) :
  executionDetails c = None ->
  exists e st', fetchAndEdit c st = Some (e, st').
Proof.
  intros Hd. destruct st as [w log]. unfold fetchAndEdit.
  destruct (notesAll (resource c) (projectId c) (iid c) w) as [[err | notes] w1];
    [unfold failedToUpdate, giveUp; eauto|].
  destruct (findNote (UpdateScript.commentId c) notes) as [note|];
    [|unfold failedToUpdate, giveUp; eauto].
  unfold updatedBody. rewrite Hd. unfold formatGitLabCommentBody.
  match goal with
  | |- context [notesEdit ?r ?p ?i ?n ?t w1] =>
      destruct (notesEdit r p i n t w1) as [[m|] w2]
  end; unfold failedToUpdate, giveUp; eauto.
Qed.

Lemma run_cases (st : ApiSt) (e : ending) (st' : ApiSt) :
  UpdateScript.run st = Some (e, st') ->
  (exists reason,
      e = Exited 0 ("Failed to update GitLab comment: " ++ reason) /\
      st' = st /\
      (parseInt (env_text (fst st) "CLAUDE_COMMENT_ID") = IntNaN \/
       env_truthy (fst st) "CI_PROJECT_ID" = None \/
       targetResource (fst st) = None \/
       gitlabToken (fst st) = None))
  \/
  (exists id project target targetIid token,
      parseInt (env_text (fst st) "CLAUDE_COMMENT_ID") = IntOf id /\
      env_truthy (fst st) "CI_PROJECT_ID" = Some project /\
      targetResource (fst st) = Some (target, targetIid) /\
      gitlabToken (fst st) = Some token /\
      fetchAndEdit
        (SettingsOf id project target (parseInt targetIid)
           (gitlabHost (fst st)) (actionSucceeded (fst st))
           (getenv (fst st) "PREPARE_ERROR")
           (getExecutionDetails (fst st) (getenv (fst st) "OUTPUT_FILE")))
        st = Some (e, st')).
Proof.
  unfold UpdateScript.run.
  destruct (parseInt (env_text (fst st) "CLAUDE_COMMENT_ID")) as [|id].
  { intros H. injection H as <- <-. left. eexists. repeat split. auto. }
  destruct (env_truthy (fst st) "CI_PROJECT_ID") as [project|].
  2:{ intros H. injection H as <- <-. left. eexists. repeat split. auto. }
  destruct (targetResource (fst st)) as [[target targetIid]|].
  2:{ intros H. injection H as <- <-. left. eexists. repeat split. auto. }
  destruct (gitlabToken (fst st)) as [token|].
  2:{ intros H. injection H as <- <-. left. eexists. repeat split. auto. }
  intros H. right. exists id, project, target, targetIid, token.
  repeat split. exact H.
Qed.

(** X18.  The update script never ends with an exit code other than 0:
    it returns, or it warns that the comment could not be updated and
    exits with 0.  When there are no execution details to print it does
    end in one of these two ways. *)
Theorem script_never_fails_the_job (st : ApiSt) :
  (forall e st',
      UpdateScript.run st = Some (e, st') ->
      e = Returned \/
      exists reason,
        e = Exited 0 ("Failed to update GitLab comment: " ++ reason)) /\
  (getExecutionDetails (fst st) (getenv (fst st) "OUTPUT_FILE") = None ->
   exists e st', UpdateScript.run st = Some (e, st')).
Proof.
  split.
  - intros e st' H.
    destruct (run_cases _ _ _ H) as
      [(reason & -> & _) | (id & project & target & targetIid & token & _ & _ & _ & _ & F)].
    + right. eauto.
    + destruct (fetchAndEdit_cases _ _ _ _ F) as
        (fetched & w1 & _ & [(reason & -> & _) |
           (notes & note & text & failure & w2 & _ & _ & _ & _ & _ &
              [[_ ->] | (reason & _ & ->)])]); eauto.
  - intros Hd. unfold UpdateScript.run.
    destruct (parseInt (env_text (fst st) "CLAUDE_COMMENT_ID"));
      [unfold giveUp; eauto|].
    destruct (env_truthy (fst st) "CI_PROJECT_ID"); [|unfold giveUp; eauto].
    destruct (targetResource (fst st)) as [[target targetIid]|];
      [|unfold giveUp; eauto].
    destruct (gitlabToken (fst st)); [|unfold giveUp; eauto].
    apply fetchAndEdit_total. exact Hd.
Qed.

(** X19.  The script calls the API at most twice.  An edit is its last
    call and comes right after the fetch of the notes of the same
    resource; the note it edits has the id read from [CLAUDE_COMMENT_ID]
    and is among the notes fetched, and the new body is the formatted
    body of that note. *)
Theorem script_edits_only_the_note_it_found
    (st : ApiSt) (e : ending) (st' : ApiSt) :
  UpdateScript.run st = Some (e, st') ->
  exists calls,
    snd st' = (snd st ++ calls)%list /\
    (List.length calls <= 2)%nat /\
    forall r p i n b,
      In (NotesEdit r p i n b) calls ->
      calls = [NotesAll r p i; NotesEdit r p i n b] /\
      parseInt (env_text (fst st) "CLAUDE_COMMENT_ID") = IntOf n /\
      exists notes w1 note,
        notesAll r p i (fst st) = (inr notes, w1) /\
        In note notes /\ note_id note = n /\
        exists details,
          formatGitLabCommentBody (note_body note) (actionSucceeded (fst st))
            (jobUrl w1 (gitlabHost (fst st)) p)
            (getenv (fst st) "PREPARE_ERROR") details = Some b.
Proof.
  intros H.
  destruct (run_cases _ _ _ H) as
    [(reason & _ & -> & _) | (id & project & target & targetIid & token & Hid & _ & _ & _ & F)].
  { exists []. rewrite app_nil_r. split; [reflexivity|].
    split; [cbn; lia|]. intros ? ? ? ? ? []. }
  destruct (fetchAndEdit_cases _ _ _ _ F) as
    (fetched & w1 & Hall & [(reason & _ & ->) |
       (notes & note & text & failure & w2 & -> & Hfind & Hbody & _ & -> & _)]);
    cbn [resource projectId iid UpdateScript.commentId host] in *.
  - eexists. split; [reflexivity|]. split; [cbn; lia|].
    intros r p i n b [Hc | []]. discriminate Hc.
  - eexists. split; [reflexivity|]. split; [cbn; lia|].
    intros r p i n b [Hc | [Hc | []]]; [discriminate Hc|].
    injection Hc as <- <- <- <- <-.
    split; [reflexivity|]. split; [exact Hid|].
    destruct (findNote_sound _ _ _ Hfind) as [Hin Hnote].
    exists notes, w1, note. repeat split; try assumption.
    exact (updatedBody_formats _ _ _ _ Hbody).
Qed.

(** X20.  The script calls the API only when it has a numeric comment
    id, a project id, a merge request or an issue, and a token; its
    first call then fetches the notes of that resource. *)
Theorem script_makes_no_call_without_settings
    (st : ApiSt) (e : ending) (st' : ApiSt) :
  UpdateScript.run st = Some (e, st') ->
  snd st' <> snd st ->
  exists id project target targetIid token rest,
    parseInt (env_text (fst st) "CLAUDE_COMMENT_ID") = IntOf id /\
    env_truthy (fst st) "CI_PROJECT_ID" = Some project /\
    targetResource (fst st) = Some (target, targetIid) /\
    gitlabToken (fst st) = Some token /\
    snd st' = (snd st ++ NotesAll target project (parseInt targetIid) :: rest)%list.
Proof.
  intros H Hcalls.
  destruct (run_cases _ _ _ H) as
    [(reason & _ & -> & _) | (id & project & target & targetIid & token & Hid & Hp & Ht & Htok & F)];
    [congruence|].
  exists id, project, target, targetIid, token.
  destruct (fetchAndEdit_cases _ _ _ _ F) as
    (fetched & w1 & _ & [(reason & _ & ->) |
       (notes & note & text & failure & w2 & _ & _ & _ & _ & -> & _)]);
    cbn [resource projectId iid UpdateScript.commentId host snd];
    eexists; repeat split; eassumption || reflexivity.
Qed.

(** X21.  When the script returns without a warning, it has fetched the
    notes and edited one of them, and the API has accepted the edit. *)
Theorem script_returns_only_after_the_edit (st st' : ApiSt) :
  UpdateScript.run st = Some (Returned, st') ->
  exists r p i n b w1,
    snd st' = (snd st ++ [NotesAll r p i; NotesEdit r p i n b])%list /\
    notesEdit r p i n b w1 = (None, fst st').
Proof.
  intros H.
  destruct (run_cases _ _ _ H) as
    [(reason & Habs & _) | (id & project & target & targetIid & token & _ & _ & _ & _ & F)];
    [discriminate|].
  destruct (fetchAndEdit_cases _ _ _ _ F) as
    (fetched & w1 & _ & [(reason & Habs & _) |
       (notes & note & text & failure & w2 & _ & _ & _ & Hedit & -> &
          [[-> _] | (reason & _ & Habs)])]); try discriminate.
  cbn [resource projectId iid UpdateScript.commentId host snd fst] in *.
  do 5 eexists. exists w1. split; [reflexivity | exact Hedit].
Qed.

Lemma updateEnv_fixed (w : World) (prepareResult executeResult : PhaseResult)
    (name : string) :
  name <> "CI_ISSUE_IID" -> name <> "CI_MERGE_REQUEST_IID" ->
  override name (Entry.updateEnv w prepareResult executeResult)
  = override name
      [ ("CLAUDE_COMMENT_ID",
         match Phase.commentId prepareResult with
         | Some i => int_to_string i
         | None => EmptyString
         end);
        ("CLAUDE_SUCCESS", if success executeResult then "true" else "false");
        ("PREPARE_SUCCESS", if success prepareResult then "true" else "false");
        ("OUTPUT_FILE", Entry.updateOutputFile w executeResult) ].
Proof.
  intros Hi Hm. unfold Entry.updateEnv. rewrite override_app.
  assert (Hneq : forall k : string, name <> k -> (k =? name)%string = false).
  { intros k Hk. apply String.eqb_neq. congruence. }
  destruct (env_truthy w "CLAUDE_RESOURCE_ID"); [|reflexivity].
  destruct (env_is w "CLAUDE_RESOURCE_TYPE" "issue").
  { cbn [override]. rewrite (Hneq _ Hi). reflexivity. }
  destruct (env_is w "CLAUDE_RESOURCE_TYPE" "merge_request"); [|reflexivity].
  cbn [override]. rewrite (Hneq _ Hm). reflexivity.
Qed.

Lemma scriptRuntime_getenv
    (w : World) (prepareResult executeResult : PhaseResult)
    (w' : World) (name : string) :
  @getenv World (scriptRuntime RT w prepareResult executeResult) w' name
  = match override name
            (@Entry.updateEnv World RT w prepareResult executeResult) with
    | Some v => Some v
    | None => @getenv World RT w' name
    end.
Proof. reflexivity. Qed.

Lemma script_comment_id_text
    (w : World) (prepareResult executeResult : PhaseResult) (w' : World) :
  @env_text World (scriptRuntime RT w prepareResult executeResult)
    w' "CLAUDE_COMMENT_ID"
  = match Phase.commentId prepareResult with
    | Some i => int_to_string i
    | None => EmptyString
    end.
Proof.
  unfold env_text.
  rewrite scriptRuntime_getenv, updateEnv_fixed by discriminate.
  reflexivity.
Qed.

Lemma script_reads_comment_id
    (w : World) (prepareResult executeResult : PhaseResult) (w' : World) :
  plainId (Phase.commentId prepareResult) ->
  parseInt (@env_text World (scriptRuntime RT w prepareResult executeResult)
              w' "CLAUDE_COMMENT_ID")
  = match Phase.commentId prepareResult with
    | Some i => i
    | None => IntNaN
    end.
Proof.
  rewrite script_comment_id_text.
  destruct (Phase.commentId prepareResult) as [[|z]|]; try reflexivity.
  intros [Hd Hlt]. apply LinkFacts.parseInt_print_integer; assumption.
Qed.

Lemma script_inherits_project
    (w : World) (prepareResult executeResult : PhaseResult) (w' : World) :
  @env_truthy World (scriptRuntime RT w prepareResult executeResult)
    w' "CI_PROJECT_ID"
  = @env_truthy World RT w' "CI_PROJECT_ID".
Proof.
  unfold env_truthy.
  rewrite scriptRuntime_getenv, updateEnv_fixed by discriminate. reflexivity.
Qed.

(** X22.  The script that the update phase starts reads back what the
    phases found: the comment id of the prepare phase when that id is
    written without an exponent (no id, [NaN], or a double of magnitude
    below [10^21]), success when both phases succeeded, and the output
    file the phase chose.  An id of [10^21] is handed over as [1e+21] and
    read as 1.  No error text of a phase is handed over: [PREPARE_ERROR]
    is what the job's own environment holds. *)
Theorem script_receives_the_phase_results
    (w : World) (prepareResult executeResult : PhaseResult) :
  (plainId (Phase.commentId prepareResult) ->
   parseInt (@env_text World (scriptRuntime RT w prepareResult executeResult)
               w "CLAUDE_COMMENT_ID")
   = match Phase.commentId prepareResult with
     | Some i => i
     | None => IntNaN
     end) /\
  (Phase.commentId prepareResult = Some (IntOf (10 ^ 21)) ->
   parseInt (@env_text World (scriptRuntime RT w prepareResult executeResult)
               w "CLAUDE_COMMENT_ID")
   = IntOf 1) /\
  @actionSucceeded World (scriptRuntime RT w prepareResult executeResult) w
  = success prepareResult && success executeResult /\
  @getenv World (scriptRuntime RT w prepareResult executeResult) w "OUTPUT_FILE"
  = Some (@Entry.updateOutputFile World RT w executeResult) /\
  @getenv World (scriptRuntime RT w prepareResult executeResult) w "PREPARE_ERROR"
  = @getenv World RT w "PREPARE_ERROR".
Proof.
  split; [apply script_reads_comment_id|].
  split.
  { intros Hid. rewrite script_comment_id_text, Hid. vm_compute. reflexivity. }
  split; [|split].
  - unfold actionSucceeded, env_is.
    rewrite !scriptRuntime_getenv, !updateEnv_fixed by discriminate.
    cbn [override String.eqb Ascii.eqb Bool.eqb].
    destruct (success prepareResult), (success executeResult); reflexivity.
  - rewrite scriptRuntime_getenv, updateEnv_fixed by discriminate. reflexivity.
  - rewrite scriptRuntime_getenv, updateEnv_fixed by discriminate. reflexivity.
Qed.

End Script.

(** X23.  Started by the update phase with a comment id that is written
    without an exponent (no id, [NaN], or a double of magnitude below
    [10^21]), the script edits no note but the tracking comment of the
    prepare phase, in the project of the job. *)
Theorem script_edits_the_prepared_comment
    {World : Type} (RT : Runtime World) (API : GitlabApi World)
    (w : World) (prepareResult executeResult : PhaseResult)
    (e : ending) (st' : World * list ApiCall)
    (r : Resource) (p : string) (i : jsint) (n : Z) (b : string) :
  plainId (Phase.commentId prepareResult) ->
  @UpdateScript.run World (scriptRuntime RT w prepareResult executeResult) API
    (w, []) = Some (e, st') ->
  In (NotesEdit r p i n b) (snd st') ->
  Phase.commentId prepareResult = Some (IntOf n) /\
  @env_truthy World RT w "CI_PROJECT_ID" = Some p.
Proof.
  intros Hplain H Hin.
  destruct (@run_cases World (scriptRuntime RT w prepareResult executeResult)
              API _ _ _ H) as
    [(reason & _ & -> & _) | (id & project & target & targetIid & token & Hid & Hp & _ & _ & F)];
    [destruct Hin|].
  cbn [fst] in Hid, Hp.
  rewrite (script_reads_comment_id _ _ _ _ Hplain) in Hid.
  rewrite script_inherits_project in Hp.
  destruct (@fetchAndEdit_cases World
              (scriptRuntime RT w prepareResult executeResult) API _ _ _ _ F) as
    (fetched & w1 & _ & [(reason & _ & ->) |
       (notes & note & text & failure & w2 & _ & _ & _ & _ & -> & _)]);
    cbn [resource projectId iid UpdateScript.commentId host snd app] in Hin.
  - destruct Hin as [Hc | []]. discriminate Hc.
  - destruct Hin as [Hc | [Hc | []]]; [discriminate Hc|].
    injection Hc as <- <- <- <- <-. split; [|exact Hp].
    destruct (Phase.commentId prepareResult) as [j|]; congruence.
Qed.

End ScriptFacts.

(** ** The provider factory *)

Module FactoryFacts.

Import JsString Host Phase UpdateScript ProviderFactory Shape.

Lemma split_on_nonempty (sep : ascii) (s : string) : split_on sep s <> [].
Proof.
  destruct s as [|c r]; cbn [split_on]; [discriminate|].
  destruct (Ascii.eqb c sep); [discriminate|].
  destruct (split_on sep r); discriminate.
Qed.

Lemma split_on_head (sep : ascii) (s h : string) (t : list string) :
  split_on sep s = h :: t ->
  lacks sep h = true /\
  match t with
  | [] => s = h
  | _ :: _ => exists rest, s = h ++ String sep rest /\ split_on sep rest = t
  end.
Proof.
  revert h t. induction s as [|c r IH]; intros h t; cbn [split_on].
  - intros H. injection H as <- <-. split; reflexivity.
  - destruct (Ascii.eqb c sep) eqn:E.
    + intros H. injection H as <- <-. split; [reflexivity|].
      apply Ascii.eqb_eq in E. subst c.
      destruct (split_on sep r) eqn:S;
        [exfalso; exact (split_on_nonempty _ _ S)|].
      exists r. split; [reflexivity | exact S].
    + destruct (split_on sep r) as [|h' t'] eqn:S;
        [destruct (split_on_nonempty _ _ S)|].
      intros H. injection H as <- <-.
      destruct (IH h' t' eq_refl) as [Hl Ht].
      split; [cbn [lacks]; rewrite E, Hl; reflexivity|].
      destruct t' as [|h2 t2].
      * rewrite Ht. reflexivity.
      * destruct Ht as (rest & -> & Hrest). exists rest.
        split; [reflexivity | exact Hrest].
Qed.

Section Factory.
Context {World : Type} {RT : Runtime World} {AC : ActionsCore World}.

Lemma env_truthy_sound (w : World) (name v : string) :
  env_truthy w name = Some v -> JsString.truthy v = true.
Proof.
  unfold env_truthy. destruct (getenv w name) as [x|]; [|discriminate].
  destruct (JsString.truthy x) eqn:E; [|discriminate].
  intros H. injection H as <-. exact E.
Qed.

Lemma opt_truthy_sound (a : option string) (v : string) :
  opt_truthy a = Some v -> JsString.truthy v = true.
Proof.
  unfold opt_truthy. destruct a as [x|]; [|discriminate].
  destruct (JsString.truthy x) eqn:E; [|discriminate].
  intros H. injection H as <-. exact E.
Qed.

Lemma env_or_input_sound (w : World) (name input v : string) :
  env_or_input w name input = Some v -> JsString.truthy v = true.
Proof.
  unfold env_or_input. destruct (env_truthy w name) as [x|] eqn:E.
  - intros H. injection H as <-. exact (env_truthy_sound _ _ _ E).
  - apply opt_truthy_sound.
Qed.

Lemma env_or_input_none (w : World) (name input : string) :
  env_or_input w name input = None ->
  env_truthy w name = None /\ JsString.truthy (getInput w input) = false.
Proof.
  unfold env_or_input. destruct (env_truthy w name); [discriminate|].
  cbn [opt_truthy]. destruct (JsString.truthy (getInput w input));
    [discriminate | split; reflexivity].
Qed.

(** X24.  A token that [getToken] returns is never the empty string, on
    either platform and whatever its source.  When it throws, neither the
    variable nor the input of the OAuth token is given. *)
Theorem token_is_never_empty (w : World) :
  (forall t, getToken w = Ok t -> JsString.truthy t = true) /\
  (forall e, getToken w = Throw e ->
     env_truthy w "CLAUDE_CODE_OAUTH_TOKEN" = None /\
     JsString.truthy (getInput w "claude_code_oauth_token") = false).
Proof.
  unfold getToken. split.
  - intros t. destruct (detectPlatform w).
    + destruct (env_or_input w "CLAUDE_CODE_OAUTH_TOKEN" "claude_code_oauth_token")
        as [x|] eqn:E1.
      { intros H. injection H as <-. exact (env_or_input_sound _ _ _ _ E1). }
      destruct (opt_truthy (Some (getInput w "github_token"))) as [x|] eqn:E2.
      { intros H. injection H as <-. exact (opt_truthy_sound _ _ E2). }
      destruct (env_truthy w "GITHUB_TOKEN") as [x|] eqn:E3.
      { intros H. injection H as <-. exact (env_truthy_sound _ _ _ E3). }
      destruct (opt_truthy (Some (getInput w "anthropic_api_key"))) as [x|] eqn:E4;
        [|discriminate].
      intros H. injection H as <-. exact (opt_truthy_sound _ _ E4).
    + destruct (env_truthy w "CLAUDE_CODE_GL_ACCESS_TOKEN") as [g|] eqn:E0.
      * destruct (prefix "$" g).
        -- destruct (env_or_input w "CLAUDE_CODE_OAUTH_TOKEN" "claude_code_oauth_token")
             as [x|] eqn:E1.
           { intros H. injection H as <-. exact (env_or_input_sound _ _ _ _ E1). }
           destruct (env_or_input w "GITLAB_TOKEN" "gitlab_token") as [x|] eqn:E2;
             [|discriminate].
           intros H. injection H as <-. exact (env_or_input_sound _ _ _ _ E2).
        -- intros H. injection H as <-. exact (env_truthy_sound _ _ _ E0).
      * destruct (env_or_input w "CLAUDE_CODE_OAUTH_TOKEN" "claude_code_oauth_token")
          as [x|] eqn:E1.
        { intros H. injection H as <-. exact (env_or_input_sound _ _ _ _ E1). }
        destruct (env_or_input w "GITLAB_TOKEN" "gitlab_token") as [x|] eqn:E2;
          [|discriminate].
        intros H. injection H as <-. exact (env_or_input_sound _ _ _ _ E2).
  - intros e.
    destruct (env_or_input w "CLAUDE_CODE_OAUTH_TOKEN" "claude_code_oauth_token")
      as [x|] eqn:E1.
    + destruct (detectPlatform w); [discriminate|].
      destruct (env_truthy w "CLAUDE_CODE_GL_ACCESS_TOKEN") as [g|];
        [destruct (prefix "$" g)|]; discriminate.
    + intros _. exact (env_or_input_none _ _ _ E1).
Qed.

(** X25.  A GitHub provider is created only with an owner and a
    repository name that are not empty and hold no slash; they are the
    first two segments of [GITHUB_REPOSITORY], and what follows a second
    slash is dropped. *)
Theorem github_repository_is_split_in_two
    (w : World) (options : ProviderFactoryOptions) (o : GitHubProviderOptions) :
  createProvider w options = Ok (GitHubProvider o) ->
  gh_owner o <> EmptyString /\ gh_repo o <> EmptyString /\
  lacks "/" (gh_owner o) = true /\ lacks "/" (gh_repo o) = true /\
  exists rest,
    or_else (env_truthy w "GITHUB_REPOSITORY") EmptyString
    = gh_owner o ++ "/" ++ gh_repo o ++ rest /\
    (rest = EmptyString \/ prefix "/" rest = true).
Proof.
  unfold createProvider.
  destruct (match platform options with
            | Some p => p
            | None => detectPlatform w
            end).
  2:{ destruct (gitlabResource w) as [mrIid issueIid].
      destruct (env_truthy w "CI_PROJECT_ID"); discriminate. }
  destruct (split_on "/" (or_else (env_truthy w "GITHUB_REPOSITORY") EmptyString))
    as [|owner [|repo more]] eqn:S; try discriminate.
  destruct (JsString.truthy owner) eqn:To; [|discriminate].
  destruct (JsString.truthy repo) eqn:Tr; [|discriminate].
  cbn [andb]. intros H. injection H as <-. cbn [gh_owner gh_repo].
  destruct (split_on_head _ _ _ _ S) as [Lo (rest & Hs & S2)].
  destruct (split_on_head _ _ _ _ S2) as [Lr Hm].
  split; [intros ->; discriminate To|].
  split; [intros ->; discriminate Tr|].
  split; [exact Lo|]. split; [exact Lr|].
  destruct more as [|h2 t2].
  - exists EmptyString. split; [|left; reflexivity].
    rewrite Hs, Hm, TextFacts.append_nil_r. reflexivity.
  - destruct Hm as (rest2 & -> & _). exists (String "/" rest2).
    split; [|right; exact (TextFacts.prefix_self_app "/" rest2)].
    rewrite Hs. reflexivity.
Qed.

Lemma env_is_exclusive (w : World) (name a b : string) :
  env_is w name a = true -> a <> b -> env_is w name b = false.
Proof.
  unfold env_is. destruct (getenv w name) as [v|]; [|discriminate].
  intros Ha Hab. apply String.eqb_eq in Ha. subst v.
  apply String.eqb_neq. exact Hab.
Qed.

Lemma updateEnv_issue (w : World) (prepareResult executeResult : PhaseResult) :
  override "CI_ISSUE_IID" (Entry.updateEnv w prepareResult executeResult)
  = match env_truthy w "CLAUDE_RESOURCE_ID" with
    | Some id => if env_is w "CLAUDE_RESOURCE_TYPE" "issue" then Some id else None
    | None => None
    end.
Proof.
  unfold Entry.updateEnv. rewrite ScriptFacts.override_app.
  destruct (env_truthy w "CLAUDE_RESOURCE_ID"); [|reflexivity].
  destruct (env_is w "CLAUDE_RESOURCE_TYPE" "issue"); [reflexivity|].
  destruct (env_is w "CLAUDE_RESOURCE_TYPE" "merge_request"); reflexivity.
Qed.

Lemma updateEnv_mergeRequest
    (w : World) (prepareResult executeResult : PhaseResult) :
  override "CI_MERGE_REQUEST_IID" (Entry.updateEnv w prepareResult executeResult)
  = match env_truthy w "CLAUDE_RESOURCE_ID" with
    | Some id =>
        if env_is w "CLAUDE_RESOURCE_TYPE" "merge_request" then Some id else None
    | None => None
    end.
Proof.
  unfold Entry.updateEnv. rewrite ScriptFacts.override_app.
  destruct (env_truthy w "CLAUDE_RESOURCE_ID"); [|reflexivity].
  destruct (env_is w "CLAUDE_RESOURCE_TYPE" "issue") eqn:Ei.
  - rewrite (env_is_exclusive _ _ _ "merge_request" Ei) by discriminate.
    reflexivity.
  - destruct (env_is w "CLAUDE_RESOURCE_TYPE" "merge_request"); reflexivity.
Qed.

(** X26.  The update script, started by the update phase, reads the
    notes of the resource the GitLab provider was created for: the merge
    request of the provider's options or else their issue.  This needs
    that [CI_ISSUE_IID] is not set in the job and that a pipeline for an
    issue has no [CI_MERGE_REQUEST_IID]. *)
Theorem script_targets_the_provider_resource
    (w : World) (options : ProviderFactoryOptions) (o : GitLabProviderOptions)
    (prepareResult executeResult : PhaseResult) :
  createProvider w options = Ok (GitLabProvider o) ->
  env_truthy w "CI_ISSUE_IID" = None ->
  (env_is w "CLAUDE_RESOURCE_TYPE" "issue" = true ->
   env_truthy w "CI_MERGE_REQUEST_IID" = None) ->
  @targetResource World (scriptRuntime RT w prepareResult executeResult) w
  = match opt_truthy (gl_mrIid o), opt_truthy (gl_issueIid o) with
    | Some m, _ => Some (MergeRequest, m)
    | None, Some i => Some (Issue, i)
    | None, None => None
    end.
Proof.
  intros Hcreate Hissue Hmr.
  assert (Ho : (gl_mrIid o, gl_issueIid o) = gitlabResource w).
  { revert Hcreate. unfold createProvider.
    destruct (match platform options with
              | Some p => p
              | None => detectPlatform w
              end).
    - destruct (split_on "/" _) as [|owner [|repo more]]; try discriminate.
      destruct (JsString.truthy owner && JsString.truthy repo); discriminate.
    - destruct (gitlabResource w) as [mrIid issueIid].
      destruct (env_truthy w "CI_PROJECT_ID"); [|discriminate].
      intros H. injection H as <-. reflexivity. }
  assert (Hmrs : @env_truthy World (scriptRuntime RT w prepareResult executeResult)
                   w "CI_MERGE_REQUEST_IID"
                 = match env_truthy w "CLAUDE_RESOURCE_ID" with
                   | Some id =>
                       if env_is w "CLAUDE_RESOURCE_TYPE" "merge_request"
                       then Some id else env_truthy w "CI_MERGE_REQUEST_IID"
                   | None => env_truthy w "CI_MERGE_REQUEST_IID"
                   end).
  { unfold env_truthy at 1.
    rewrite ScriptFacts.scriptRuntime_getenv, updateEnv_mergeRequest.
    destruct (env_truthy w "CLAUDE_RESOURCE_ID") as [id|] eqn:R; [|reflexivity].
    destruct (env_is w "CLAUDE_RESOURCE_TYPE" "merge_request"); [|reflexivity].
    rewrite (env_truthy_sound _ _ _ R). reflexivity. }
  assert (His : @env_truthy World (scriptRuntime RT w prepareResult executeResult)
                  w "CI_ISSUE_IID"
                = match env_truthy w "CLAUDE_RESOURCE_ID" with
                  | Some id =>
                      if env_is w "CLAUDE_RESOURCE_TYPE" "issue"
                      then Some id else None
                  | None => None
                  end).
  { unfold env_truthy at 1.
    rewrite ScriptFacts.scriptRuntime_getenv, updateEnv_issue.
    destruct (env_truthy w "CLAUDE_RESOURCE_ID") as [id|] eqn:R.
    - destruct (env_is w "CLAUDE_RESOURCE_TYPE" "issue").
      + rewrite (env_truthy_sound _ _ _ R). reflexivity.
      + exact Hissue.
    - exact Hissue. }
  assert (Hrid : @env_truthy World (scriptRuntime RT w prepareResult executeResult)
                   w "CLAUDE_RESOURCE_ID"
                 = env_truthy w "CLAUDE_RESOURCE_ID").
  { unfold env_truthy.
    rewrite ScriptFacts.scriptRuntime_getenv, ScriptFacts.updateEnv_fixed
      by discriminate.
    reflexivity. }
  unfold targetResource. rewrite Hmrs, His, Hrid.
  unfold gitlabResource in Ho.
  assert (Hopt : opt_truthy (getenv w "CI_MERGE_REQUEST_IID")
                 = env_truthy w "CI_MERGE_REQUEST_IID") by reflexivity.
  destruct (env_truthy w "CLAUDE_RESOURCE_ID") as [id|] eqn:R.
  - pose proof (env_truthy_sound _ _ _ R) as Tid.
    destruct (env_is w "CLAUDE_RESOURCE_TYPE" "merge_request") eqn:Em.
    + injection Ho as -> ->. cbn [opt_truthy]. rewrite Tid. reflexivity.
    + destruct (env_is w "CLAUDE_RESOURCE_TYPE" "issue") eqn:Ei.
      * injection Ho as -> ->. rewrite (Hmr eq_refl).
        cbn [opt_truthy]. rewrite Tid. reflexivity.
      * injection Ho as -> ->. rewrite Hopt.
        destruct (env_truthy w "CI_MERGE_REQUEST_IID"); [reflexivity|].
        cbn [opt_truthy]. rewrite Tid. reflexivity.
  - injection Ho as -> ->. rewrite Hopt.
    destruct (env_truthy w "CI_MERGE_REQUEST_IID"); reflexivity.
Qed.

End Factory.

End FactoryFacts.

(** ** The image scripts *)

Module ImageFacts.

Import JsString Host ImageScripts Shape.

(** X27.  [push-image.sh] pushes the references that [tag-image.sh]
    applies, in the same order: the branch, the branch with the revision,
    and one for each git tag of the commit. *)
Theorem pushed_images_are_the_tagged_images
    {World : Type} {RT : Runtime World}
    (w : World) (head revision tags : string) :
  map target (pushImage w head revision tags)
  = map target (tagImage w head revision tags).
Proof.
  unfold pushImage, tagImage. cbn [map target].
  rewrite !map_map. reflexivity.
Qed.

End ImageFacts.

(** ** The execute phase and the working branch *)

Module ExecuteFacts.

Import JsString Json Host Phase Entry Spec.

Section Execute.
Context {World : Type} {RT : Runtime World}.
Variable getClaudePromptsDirectory : World -> string.

(** X28.  With [CLAUDE_BRANCH] and [CI_PROJECT_DIR] set, the execute
    phase succeeds only when the set-up of the working branch has
    returned, and then git has named that branch as the current one. *)
Theorem execute_succeeds_only_on_the_branch
    (prepareResult : PhaseResult) (claudeBranch projectDir : string)
    (st : St) (r : PhaseResult) (st' : St) :
  env_truthy (fst st) "CLAUDE_BRANCH" = Some claudeBranch ->
  env_truthy (fst st) "CI_PROJECT_DIR" = Some projectDir ->
  runExecutePhase getClaudePromptsDirectory prepareResult st = (r, st') ->
  success r = true ->
  exists st1 w1 code out err,
    setupWorkingBranch claudeBranch projectDir st = (Ok tt, st1) /\
    sh GitRevParseHead w1 = (Completed code out err, fst st1) /\
    trim out = claudeBranch.
Proof.
  intros Hb Hd Hrun Hok.
  destruct (setupWorkingBranch claudeBranch projectDir st) as [[[]|e] st1] eqn:Hs.
  - destruct (BranchFacts.setupWorkingBranch_postcondition _ _ _ _ Hs)
      as (w1 & log1 & code & out & err & Hsh & _ & Hout).
    exists st1, w1, code, out, err. repeat split; assumption.
  - rewrite (BranchFacts.setupWorkingBranch_failure
               getClaudePromptsDirectory prepareResult _ _ _ _ _ Hb Hd Hs)
      in Hrun.
    injection Hrun as <- <-. discriminate Hok.
Qed.

End Execute.

End ExecuteFacts.

(** ** More instances of the general statements *)

Module MoreScenarios.

Import JsString Json Host UpdateComment Phase Entry Spec Shape.
Import UpdateScript ProviderFactory.

(** X1 at the tracking comment of the project, with a cost of [2^70],
    which [toFixed] prints with an exponent. *)
Lemma formatted_body_links_job_witness :
  JsNumber.toFixed 4 (JsNumber.Fin 1 70) = Some "1.1805916207174113e+21" /\
  exists body,
    formatGitLabCommentBody (UpdateScript.note_body Lab.trackingNote) true
      Cases.pipelineUrl None (Some Cases.costly) = Some body /\
    includes body Cases.pipelineUrl = true.
Proof.
  split; [vm_compute; reflexivity|].
  apply (TextFacts.formatted_body_links_job
           (UpdateScript.note_body Lab.trackingNote) true Cases.pipelineUrl
           None (Some Cases.costly)).
Defined.

(** X2 at the tracking comment of the project. *)
Lemma formatted_body_has_no_open_item_witness :
  includes
    (replace_all "- [ ] " "- [x] "
       (replace_first workingMarker successMessage
          (UpdateScript.note_body Lab.trackingNote))) "- [ ] " = false.
Proof.
  pose proof (TextFacts.formatted_body_has_no_open_item
                (UpdateScript.note_body Lab.trackingNote) true
                Cases.pipelineUrl None None Cases.updatedNote) as P.
  cbv zeta in P. apply P. vm_compute. reflexivity.
Defined.


(** X4 at the id [2^60], a double that [toString] writes with its
    seventeen shortest digits and three zeros. *)
Lemma parseInt_reads_back_witness :
  int_to_string (IntOf (2 ^ 60)) = "1152921504606847000" /\
  parseInt (int_to_string (IntOf (2 ^ 60))) = IntOf (2 ^ 60).
Proof.
  split; [vm_compute; reflexivity|].
  apply (proj1 LinkFacts.parseInt_reads_back); vm_compute; reflexivity.
Defined.

(** X5 at the job. *)
Lemma execute_result_forwards_comment_id_witness :
  exists file,
    outputFile (fst (runExecutePhase Sim.promptsDirectory Sim.prepared
                       (Sim.start Sim.job))) = Some file.
Proof.
  pose proof (MorePhaseFacts.execute_result_forwards_comment_id
                Sim.promptsDirectory Sim.prepared (Sim.start Sim.job)) as P.
  cbv zeta in P. destruct P as (_ & _ & P). apply P. vm_compute. reflexivity.
Defined.

(** X6 at a job whose prepare script fails. *)
Lemma phase_results_carry_error_on_failure_witness :
  Phase.commentId (fst (runPreparePhase (Sim.start Cases.prepareFails))) = None.
Proof.
  pose proof (MorePhaseFacts.phase_results_carry_error_on_failure
                Sim.executionOutputPath Sim.prepared Sim.executed
                (Sim.start Cases.prepareFails)) as P.
  cbv zeta in P. destruct P as (_ & P & _). apply P. vm_compute. reflexivity.
Defined.

(** X7 at a job whose prepare script fails. *)
Lemma main_stops_after_failed_prepare_witness :
  main Sim.promptsDirectory Sim.executionOutputPath
       (Sim.start Cases.prepareFails)
  = (1, (Cases.prepareFails, [BunRunPrepare])).
Proof.
  pose proof (MorePhaseFacts.main_stops_after_failed_prepare
                Sim.promptsDirectory Sim.executionOutputPath
                (Sim.start Cases.prepareFails)) as P.
  cbv zeta in P. rewrite P.
  - reflexivity.
  - vm_compute. reflexivity.
  - vm_compute. discriminate.
Defined.

(** X8 at a job without a tracking comment and with a new source file. *)
Lemma submitter_needs_comment_id_to_comment_witness :
  exists added,
    snd (snd (createMergeRequest Sim.preparedWithoutId Sim.executed
                (Sim.start Cases.sourceChanged)))
    = (snd (Sim.start Cases.sourceChanged) ++ added)%list /\
    Forall (fun c => isCreateComment c = false) added.
Proof.
  apply (MorePhaseFacts.submitter_needs_comment_id_to_comment
           Sim.preparedWithoutId Sim.executed).
  reflexivity.
Defined.

(** X9 at a job without output files. *)
Lemma poster_creates_at_most_one_comment_witness :
  snd (postClaudeResponse Sim.executionOutputPath Sim.prepared
         Sim.preparedWithoutId (Sim.start Cases.noOutputs))
  = Sim.start Cases.noOutputs.
Proof.
  pose proof (MorePhaseFacts.poster_creates_at_most_one_comment
                Sim.executionOutputPath Sim.prepared Sim.preparedWithoutId
                (Sim.start Cases.noOutputs)) as P.
  cbv zeta in P. destruct P as [_ P]. apply P.
  repeat constructor.
Defined.

(** X10 at a job with a new source file. *)
Lemma changes_reported_only_from_status_witness :
  exists w code out err,
    sh GitStatusPorcelain w
    = (Completed code out err,
       fst (snd (checkGitStatus (Sim.start Cases.sourceChanged)))) /\
    classifyStatus (trim out) = true.
Proof.
  apply (ClassifierFacts.changes_reported_only_from_status
           (Sim.start Cases.sourceChanged)).
  vm_compute. reflexivity.
Defined.

(** X13 at a log file and a source file. *)
Lemma classification_by_lines_witness :
  classifyStatus (join_lines ["?? debug.log"; "?? src/app.ts"])
  = existsb (isProjectFile true) ["?? debug.log"; "?? src/app.ts"].
Proof.
  apply (ClassifierFacts.classification_by_lines
           ["?? debug.log"; "?? src/app.ts"]).
  - repeat constructor.
  - vm_compute. discriminate.
Defined.

(** X14 at a source file. *)
Lemma classified_change_reaches_commit_witness :
  ~ nothingRemains "?? src/app.ts".
Proof.
  apply (ClassifierFacts.classified_change_reaches_commit "?? src/app.ts").
  vm_compute. reflexivity.
Defined.

(** X15 at the result record between two assistant records. *)
Lemma result_record_ends_the_scan_witness :
  scanLines Sim.printNumber [Sim.resultLine; Sim.assistantLine] (JStr EmptyString)
  = prop_value (get Cases.resultRecord "result") /\
  scanLines Sim.printNumber
    ([Sim.assistantLine] ++ Sim.resultLine :: [Sim.assistantLine])
    (JStr EmptyString)
  = scanLines Sim.printNumber ([Sim.assistantLine] ++ [Sim.resultLine])
      (JStr EmptyString).
Proof.
  apply (TranscriptFacts.result_record_ends_the_scan Sim.printNumber
           [Sim.assistantLine] Sim.resultLine [Sim.assistantLine]
           Cases.resultRecord (JStr EmptyString));
    vm_compute; reflexivity.
Defined.

(** X16 at a transcript of one record. *)
Lemma single_value_file_gives_no_details_witness :
  detailsOfContent Sim.resultLine = None /\
  parseJsonl Sim.resultLine = [Cases.resultRecord].
Proof.
  destruct (TranscriptFacts.single_value_file_gives_no_details
              Sim.resultLine Cases.resultRecord) as [H1 H2].
  - vm_compute. reflexivity.
  - intros items. vm_compute. discriminate.
  - split; [exact H1|]. apply H2; vm_compute; reflexivity.
Defined.


(** X18 at the project. *)
Lemma script_never_fails_the_job_witness :
  exists e st',
    Cases.scriptOutcome = Some (e, st') /\
    (e = Returned \/
     exists reason,
       e = Exited 0 ("Failed to update GitLab comment: " ++ reason)).
Proof.
  exists Returned, Cases.afterScript. split; [vm_compute; reflexivity|].
  apply (proj1 (@ScriptFacts.script_never_fails_the_job Lab.World
                  Cases.scriptRuntime Lab.api (Lab.begin Lab.project))
               Returned Cases.afterScript).
  vm_compute. reflexivity.
Defined.

(** X19 at the project. *)
Lemma script_edits_only_the_note_it_found_witness :
  exists calls,
    snd Cases.afterScript = (snd (Lab.begin Lab.project) ++ calls)%list /\
    (List.length calls <= 2)%nat /\
    forall r p i n b,
      In (NotesEdit r p i n b) calls ->
      calls = [NotesAll r p i; NotesEdit r p i n b] /\
      parseInt (@env_text Lab.World Cases.scriptRuntime Lab.project
                  "CLAUDE_COMMENT_ID") = IntOf n /\
      exists notes w1 note,
        notesAll r p i Lab.project = (inr notes, w1) /\
        In note notes /\ note_id note = n /\
        exists details,
          formatGitLabCommentBody (note_body note)
            (@actionSucceeded Lab.World Cases.scriptRuntime Lab.project)
            (@jobUrl Lab.World Cases.scriptRuntime w1
               (@gitlabHost Lab.World Cases.scriptRuntime Lab.project) p)
            (@getenv Lab.World Cases.scriptRuntime Lab.project "PREPARE_ERROR")
            details = Some b.
Proof.
  apply (@ScriptFacts.script_edits_only_the_note_it_found Lab.World
           Cases.scriptRuntime Lab.api (Lab.begin Lab.project)
           Returned Cases.afterScript).
  vm_compute. reflexivity.
Defined.

(** X20 at the project. *)
Lemma script_makes_no_call_without_settings_witness :
  exists id project target targetIid token rest,
    parseInt (@env_text Lab.World Cases.scriptRuntime Lab.project
                "CLAUDE_COMMENT_ID") = IntOf id /\
    @env_truthy Lab.World Cases.scriptRuntime Lab.project "CI_PROJECT_ID"
    = Some project /\
    @targetResource Lab.World Cases.scriptRuntime Lab.project
    = Some (target, targetIid) /\
    @gitlabToken Lab.World Cases.scriptRuntime Lab.project = Some token /\
    snd Cases.afterScript
    = (snd (Lab.begin Lab.project)
         ++ NotesAll target project (parseInt targetIid) :: rest)%list.
Proof.
  apply (@ScriptFacts.script_makes_no_call_without_settings Lab.World
           Cases.scriptRuntime Lab.api (Lab.begin Lab.project)
           Returned Cases.afterScript).
  - vm_compute. reflexivity.
  - vm_compute. discriminate.
Defined.

(** X21 at the project. *)
Lemma script_returns_only_after_the_edit_witness :
  exists r p i n b w1,
    snd Cases.afterScript
    = (snd (Lab.begin Lab.project) ++ [NotesAll r p i; NotesEdit r p i n b])%list /\
    notesEdit r p i n b w1 = (None, fst Cases.afterScript).
Proof.
  apply (@ScriptFacts.script_returns_only_after_the_edit Lab.World
           Cases.scriptRuntime Lab.api (Lab.begin Lab.project)
           Cases.afterScript).
  vm_compute. reflexivity.
Defined.

(** X22 at the project: the script reads the comment id 4711 of the
    prepare phase. *)
Lemma script_receives_the_phase_results_witness :
  parseInt (@env_text Lab.World
              (scriptRuntime Lab.runtime Lab.project Sim.prepared Sim.executed)
              Lab.project "CLAUDE_COMMENT_ID")
  = IntOf 4711.
Proof.
  apply (proj1 (@ScriptFacts.script_receives_the_phase_results Lab.World
                  Lab.runtime Lab.project Sim.prepared Sim.executed)).
  split; vm_compute; reflexivity.
Defined.

(** X23 at the project: the note edited is the comment 4711 of the
    prepare phase. *)
Lemma script_edits_the_prepared_comment_witness :
  Phase.commentId Sim.prepared = Some (IntOf 4711) /\
  env_truthy Lab.project "CI_PROJECT_ID" = Some "42".
Proof.
  apply (ScriptFacts.script_edits_the_prepared_comment Lab.runtime Lab.api
           Lab.project Sim.prepared Sim.executed Returned Cases.afterScript
           Issue "42" (IntOf 7) 4711 Cases.editedBody).
  - split; vm_compute; reflexivity.
  - vm_compute. reflexivity.
  - vm_compute. right. left. reflexivity.
Defined.

(** X24 at the project. *)
Lemma token_is_never_empty_witness :
  exists t, getToken Lab.project = Ok t /\ JsString.truthy t = true.
Proof.
  exists "glpat-example". split; [vm_compute; reflexivity|].
  apply (proj1 (FactoryFacts.token_is_never_empty Lab.project)).
  vm_compute. reflexivity.
Defined.

(** X25 at a repository name of three segments. *)
Lemma github_repository_is_split_in_two_witness :
  exists rest,
    or_else (env_truthy Cases.github "GITHUB_REPOSITORY") EmptyString
    = "octo" ++ "/" ++ "tool" ++ rest /\
    (rest = EmptyString \/ prefix "/" rest = true).
Proof.
  apply (FactoryFacts.github_repository_is_split_in_two Cases.github
           Cases.factoryOptions Cases.githubOptions).
  vm_compute. reflexivity.
Defined.

(** X26 at the project, a pipeline for issue 7. *)
Lemma script_targets_the_provider_resource_witness :
  @targetResource Lab.World Cases.scriptRuntime Lab.project
  = Some (Issue, "7").
Proof.
  apply (FactoryFacts.script_targets_the_provider_resource Lab.project
           Cases.factoryOptions Cases.gitlabOptions Sim.prepared Sim.executed).
  - vm_compute. reflexivity.
  - vm_compute. reflexivity.
  - intros _. vm_compute. reflexivity.
Defined.

(** X28 at the job whose working branch exists on the remote. *)
Lemma execute_succeeds_only_on_the_branch_witness :
  exists st1 w1 code out err,
    setupWorkingBranch Sim.workBranch Sim.projectDir
      (Sim.start Sim.branchOnRemote) = (Ok tt, st1) /\
    sh GitRevParseHead w1 = (Completed code out err, fst st1) /\
    trim out = Sim.workBranch.
Proof.
  apply (ExecuteFacts.execute_succeeds_only_on_the_branch Sim.promptsDirectory
           Sim.prepared Sim.workBranch Sim.projectDir
           (Sim.start Sim.branchOnRemote)
           (fst (runExecutePhase Sim.promptsDirectory Sim.prepared
                   (Sim.start Sim.branchOnRemote)))
           (snd (runExecutePhase Sim.promptsDirectory Sim.prepared
                   (Sim.start Sim.branchOnRemote)))).
  - reflexivity.
  - reflexivity.
  - vm_compute. reflexivity.
  - vm_compute. reflexivity.
Defined.

End MoreScenarios.
